(** * SPECIES Marketplace settlement pipeline: a shallow embedding

    The TypeScript service sketches of the SpecCards (Classifier, Matching,
    Cashier, Floor Manager) and of the Validator specification are embedded
    as Rocq functions, service by service, and the properties of the
    settlement pipeline are stated and proved over them.

    Conventions of the embedding:
    - a JS [number] that carries an asset or ledger amount is a [Z] (the
      smallest unit), and where such amounts are added the sum is rounded
      as a double rounds it ([JSNumber.add]); the payment amounts that the
      Validator subtracts, multiplies, divides and compares are IEEE doubles
      ([PrimFloat.float]), as JS numbers are;
    - an optional field [f?: T] is an [option T]; [Map.get] is a [gmap]
      lookup;
    - [new Date()] is an explicit argument (epoch milliseconds, [Time]), one
      per read and in evaluation order; [toISOString] is injective on
      instants, so the instant stands for the string;
    - [generateUUID()] is a counter threaded through the state;
    - a thrown exception is an [Err] result; the event bus, the database and
      the external ledger are fields of an explicit state. *)

From Stdlib Require Import ZArith String Ascii List Lia QArith.
From Stdlib Require PrimFloat.
From stdpp Require Import gmap strings list pretty.

Open Scope string_scope.

Definition Time := Z.

(** ** JavaScript string helpers *)

Module JS.

(** [String.prototype.toLowerCase], on the ASCII letters. *)
Definition lowerAscii (c : ascii) : ascii :=
  let n := nat_of_ascii c in
  if (Nat.leb 65 n && Nat.leb n 90)%bool then ascii_of_nat (n + 32) else c.

Fixpoint toLowerCase (s : string) : string :=
  match s with
  | EmptyString => EmptyString
  | String c s' => String (lowerAscii c) (toLowerCase s')
  end.

(** [s.includes(sub)]: [sub] occurs in [s] at some position. *)
Fixpoint includes (s sub : string) : bool :=
  (String.prefix sub s ||
   match s with
   | EmptyString => false
   | String _ s' => includes s' sub
   end)%bool.

(** Truthiness of an optional string: [undefined] and the empty string are
    falsy. *)
Definition truthyStr (o : option string) : bool :=
  match o with
  | Some s => negb (String.eqb s "")
  | None => false
  end.

(** Truthiness of an optional object: every object is truthy. *)
Definition truthyObj {A : Type} (o : option A) : bool :=
  match o with
  | Some _ => true
  | None => false
  end.

End JS.

(** ** Classifier (SpecCards/04_Classifier.ts) *)

Module Classifier.

Inductive Intent : Type :=
  | BUY_TREASURY | BUY_MARKET | SELL_MARKET | TRANSFER.

Inductive UserRole : Type :=
  | TRADER | MARKET_MAKER | TREASURY | LIQUIDITY_PROVIDER | MATCH_ME | ADMIN.

Definition isTreasuryRole (r : option UserRole) : bool :=
  match r with
  | Some TREASURY => true
  | _ => false
  end.

Record PutProceeds : Type := {
  usdtAddress : string;
  chain : string
}.

(** The [event] member of [ClassifierInput]. *)
Record InputEvent : Type := {
  ev_eventId : string;
  ev_from : string;
  ev_to : string;
  ev_amount : Z;
  ev_listingId : option string;
  ev_putProceeds : option PutProceeds
}.

Record ClassifierInput : Type := {
  event : InputEvent;
  userRegistry : option (gmap string UserRole);
  in_ts : Time
}.

Record Metadata : Type := {
  fromRole : option UserRole;
  toRole : option UserRole;
  classificationReason : string
}.

(** [OrderClassified]; its [topic] is the constant ['order.classified']. *)
Record OrderClassified : Type := {
  oc_eventId : string;
  intent : Intent;
  oc_amount : Z;
  oc_listingId : option string;
  metadata : Metadata;
  oc_ts : Time
}.

Record OrderValidated : Type := {
  ov_eventId : string;
  ov_from : string;
  ov_to : string;
  ov_amount : Z;
  ov_mode : string;
  ov_prepaid : bool;
  ov_ts : Time
}.

(** [registry?.get(k)] *)
Definition registryGet (registry : option (gmap string UserRole)) (k : string)
  : option UserRole :=
  match registry with
  | Some m => m !! k
  | None => None
  end.

Definition isTreasuryDestination (to : string)
    (registry : option (gmap string UserRole)) : bool :=
  if JS.includes (JS.toLowerCase to) "treasury" then true
  else if isTreasuryRole (registryGet registry to) then true
  else false.

(** The decision tree of [decide]: the intent and the reason it records. *)
Definition decideIntent (input : ClassifierInput) : Intent * string :=
  let e := event input in
  if JS.truthyStr (ev_listingId e) then
    (BUY_MARKET, "Explicit listing ID provided")
  else if isTreasuryDestination (ev_to e) (userRegistry input) then
    (BUY_TREASURY, "Destination is treasury")
  else if JS.truthyObj (ev_putProceeds e) then
    (SELL_MARKET, "Put proceeds specified")
  else
    (TRANSFER, "P2P transfer (default)").

(** [decide]; [now] is the value of [new Date()] read for the [ts] field. *)
Definition decide (now : Time) (input : ClassifierInput) : OrderClassified :=
  let e := event input in
  let '(i, reason) := decideIntent input in
  {| oc_eventId := ev_eventId e;
     intent := i;
     oc_amount := ev_amount e;
     oc_listingId := ev_listingId e;
     metadata := {| fromRole := registryGet (userRegistry input) (ev_from e);
                    toRole := registryGet (userRegistry input) (ev_to e);
                    classificationReason := reason |};
     oc_ts := now |}.

(** The classifier input that [processEvent] builds from an
    ['order.validated'] event; [t_in] is the clock read for its [ts]. *)
Definition inputOfValidated (t_in : Time) (ev : OrderValidated)
  : ClassifierInput :=
  {| event := {| ev_eventId := ov_eventId ev;
                 ev_from := ov_from ev;
                 ev_to := ov_to ev;
                 ev_amount := ov_amount ev;
                 ev_listingId := None;
                 ev_putProceeds := None |};
     userRegistry := None;
     in_ts := t_in |}.

(** [processEvent]: the event bus is the list of published events, newest
    last. *)
Definition processEvent (t_in t_out : Time) (ev : OrderValidated)
    (bus : list OrderClassified) : list OrderClassified :=
  bus ++ [decide t_out (inputOfValidated t_in ev)].

(** The conditions of the decision order, on the request's own fields and
    without the functions of [decide]: an explicit listing reference is a
    non-empty [listingId]; a proceeds address is a present [putProceeds]. *)
Definition hasListingReference (e : InputEvent) : Prop :=
  exists l, ev_listingId e = Some l /\ l <> "".

Definition hasProceedsAddress (e : InputEvent) : Prop :=
  exists p, ev_putProceeds e = Some p.

(** The name has the word "treasury" somewhere inside it, in any letter
    case: it is some text, then a word that lower-cases to "treasury", then
    some text. *)
Definition mentionsTreasury (to : string) : Prop :=
  exists a m b, to = a ++ m ++ b /\ JS.toLowerCase m = "treasury".

(** The registry is present and records the treasury role for the name. *)
Definition hasTreasuryRole (input : ClassifierInput) : Prop :=
  exists registry, userRegistry input = Some registry /\
    registry !! ev_to (event input) = Some TREASURY.

(** A treasury destination in the sense of the SpecCard's step 5: the
    destination ['to' is treasury user or contains 'treasury']. *)
Definition treasuryDestination (input : ClassifierInput) : Prop :=
  mentionsTreasury (ev_to (event input)) \/ hasTreasuryRole input.

(** [treasuryIdentifiers]: the default of the service configuration. *)
Definition treasuryIdentifiers : list string :=
  ["treasury"; "usr-treasury-vault-system"].

(** The destination resolves to the treasury account: it is one of the
    treasury's identifiers, or the registry records the treasury role for
    it. *)
Definition resolvesToTreasuryAccount (input : ClassifierInput) : Prop :=
  In (ev_to (event input)) treasuryIdentifiers \/ hasTreasuryRole input.

(** The output with its emission timestamp replaced. *)
Definition withTs (t : Time) (o : OrderClassified) : OrderClassified :=
  {| oc_eventId := oc_eventId o;
     intent := intent o;
     oc_amount := oc_amount o;
     oc_listingId := oc_listingId o;
     metadata := metadata o;
     oc_ts := t |}.

End Classifier.

(** ** The MCP server's display helper
    (simplified/species-mcp-server-simplified.ts) *)

Module MCP.

Import Classifier.

Record EventRequest : Type := {
  rq_to : string;
  rq_metadataListingId : option string;
  rq_putProceeds : option PutProceeds;
  rq_payWith : option string
}.

(** [inferTransactionType]: the transaction type shown in a request
    preview. *)
Definition inferTransactionType (request : EventRequest) : Intent :=
  if JS.truthyStr (rq_metadataListingId request) then BUY_MARKET
  else if (String.eqb (rq_to request) "treasury"
           || JS.includes (rq_to request) "treasury")%bool then BUY_TREASURY
  else if JS.truthyObj (rq_putProceeds request) then SELL_MARKET
  else if JS.truthyObj (rq_payWith request) then BUY_MARKET
  else TRANSFER.

End MCP.

(** ** Results of effectful code *)

(** A call either returns a value or throws. *)
Inductive Result (E A : Type) : Type :=
  | Ok (a : A)
  | Err (e : E).
Arguments Ok {E A} a.
Arguments Err {E A} e.

(** ** Matching Service (the Matching SpecCard) *)

Module Matching.

Import Classifier.

Inductive FillStatus : Type :=
  | PENDING | RESERVED | CONFIRMED | EXPIRED.

(** A profile of the Marketplace User Registry. *)
Record User : Type := {
  onliId : string;
  vaultId : option string
}.

Record OrderClassified : Type := {
  eventId : string;
  intent : Intent;
  amount : Z;
  listingId : option string;
  from : string;
  to : string;
  ts : Time
}.

Record Fill : Type := {
  matchId : nat;
  f_eventId : string;
  buyerId : string;
  buyerVault : option string;
  sellerId : string;
  sellerVault : option string;
  fillAmount : Z;
  f_listingId : option string;
  requiresBuyerProof : bool;
  status : FillStatus;
  createdAt : Time;
  expiresAt : Time
}.

Inductive MatchError : Type :=
  | UserNotFound (who : string)
  | NoFillsCreated (eventId : string).

(** The clock reads and the UUID draw of one call: [new Date()] for
    [createdAt], [Date.now()] for [expiresAt]. *)
Record Env : Type := {
  uuid : nat;
  now_created : Time;
  now_expiry : Time
}.

Section Service.

(** [registry.getUser]: the registry lookup; an unknown user makes the call
    throw. *)
Variable registry : gmap string User.

(** The fill builders of the other intents are called by [createFills] but
    are not part of the service sketch. *)
Variable createMarketFills : OrderClassified -> Result MatchError (list Fill).
Variable createListing : OrderClassified -> Result MatchError (list Fill).
Variable createTransferFill : OrderClassified -> Result MatchError (list Fill).

Definition getUser (who : string) : Result MatchError User :=
  match registry !! who with
  | Some u => Ok u
  | None => Err (UserNotFound who)
  end.

Definition createTreasuryFill (env : Env) (ev : OrderClassified)
  : Result MatchError (list Fill) :=
  match getUser (from ev) with
  | Err e => Err e
  | Ok buyer =>
      Ok [ {| matchId := uuid env;
              f_eventId := eventId ev;
              buyerId := onliId buyer;
              buyerVault := vaultId buyer;
              sellerId := "usr-treasury-vault-system";
              sellerVault := Some "treasury-vault";
              fillAmount := amount ev;
              f_listingId := None;
              requiresBuyerProof := false;
              status := RESERVED;
              createdAt := now_created env;
              expiresAt := (now_expiry env + 5 * 60 * 1000)%Z |} ]
  end.

Definition createFills (env : Env) (ev : OrderClassified)
  : Result MatchError (list Fill) :=
  match intent ev with
  | BUY_TREASURY => createTreasuryFill env ev
  | BUY_MARKET => createMarketFills ev
  | SELL_MARKET => createListing ev
  | TRANSFER => createTransferFill ev
  end.

End Service.

(** A fill holds a reservation lease when it is created [RESERVED]; its
    lease runs until [expiresAt]. *)
Definition holdsLease (f : Fill) : bool :=
  match status f with
  | RESERVED => true
  | _ => false
  end.

End Matching.

(** ** The order book: listings and reservation leases

    The Matching SpecCard declares [Listing] and dispatches market purchases
    and listing creation to [createMarketFills] and [createListing], whose
    bodies, like the release of expired reservations, are not in the
    sketch. *)

Module OrderBook.

Inductive ListingStatus : Type :=
  | ACTIVE | PARTIALLY_FILLED | FILLED | LISTING_EXPIRED | CANCELLED.

Inductive ReservationStatus : Type :=
  | RESERVED | PAYMENT_PENDING | CONFIRMED | EXPIRED.

(** The [Listing] interface of the SpecCard; [amount] is the listing's
    total amount. Listings live in an arena, a listing's id is its index. *)
Record Listing : Type := {
  listingId : nat;
  sellerId : string;
  amount : Z;
  priceUsdt : Z;
  availableAmount : Z;
  status : ListingStatus;
  createdAt : Time;
  expiresAt : Time
}.

(** Modelled from the spec: the [MatchReservation] of the data model, one
    allocation decision holding [r_amount] out of its listing's
    [availableAmount] for its lifetime. *)
Record MatchReservation : Type := {
  matchId : nat;
  r_eventId : string;
  buyerId : string;
  r_sellerId : string;
  r_amount : Z;
  r_listingId : nat;
  r_status : ReservationStatus;
  r_createdAt : Time;
  r_expiresAt : Time
}.

Record Book : Type := {
  listings : list Listing;
  reservations : list MatchReservation
}.

Definition emptyBook : Book := {| listings := []; reservations := [] |}.

(** The SpecCard's configuration: [listings.minAmount],
    [listings.defaultDuration], [reservations.defaultTTL] (milliseconds
    here) and [matching.allowPartialFills]. *)
Record Config : Type := {
  minAmount : Z;
  listingDuration : Z;
  reservationTTL : Z;
  allowPartialFills : bool
}.

Definition defaultConfig : Config :=
  {| minAmount := 5000;
     listingDuration := 172800 * 1000;
     reservationTTL := 300 * 1000;
     allowPartialFills := true |}.

Inductive BookError : Type :=
  | ListingNotFound
  | ListingInsufficient
  | ListingExpired
  | AmountBelowMinimum
  | ReservationNotFound
  | ReservationNotHeld
  | ReservationExpired
  | ReservationNotExpired.

Definition setAvailable (l : Listing) (a : Z) : Listing :=
  {| listingId := listingId l; sellerId := sellerId l; amount := amount l;
     priceUsdt := priceUsdt l; availableAmount := a; status := status l;
     createdAt := createdAt l; expiresAt := expiresAt l |}.

Definition setStatus (r : MatchReservation) (s : ReservationStatus)
  : MatchReservation :=
  {| matchId := matchId r; r_eventId := r_eventId r; buyerId := buyerId r;
     r_sellerId := r_sellerId r; r_amount := r_amount r;
     r_listingId := r_listingId r; r_status := s;
     r_createdAt := r_createdAt r; r_expiresAt := r_expiresAt r |}.

(** A reservation holds its amount until it is confirmed or expired. *)
Definition holds (r : MatchReservation) : bool :=
  match r_status r with
  | RESERVED | PAYMENT_PENDING => true
  | CONFIRMED | EXPIRED => false
  end.

(** Expiry is a read-time predicate: [now > expiresAt]. *)
Definition listingExpired (now : Time) (l : Listing) : bool :=
  (expiresAt l <? now)%Z.

Definition reservationExpired (now : Time) (r : MatchReservation) : bool :=
  (r_expiresAt r <? now)%Z.

(** Modelled from the spec: sell / listing creation. The amount is validated
    against the configured minimum; the new listing is [ACTIVE], wholly
    available, and expires a fixed duration after its creation. No fill is
    produced. *)
Definition createListing (cfg : Config) (now : Time) (seller : string)
    (amt price : Z) (b : Book) : Result BookError Book :=
  if (amt <? minAmount cfg)%Z then Err AmountBelowMinimum
  else
    Ok {| listings := listings b ++
            [ {| listingId := length (listings b); sellerId := seller;
                 amount := amt; priceUsdt := price; availableAmount := amt;
                 status := ACTIVE; createdAt := now;
                 expiresAt := (now + listingDuration cfg)%Z |} ];
          reservations := reservations b |}.

(** Modelled from the spec: market purchase. The referenced listing is
    located; no fill is created against an expired listing; when
    [availableAmount < requested] and partial fills are disallowed the
    purchase fails with "listing insufficient"; otherwise [availableAmount]
    is decremented by the filled amount and one reservation is created in
    [RESERVED] state with a short expiry. *)
Definition marketPurchase (cfg : Config) (now : Time) (evId buyer : string)
    (lid : nat) (requested : Z) (b : Book) : Result BookError Book :=
  match listings b !! lid with
  | None => Err ListingNotFound
  | Some l =>
      if listingExpired now l then Err ListingExpired
      else if ((availableAmount l <? requested)%Z
               && negb (allowPartialFills cfg))%bool
      then Err ListingInsufficient
      else
        let filled := Z.min requested (availableAmount l) in
        Ok {| listings :=
                <[lid := setAvailable l (availableAmount l - filled)%Z]>
                  (listings b);
              reservations := reservations b ++
                [ {| matchId := length (reservations b); r_eventId := evId;
                     buyerId := buyer; r_sellerId := sellerId l;
                     r_amount := filled; r_listingId := lid;
                     r_status := RESERVED; r_createdAt := now;
                     r_expiresAt := (now + reservationTTL cfg)%Z |} ] |}
  end.

(** Modelled from the spec: fill confirmation. A held reservation that has
    not expired becomes [CONFIRMED]; an expired one is void. *)
Definition confirmFill (now : Time) (mid : nat) (b : Book)
  : Result BookError Book :=
  match reservations b !! mid with
  | None => Err ReservationNotFound
  | Some r =>
      if negb (holds r) then Err ReservationNotHeld
      else if reservationExpired now r then Err ReservationExpired
      else Ok {| listings := listings b;
                 reservations := <[mid := setStatus r CONFIRMED]>
                                   (reservations b) |}
  end.

(** Modelled from the spec: reservation release. A reservation whose expiry
    elapsed without reaching [CONFIRMED] becomes [EXPIRED] and its held
    amount is returned to the parent listing. *)
Definition releaseExpired (now : Time) (mid : nat) (b : Book)
  : Result BookError Book :=
  match reservations b !! mid with
  | None => Err ReservationNotFound
  | Some r =>
      if negb (holds r) then Err ReservationNotHeld
      else if negb (reservationExpired now r) then Err ReservationNotExpired
      else
        match listings b !! r_listingId r with
        | None => Err ListingNotFound
        | Some l =>
            Ok {| listings :=
                    <[r_listingId r :=
                        setAvailable l (availableAmount l + r_amount r)%Z]>
                      (listings b);
                  reservations := <[mid := setStatus r EXPIRED]>
                                    (reservations b) |}
        end
  end.

(** The operations of the Matching Engine on the book. *)
Inductive Op : Type :=
  | CreateListing (seller : string) (amt price : Z)
  | MarketPurchase (evId buyer : string) (lid : nat) (requested : Z)
  | ConfirmFill (mid : nat)
  | ReleaseExpired (mid : nat).

Definition apply (cfg : Config) (now : Time) (op : Op) (b : Book)
  : Result BookError Book :=
  match op with
  | CreateListing seller amt price => createListing cfg now seller amt price b
  | MarketPurchase evId buyer lid requested =>
      marketPurchase cfg now evId buyer lid requested b
  | ConfirmFill mid => confirmFill now mid b
  | ReleaseExpired mid => releaseExpired now mid b
  end.

(** An admitted request carries a positive amount. *)
Definition admitted (op : Op) : Prop :=
  match op with
  | CreateListing _ amt _ => (0 < amt)%Z
  | MarketPurchase _ _ _ requested => (0 < requested)%Z
  | ConfirmFill _ | ReleaseExpired _ => True
  end.

(** The books the engine can reach from the empty book. *)
Inductive reachable (cfg : Config) : Book -> Prop :=
  | reach_empty : reachable cfg emptyBook
  | reach_step (b b' : Book) (now : Time) (op : Op) :
      reachable cfg b -> admitted op -> apply cfg now op b = Ok b' ->
      reachable cfg b'.

(** The amount that held reservations keep out of listing [lid]. *)
Definition contrib (lid : nat) (r : MatchReservation) : Z :=
  if (holds r && Nat.eqb (r_listingId r) lid)%bool then r_amount r else 0%Z.

Fixpoint held (lid : nat) (rs : list MatchReservation) : Z :=
  match rs with
  | [] => 0%Z
  | r :: rs' => (contrib lid r + held lid rs')%Z
  end.

(** The reservation that operation [op] releases, if it is a release. *)
Definition releasedBy (op : Op) (b : Book) : option MatchReservation :=
  match op with
  | ReleaseExpired mid => reservations b !! mid
  | _ => None
  end.

(** The invariant of the book: a listing's available amount is not
    negative and, with what its held reservations keep, stays within the
    listing's amount; reservations hold non-negative amounts of existing
    listings. *)
Definition listingOk (rs : list MatchReservation) (i : nat) (l : Listing)
  : Prop :=
  (0 <= availableAmount l)%Z /\
  (availableAmount l + held i rs <= amount l)%Z.

Definition bookInv (b : Book) : Prop :=
  (forall i l, listings b !! i = Some l -> listingOk (reservations b) i l) /\
  (forall r, r ∈ reservations b ->
     (0 <= r_amount r)%Z /\ r_listingId r < length (listings b)).

End OrderBook.

(** ** Cashier (SpecCards/06_Cashier.ts) *)

Module Cashier.

Import Classifier.

Inductive Currency : Type := USDT | SPECIES.

Inductive AccountKind : Type :=
  | USDT_cash
  | USDT_settlement_payable
  | USDT_fee_income
  | SPECIES_balance
  | SPECIES_inventory
  | SPECIES_in_transit.

Inductive Side : Type := Dr | Cr.

Definition currency_eqb (a b : Currency) : bool :=
  match a, b with
  | USDT, USDT | SPECIES, SPECIES => true
  | _, _ => false
  end.

Definition side_eqb (a b : Side) : bool :=
  match a, b with
  | Dr, Dr | Cr, Cr => true
  | _, _ => false
  end.

Record PaymentConfirmed : Type := {
  eventId : string;
  matchId : string;
  buyerId : string;
  sellerId : string;
  pc_intent : Intent;
  amount : Z;
  usdtAmount : Z;
  feeUsdt : option Z;
  provider : string;
  providerPaymentId : option string;
  confirmations : Z;
  ts : Time
}.

Record Account : Type := {
  onliId : string;
  kind : AccountKind
}.

Record LineMeta : Type := {
  m_provider : option string;
  m_paymentId : option string;
  m_network : option string;
  m_confirmations : option Z
}.

Record JournalLine : Type := {
  account : Account;
  currency : Currency;
  l_amount : Z;
  side : Side;
  memo : option string;
  meta : option LineMeta
}.

Record JournalPost : Type := {
  postingId : nat;
  j_eventId : string;
  j_matchId : string;
  lines : list JournalLine;
  postedAt : Time;
  description : string
}.

Record LedgerPosted : Type := {
  lp_eventId : string;
  lp_matchId : string;
  lp_postingId : nat;
  accountsAffected : list string;
  totalDebit : Z;
  totalCredit : Z;
  lp_ts : Time
}.

Definition mkLine (who : string) (k : AccountKind) (c : Currency) (a : Z)
    (s : Side) : JournalLine :=
  {| account := {| onliId := who; kind := k |};
     currency := c; l_amount := a; side := s; memo := None; meta := None |}.

Definition intentName (i : Intent) : string :=
  match i with
  | BUY_TREASURY => "BUY_TREASURY"
  | BUY_MARKET => "BUY_MARKET"
  | SELL_MARKET => "SELL_MARKET"
  | TRANSFER => "TRANSFER"
  end.

(** The lines that [createJournalEntries] pushes; the sketch has the
    [BUY_TREASURY] case only, any other intent leaves [lines] empty. *)
Definition journalLines (ev : PaymentConfirmed) : list JournalLine :=
  match pc_intent ev with
  | BUY_TREASURY =>
      [ mkLine (buyerId ev) SPECIES_balance SPECIES (amount ev) Dr;
        mkLine "treasury" SPECIES_inventory SPECIES (amount ev) Cr;
        mkLine "assurance" USDT_cash USDT (usdtAmount ev) Dr;
        mkLine (buyerId ev) USDT_cash USDT (usdtAmount ev) Cr ]
  | _ => []
  end.

(** [createJournalEntries]; [uuid] is the [generateUUID()] draw and [now]
    the clock read for [postedAt]. *)
Definition createJournalEntries (uuid : nat) (now : Time)
    (ev : PaymentConfirmed) : JournalPost :=
  {| postingId := uuid;
     j_eventId := eventId ev;
     j_matchId := matchId ev;
     lines := journalLines ev;
     postedAt := now;
     description :=
       intentName (pc_intent ev) ++ " - " ++ pretty (amount ev) ++ " SPECIES" |}.

(** The sum of the amounts of the lines on side [s] in currency [c]. *)
Fixpoint sumSide (s : Side) (c : Currency) (ls : list JournalLine) : Z :=
  match ls with
  | [] => 0%Z
  | l :: ls' =>
      ((if (side_eqb (side l) s && currency_eqb (currency l) c)%bool
        then l_amount l else 0) + sumSide s c ls')%Z
  end.

Definition balancedIn (c : Currency) (ls : list JournalLine) : bool :=
  (sumSide Dr c ls =? sumSide Cr c ls)%Z.

Definition balanced (ls : list JournalLine) : bool :=
  (balancedIn USDT ls && balancedIn SPECIES ls)%bool.

Inductive CashierError : Type :=
  | UnbalancedPosting
  | LedgerUnavailable
  | LedgerRejected.

(** What one call reads from its environment: whether the external ledger
    answers, and the two clock reads. *)
Record Env : Type := {
  fireflyUp : bool;
  now_posted : Time;
  now_emitted : Time
}.

(** The idempotency key, [`${eventId}:${matchId}`]. *)
Definition keyOf (ev : PaymentConfirmed) : string :=
  eventId ev ++ ":" ++ matchId ev.

Section Service.

(** The balance cache and the summaries of the ['ledger.posted'] event are
    computed by helpers that the sketch calls without defining them. *)
Variable Cache : Type.
Variable updateBalanceCache : JournalPost -> Cache -> Cache.
Variable getAffectedAccounts : JournalPost -> list string.
Variable sumDebits : JournalPost -> Z.
Variable sumCredits : JournalPost -> Z.

(** The stores the service writes: the local database of posting
    references, the external ledger keyed by idempotency token, the balance
    cache, the event bus, and the UUID source. *)
Record State : Type := {
  db : gmap string nat;
  ledger : gmap string JournalPost;
  cache : Cache;
  bus : list LedgerPosted;
  nextUuid : nat
}.

(** A call returns, or throws leaving the state it had reached. *)
Inductive Outcome : Type :=
  | Returned (st : State)
  | Threw (e : CashierError) (st : State).

Definition stateOf (o : Outcome) : State :=
  match o with
  | Returned st => st
  | Threw _ st => st
  end.

(** Modelled from the spec: [isAlreadyPosted], missing from the sketch. The
    key is already posted when the local database holds a posting reference
    for it. *)
Definition isAlreadyPosted (key : string) (st : State) : bool :=
  match db st !! key with
  | Some _ => true
  | None => false
  end.

(** Modelled from the spec: [validateBalanced], missing from the sketch. The
    poster verifies in-process that every currency's debit and credit sums
    are equal; a mismatch is a thrown, fatal error. *)
Definition validateBalanced (j : JournalPost) : Result CashierError unit :=
  if balanced (lines j) then Ok tt else Err UnbalancedPosting.

(** Modelled from the spec: [postToFirefly], missing from the sketch. The
    accounting system accepts a posting keyed by an idempotency token
    ([external_id], the [eventId:matchId] key), treats a repeated token as a
    no-op and rejects an unbalanced posting; it may be unavailable. *)
Definition postToFirefly (up : bool) (j : JournalPost)
    (l : gmap string JournalPost)
  : Result CashierError (nat * gmap string JournalPost) :=
  if negb up then Err LedgerUnavailable
  else if negb (balanced (lines j)) then Err LedgerRejected
  else
    let key := j_eventId j ++ ":" ++ j_matchId j in
    match l !! key with
    | Some j' => Ok (postingId j', l)
    | None => Ok (postingId j, <[key := j]> l)
    end.

(** Modelled from the spec: [storePostingReference], missing from the
    sketch; it records the posting reference under the key. *)
Definition storePostingReference (key : string) (pid : nat)
    (d : gmap string nat) : gmap string nat :=
  <[key := pid]> d.

(** [processPaymentConfirmed], over the journal builder [create]. *)
Definition processPaymentConfirmedWith
    (create : nat -> Time -> PaymentConfirmed -> JournalPost)
    (env : Env) (ev : PaymentConfirmed) (st : State) : Outcome :=
  let key := keyOf ev in
  if isAlreadyPosted key st then Returned st
  else
    let journal := create (nextUuid st) (now_posted env) ev in
    let st1 := {| db := db st; ledger := ledger st; cache := cache st;
                  bus := bus st; nextUuid := S (nextUuid st) |} in
    match validateBalanced journal with
    | Err e => Threw e st1
    | Ok _ =>
        match postToFirefly (fireflyUp env) journal (ledger st1) with
        | Err e => Threw e st1
        | Ok (pid, ledger') =>
            Returned
              {| db := storePostingReference key pid (db st1);
                 ledger := ledger';
                 cache := updateBalanceCache journal (cache st1);
                 bus := bus st1 ++
                   [ {| lp_eventId := eventId ev;
                        lp_matchId := matchId ev;
                        lp_postingId := pid;
                        accountsAffected := getAffectedAccounts journal;
                        totalDebit := sumDebits journal;
                        totalCredit := sumCredits journal;
                        lp_ts := now_emitted env |} ];
                 nextUuid := nextUuid st1 |}
        end
    end.

Definition processPaymentConfirmed : Env -> PaymentConfirmed -> State -> Outcome :=
  processPaymentConfirmedWith createJournalEntries.

(** Delivering the same message once per environment of [envs]. *)
Fixpoint deliver (envs : list Env) (ev : PaymentConfirmed) (st : State)
  : State :=
  match envs with
  | [] => st
  | env :: envs' =>
      deliver envs' ev (stateOf (processPaymentConfirmed env ev st))
  end.

End Service.

Arguments db {Cache} _.
Arguments ledger {Cache} _.
Arguments cache {Cache} _.
Arguments bus {Cache} _.
Arguments nextUuid {Cache} _.
Arguments Returned {Cache} _.
Arguments Threw {Cache} _ _.
Arguments stateOf {Cache} _.
Arguments isAlreadyPosted {Cache} _ _.

End Cashier.

(** ** Floor Manager (SpecCards/08_FloorManager.ts) *)

Module FloorManager.

Inductive Operation : Type := Issue | ChangeOwner.

Record OwnershipChanged : Type := {
  eventId : string;
  matchId : string;
  assetReceiptId : string;
  operation : Operation;
  from : option string;
  to : string;
  amount : Z;
  ts : Time
}.

Record OracleHelix : Type := {
  which_onli : string;
  what_kind : string;
  what_type : string;
  what_face : string;
  current_owner_id : string;
  current_owner_name : string;
  last_updated : string;
  blacklisted : bool
}.

(** The request of the [RevealGenomes] RPC as [verifyWithOracle] sends
    it. *)
Record OracleVerifyRequest : Type := {
  who : string;
  limit : string;
  sort_by : string;
  sort_order : string
}.

(** The request [verifyWithOracle] sends for [owner]. *)
Definition oracleRequest (owner : string) : OracleVerifyRequest :=
  {| who := owner; limit := "1000"; sort_by := "last_updated";
     sort_order := "DESC" |}.

(** The value [verifyWithOracle] returns. *)
Record OracleResult : Type := {
  verified : bool;
  helixCount : nat;
  reason : option string
}.

Inductive ReconcileError : Type :=
  | OracleUnavailable
  | OracleVerificationFailed (why : option string)
  | LedgerFinalizationFailed
  | ReceiptGenerationFailed
  | ReceiptStoreFailed
  | CleanupFailed.

Section Service.

(** The canonical receipt is composed by a helper outside the sketch. *)
Variable EventReceipt : Type.

(** The collaborators of one call: the oracle RPC ([None] when it throws),
    ledger finalization, receipt storage and cleanup ([false] when they
    throw) and receipt composition ([None] when it throws). *)
Variable revealGenomes : OracleVerifyRequest -> option (list OracleHelix).
Variable finalizeLedgers : OwnershipChanged -> bool.
Variable composeEventReceipt : string -> option EventReceipt.
Variable storeReceipt : EventReceipt -> bool.
Variable cleanup : string -> bool.

(** What the call publishes: ['order.completed'] with status [COMPLETED]
    and the receipt, or the failure handed to
    [handleReconciliationFailure]. *)
Inductive Outcome : Type :=
  | Completed (evId : string) (receipt : EventReceipt) (t : Time)
  | ReconciliationFailure (ev : OwnershipChanged) (e : ReconcileError).

Definition verifyWithOracle (owner receiptId : string)
  : Result ReconcileError OracleResult :=
  match revealGenomes (oracleRequest owner) with
  | None => Err OracleUnavailable
  | Some helices =>
      let v := existsb (fun helix => String.eqb (current_owner_id helix) owner)
                       helices in
      Ok {| verified := v;
            helixCount := length helices;
            reason := if v then None else Some "Owner not found in oracle" |}
  end.

(** [processOwnershipChanged]; [now] is the clock read for the [ts] of the
    completion event. Every step of the [try] block that throws ends in
    the [catch]. *)
Definition processOwnershipChanged (now : Time) (ev : OwnershipChanged)
  : Outcome :=
  match verifyWithOracle (to ev) (assetReceiptId ev) with
  | Err e => ReconciliationFailure ev e
  | Ok oracleResult =>
      if negb (verified oracleResult) then
        ReconciliationFailure ev (OracleVerificationFailed (reason oracleResult))
      else if negb (finalizeLedgers ev) then
        ReconciliationFailure ev LedgerFinalizationFailed
      else
        match composeEventReceipt (eventId ev) with
        | None => ReconciliationFailure ev ReceiptGenerationFailed
        | Some receipt =>
            if negb (storeReceipt receipt) then
              ReconciliationFailure ev ReceiptStoreFailed
            else if negb (cleanup (eventId ev)) then
              ReconciliationFailure ev CleanupFailed
            else Completed (eventId ev) receipt now
        end
  end.

End Service.

Arguments Completed {EventReceipt} _ _ _.
Arguments ReconciliationFailure {EventReceipt} _ _.

Definition isCompleted {R : Type} (o : Outcome R) : bool :=
  match o with
  | Completed _ _ _ => true
  | ReconciliationFailure _ _ => false
  end.

(** The same event with another amount. *)
Definition withAmount (a : Z) (ev : OwnershipChanged) : OwnershipChanged :=
  {| eventId := eventId ev; matchId := matchId ev;
     assetReceiptId := assetReceiptId ev; operation := operation ev;
     from := from ev; to := to ev; amount := a; ts := ts ev |}.

End FloorManager.

(** ** Validator (Architecture/Validator_Service_Spec.md) *)

Module Validator.

Import PrimFloat.

(** The payment record that [GET /payment/{id}] returns. *)
Record NOWPayment : Type := {
  payment_status : string;
  price_amount : float;
  price_currency : string;
  actually_paid : float;
  pay_currency : string;
  confirmations : option Z;
  created_at : Time
}.

(** A fetched TRON transaction, with the fields that
    [decodeTRC20Transfer] and the checks read; [value] is the number that
    [parseInt] reads from the transfer's value string. *)
Record TronTx : Type := {
  contractRet : string;
  block_timestamp : Time;
  blockNumber : Z;
  contract_address : string;
  owner_address : string;
  to_address : string;
  value : float
}.

Record TRC20Transfer : Type := {
  contract : string;
  t_from : string;
  t_to : string;
  t_value : float
}.

Inductive Chain : Type := TRON | ETH | BSC | UNKNOWN.

(** [validationChecks]: the named checks in the order the object literal
    lists them, which is the order of [Object.values]. *)
Definition Checks := list (string * bool).

Record VerificationResult : Type := {
  valid : bool;
  proofId : string;
  actual_amount : float;
  vr_confirmations : Z;
  network : Chain;
  checks : Checks
}.

(** [Object.values(checks).every(check => check)] *)
Definition allChecks (cs : Checks) : bool := forallb snd cs.

(** [!checks.name]: a missing property is [undefined], hence falsy. *)
Definition failed (cs : Checks) (name : string) : bool :=
  match List.find (fun kv => String.eqb (fst kv) name) cs with
  | Some kv => negb (snd kv)
  | None => true
  end.

Definition USDT_CONTRACT : string := "TR7NHqjeKQxGTCi8q8ZY4pL8otSzgjLj6t".

(** The double that the literal [0.01] denotes. *)
#[warnings="-inexact-float"]
Definition cent : float := 0.01%float.

(** [Math.abs(price_amount - expectedAmount) < 0.01], in doubles. *)
Definition nowAmountCheck (price expectedAmount : float) : bool :=
  ltb (abs (price - expectedAmount)) cent.

(** USDT has 6 decimals on TRON: [parseInt(value) / 1_000_000]. *)
Definition normalizeAmount (v : float) : float := (v / 1000000)%float.

(** [this.normalizeAmount(decodedData.value) === expectedAmount], in
    doubles. *)
Definition tronAmountCheck (v expectedAmount : float) : bool :=
  eqb (normalizeAmount v) expectedAmount.

Inductive FailureReason : Type :=
  | proof_missing
  | proof_invalid_format
  | insufficient_confirmations
  | amount_mismatch
  | payment_not_complete
  | invalid_token
  | validation_failed
  | verification_error.

Record PayWith : Type := {
  pw_currency : string;
  pw_chain : Chain;
  proof : option string;
  feeProof : option string
}.

Record EventRequest : Type := {
  eventId : string;
  from : string;
  to : string;
  amount : float;
  payWith : option PayWith
}.

Record Evidence : Type := {
  e_proof : string;
  e_network : Chain;
  e_confirmations : Z;
  amount_usdt : float
}.

Record OrderValidated : Type := {
  ov_eventId : string;
  mode : string;
  prepaid : bool;
  evidence : Evidence;
  ov_ts : Time
}.

Record PaymentFailed : Type := {
  pf_eventId : string;
  pf_reason : FailureReason;
  pf_ts : Time
}.

(** *** Proof formats *)

Definition isAlnum (c : ascii) : bool :=
  let n := nat_of_ascii c in
  ((Nat.leb 48 n && Nat.leb n 57) || (Nat.leb 65 n && Nat.leb n 90)
   || (Nat.leb 97 n && Nat.leb n 122))%bool.

Definition isHex (c : ascii) : bool :=
  let n := nat_of_ascii c in
  ((Nat.leb 48 n && Nat.leb n 57) || (Nat.leb 65 n && Nat.leb n 70)
   || (Nat.leb 97 n && Nat.leb n 102))%bool.

Fixpoint allChars (p : ascii -> bool) (s : string) : bool :=
  match s with
  | EmptyString => true
  | String c s' => (p c && allChars p s')%bool
  end.

(** [/^npmt_[a-zA-Z0-9]+$/] *)
Definition isNOWPaymentId (proof : string) : bool :=
  (String.prefix "npmt_" proof
   && Nat.ltb 5 (String.length proof)
   && allChars isAlnum (String.substring 5 (String.length proof - 5) proof))%bool.

(** [/^[a-f0-9]{64}$/i] *)
Definition isTronTxHash (proof : string) : bool :=
  (Nat.eqb (String.length proof) 64 && allChars isHex proof)%bool.

Section Service.

(** Helpers that the document calls without defining them: the freshness
    window, the address decoding, the price and the request projections. *)
Variable isWithinTimeWindow : Time -> bool.
Variable fromHex : string -> string.
Variable getUSDTPrice : float.
Variable extractFromAddress : EventRequest -> string.
Variable getPaymentDestination : EventRequest -> string.
Variable determineMode : EventRequest -> string.

(** The backends: the payment processor's lookup, the indexer's transaction
    lookup and current block number; [None] is an error or a time-out. *)
Variable fetchPayment : string -> option NOWPayment.
Variable fetchTransaction : string -> option TronTx.
Variable getCurrentBlockNumber : option Z.

(** **** NOWPaymentsVerifier *)

(** [payment.confirmations || 0] *)
Definition getConfirmations (payment : NOWPayment) : Z :=
  match confirmations payment with
  | Some n => n
  | None => 0%Z
  end.

Definition detectNetwork (payment : NOWPayment) : Chain :=
  if String.eqb (pay_currency payment) "usdttrc20" then TRON
  else if String.eqb (pay_currency payment) "usdterc20" then ETH
  else if String.eqb (pay_currency payment) "usdtbep20" then BSC
  else UNKNOWN.

Definition nowChecks (payment : NOWPayment) (expectedAmount : float)
  : Checks :=
  [ ("status_check", String.eqb (payment_status payment) "finished");
    ("amount_check", nowAmountCheck (price_amount payment) expectedAmount);
    ("currency_check", String.eqb (price_currency payment) "USDT");
    ("confirmation_check", (12 <=? getConfirmations payment)%Z);
    ("timestamp_check", isWithinTimeWindow (created_at payment)) ].

Definition verifyPayment (paymentId : string) (expectedAmount : float)
  : option VerificationResult :=
  match fetchPayment paymentId with
  | None => None
  | Some payment =>
      let validationChecks := nowChecks payment expectedAmount in
      Some {| valid := allChecks validationChecks;
              proofId := paymentId;
              actual_amount := actually_paid payment;
              vr_confirmations := getConfirmations payment;
              network := detectNetwork payment;
              checks := validationChecks |}
  end.

(** **** TronVerifier *)

Definition decodeTRC20Transfer (tx : TronTx) : TRC20Transfer :=
  {| contract := contract_address tx;
     t_from := fromHex (owner_address tx);
     t_to := fromHex (to_address tx);
     t_value := value tx |}.

(** [getConfirmations(txHash)]: fetches the transaction again and subtracts
    its block number from the current one. *)
Definition tronConfirmations (txHash : string) : option Z :=
  match fetchTransaction txHash with
  | None => None
  | Some tx =>
      match getCurrentBlockNumber with
      | None => None
      | Some currentBlock => Some (currentBlock - blockNumber tx)%Z
      end
  end.

Definition tronChecks (tx : TronTx) (confs : Z)
    (fromAddress toAddress : string) (expectedAmount : float) : Checks :=
  let decodedData := decodeTRC20Transfer tx in
  [ ("contract_check", String.eqb (contract decodedData) USDT_CONTRACT);
    ("from_check", String.eqb (t_from decodedData) fromAddress);
    ("to_check", String.eqb (t_to decodedData) toAddress);
    ("amount_check", tronAmountCheck (t_value decodedData) expectedAmount);
    ("confirmation_check", (12 <=? confs)%Z);
    ("status_check", String.eqb (contractRet tx) "SUCCESS");
    ("timestamp_check", isWithinTimeWindow (block_timestamp tx)) ].

Definition verifyTransaction (txHash fromAddress toAddress : string)
    (expectedAmount : float) : option VerificationResult :=
  match fetchTransaction txHash with
  | None => None
  | Some tx =>
      match tronConfirmations txHash with
      | None => None
      | Some confs =>
          let validationChecks :=
            tronChecks tx confs fromAddress toAddress expectedAmount in
          Some {| valid := allChecks validationChecks;
                  proofId := txHash;
                  actual_amount := normalizeAmount (value tx);
                  vr_confirmations := confs;
                  network := TRON;
                  checks := validationChecks |}
      end
  end.

(** **** ValidatorService *)

Definition determineFailureReason (cs : Checks) : FailureReason :=
  if failed cs "confirmation_check" then insufficient_confirmations
  else if failed cs "amount_check" then amount_mismatch
  else if failed cs "status_check" then payment_not_complete
  else if failed cs "contract_check" then invalid_token
  else validation_failed.

Definition createPaymentFailed (now : Time) (evId : string)
    (r : FailureReason) : PaymentFailed :=
  {| pf_eventId := evId; pf_reason := r; pf_ts := now |}.

(** [validatePaymentProof]; an exception of the selected verifier is caught
    and reported as ['verification.error']. *)
Definition validatePaymentProof (now : Time) (req : EventRequest)
  : OrderValidated + PaymentFailed :=
  match payWith req with
  | None => inr (createPaymentFailed now (eventId req) proof_missing)
  | Some pw =>
      if negb (JS.truthyStr (proof pw)) then
        inr (createPaymentFailed now (eventId req) proof_missing)
      else
        let p := default "" (proof pw) in
        let expected := (amount req * getUSDTPrice)%float in
        let verification :=
          if isNOWPaymentId p then Some (verifyPayment p expected)
          else if isTronTxHash p then
            Some (verifyTransaction p (extractFromAddress req)
                    (getPaymentDestination req) expected)
          else None in
        match verification with
        | None =>
            inr (createPaymentFailed now (eventId req) proof_invalid_format)
        | Some None =>
            inr (createPaymentFailed now (eventId req) verification_error)
        | Some (Some verificationResult) =>
            if negb (valid verificationResult) then
              inr (createPaymentFailed now (eventId req)
                     (determineFailureReason (checks verificationResult)))
            else
              inl {| ov_eventId := eventId req;
                     mode := determineMode req;
                     prepaid := true;
                     evidence :=
                       {| e_proof := p;
                          e_network := network verificationResult;
                          e_confirmations := vr_confirmations verificationResult;
                          amount_usdt := actual_amount verificationResult |};
                     ov_ts := now |}
        end
  end.

End Service.

End Validator.

(** ** JavaScript numbers that hold whole amounts *)

Module JSNumber.

(** A number is a double: it holds a whole amount exactly when the amount
    has at most 53 significant bits. [roundToDouble z] is the whole amount
    that the double nearest to [z] holds: the bits below the 53 leading
    ones are dropped, rounding to the nearest and, half-way, to the even
    one. Amounts stay far below 2^1024, where a double overflows. *)
Definition roundToDouble (z : Z) : Z :=
  let a := Z.abs z in
  let e := (Z.log2 a - 52)%Z in
  if (e <=? 0)%Z then z
  else
    let q := Z.shiftr a e in
    let r := (a - Z.shiftl q e)%Z in
    let half := Z.shiftl 1 (e - 1) in
    let q' :=
      if (r <? half)%Z then q
      else if (half <? r)%Z then (q + 1)%Z
      else if Z.even q then q else (q + 1)%Z in
    (Z.sgn z * Z.shiftl q' e)%Z.

(** [x + y] on numbers that hold whole amounts: adding zero changes
    nothing, and any other sum is rounded to a double. *)
Definition add (x y : Z) : Z :=
  if (x =? 0)%Z then y
  else if (y =? 0)%Z then x
  else roundToDouble (x + y).

End JSNumber.

(** ** Matching Service: the event flow of [processClassifiedOrder]
    (the Matching SpecCard) *)

Module MatchingEvents.

Import Classifier Matching.

Record OrderMatched : Type := {
  om_eventId : string;
  om_intent : Intent;
  om_fills : list Fill;
  totalAmount : Z;
  om_ts : Time
}.

Record PaymentRequested : Type := {
  pr_eventId : string;
  pr_matchId : nat;
  pr_buyerId : string;
  pr_amount : Z;
  paymentDeadline : Time;
  pr_ts : Time
}.

Inductive Event : Type :=
  | Matched (e : OrderMatched)
  | Requested (e : PaymentRequested).

Definition isRequested (e : Event) : bool :=
  match e with
  | Requested _ => true
  | Matched _ => false
  end.

(** [fills.reduce((sum, f) => sum + f.fillAmount, 0)]: the amounts are
    added as numbers, from the left. *)
Definition totalOf (fills : list Fill) : Z :=
  fold_left (fun sum f => JSNumber.add sum (fillAmount f)) fills 0%Z.

(** The loop that emits the payment requests; [times i] are the two clock
    reads made for the fill at position [i]: [Date.now()] for the deadline
    and [new Date()] for [ts]. *)
Fixpoint paymentRequests (evId : string) (times : nat -> Time * Time)
    (i : nat) (fills : list Fill) : list Event :=
  match fills with
  | [] => []
  | fill :: rest =>
      (if requiresBuyerProof fill then
         [ Requested {| pr_eventId := evId;
                        pr_matchId := matchId fill;
                        pr_buyerId := buyerId fill;
                        pr_amount := fillAmount fill;
                        paymentDeadline :=
                          (fst (times i) + 10 * 60 * 1000)%Z;
                        pr_ts := snd (times i) |} ]
       else []) ++ paymentRequests evId times (S i) rest
  end.

Section Flow.

(** The reservation store is written by [storeMatchReservations], which the
    sketch calls without defining it; the call may throw. *)
Variable DB : Type.
Variable storeMatchReservations :
  list Fill -> DB -> Result MatchError DB.

(** [processClassifiedOrder] over the fill builder [mkFills] (the service's
    [createFills]); it returns the store and the bus, or throws before
    anything is published. *)
Definition processClassifiedOrder
    (mkFills : OrderClassified -> Result MatchError (list Fill))
    (t_matched : Time) (times : nat -> Time * Time)
    (ev : OrderClassified) (db : DB) (bus : list Event)
  : Result MatchError (DB * list Event) :=
  match mkFills ev with
  | Err e => Err e
  | Ok fills =>
      if Nat.eqb (length fills) 0 then Err (NoFillsCreated (eventId ev))
      else
        match storeMatchReservations fills db with
        | Err e => Err e
        | Ok db' =>
            Ok (db',
                (bus ++
                 [ Matched {| om_eventId := eventId ev;
                              om_intent := Matching.intent ev;
                              om_fills := fills;
                              totalAmount := totalOf fills;
                              om_ts := t_matched |} ] ++
                 paymentRequests (eventId ev) times 0 fills)%list)
        end
  end.

End Flow.

End MatchingEvents.

(** ** Asset Manager (SpecCards/07_AssetManager.ts) *)

Module AssetManager.

Inductive Intent : Type := BUY_TREASURY | BUY_MARKET | TRANSFER.

Inductive Operation : Type := Issue | ChangeOwner.

Record PaymentConfirmed : Type := {
  eventId : string;
  matchId : string;
  intent : Intent;
  from : string;
  to : string;
  amount : Z;
  buyerVault : option string;
  sellerVault : option string;
  ts : Time
}.

Record CloudResponse : Type := {
  issueId : option string;
  evolveId : option string;
  deliveredAt : string;
  pkgTag : option string
}.

(** What an executor returns. *)
Record ExecResult : Type := {
  r_assetReceiptId : string;
  r_operation : Operation;
  r_response : CloudResponse
}.

Record OwnershipChanged : Type := {
  oc_eventId : string;
  oc_matchId : string;
  assetReceiptId : string;
  operation : Operation;
  oc_from : string;
  oc_to : string;
  oc_amount : Z;
  onliCloudResponse : CloudResponse;
  oc_ts : Time
}.

Inductive Reason : Type :=
  | locker_unavailable
  | policy_denied
  | input_invalid
  | consent_rejected
  | consent_timeout
  | provider_unavailable
  | insufficient_balance
  | vault_not_found.

Record TransferFailed : Type := {
  tf_eventId : string;
  tf_matchId : string;
  reason : Reason;
  details : string;
  tf_ts : Time
}.

Inductive Event : Type :=
  | Changed (e : OwnershipChanged)
  | Failed (e : TransferFailed).

Definition isChanged (e : Event) : bool :=
  match e with
  | Changed _ => true
  | Failed _ => false
  end.

Record IssueRequest : Type := {
  ir_to : string;
  app_symbol : string;
  ir_amount : string;
  which_device : string
}.

Record IssueResponse : Type := {
  issue_id : string;
  delivered_at : string;
  pkg_tag : option string
}.

Section Service.

(** The thrown errors, with their [message] and the reason
    [mapErrorReason] gives them. *)
Variable Error : Type.
Variable message : Error -> string.
Variable mapErrorReason : Error -> Reason.

(** [retryPolicy.execute] and the custodian's [issue], given the request
    and the idempotency key. *)
Variable execute :
  (unit -> Result Error ExecResult) -> Result Error ExecResult.
Variable issue : IssueRequest -> string -> Result Error IssueResponse.

(** The executors of the other intents are called but not part of the
    sketch. *)
Variable executeMarketTransfer :
  PaymentConfirmed -> string -> Result Error ExecResult.
Variable executeP2PTransfer :
  PaymentConfirmed -> string -> Result Error ExecResult.

(** The request that [executeTreasuryIssue] sends. *)
Definition issueRequestOf (ev : PaymentConfirmed) : IssueRequest :=
  {| ir_to := to ev;
     app_symbol := "SPECIES";
     ir_amount := pretty (amount ev);
     which_device := "cloud" |}.

(** One attempt of [executeTreasuryIssue]: the body of the retried
    closure. *)
Definition issueAttempt (ev : PaymentConfirmed) (idempotencyKey : string)
  : Result Error ExecResult :=
  match issue (issueRequestOf ev) idempotencyKey with
  | Err e => Err e
  | Ok response =>
      Ok {| r_assetReceiptId := issue_id response;
            r_operation := Issue;
            r_response := {| issueId := Some (issue_id response);
                             evolveId := None;
                             deliveredAt := delivered_at response;
                             pkgTag := pkg_tag response |} |}
  end.

Definition executeTreasuryIssue (ev : PaymentConfirmed)
    (idempotencyKey : string) : Result Error ExecResult :=
  execute (fun _ => issueAttempt ev idempotencyKey).

(** The idempotency key, [`${eventId}:${matchId}`]. *)
Definition keyOf (ev : PaymentConfirmed) : string :=
  eventId ev ++ ":" ++ matchId ev.

(** The [switch] of [processPaymentConfirmed]. *)
Definition dispatch (ev : PaymentConfirmed) : Result Error ExecResult :=
  match intent ev with
  | BUY_TREASURY => executeTreasuryIssue ev (keyOf ev)
  | BUY_MARKET => executeMarketTransfer ev (keyOf ev)
  | TRANSFER => executeP2PTransfer ev (keyOf ev)
  end.

(** [processPaymentConfirmed]; [now] is the clock read of the event it
    publishes, the bus is the list of published events. *)
Definition processPaymentConfirmed (now : Time) (ev : PaymentConfirmed)
    (bus : list Event) : list Event :=
  match dispatch ev with
  | Ok result =>
      bus ++ [ Changed {| oc_eventId := eventId ev;
                          oc_matchId := matchId ev;
                          assetReceiptId := r_assetReceiptId result;
                          operation := r_operation result;
                          oc_from := from ev;
                          oc_to := to ev;
                          oc_amount := amount ev;
                          onliCloudResponse := r_response result;
                          oc_ts := now |} ]
  | Err error =>
      bus ++ [ Failed {| tf_eventId := eventId ev;
                         tf_matchId := matchId ev;
                         reason := mapErrorReason error;
                         details := message error;
                         tf_ts := now |} ]
  end.

(** Delivering the same message once per clock read of [nows]. *)
Fixpoint deliver (nows : list Time) (ev : PaymentConfirmed)
    (bus : list Event) : list Event :=
  match nows with
  | [] => bus
  | now :: nows' => deliver nows' ev (processPaymentConfirmed now ev bus)
  end.

End Service.

End AssetManager.

(** ** More JavaScript string helpers *)

Module JSString.

(** An index argument of [substring], clamped to [0, length]. *)
Definition clamp (len : nat) (i : Z) : nat :=
  Z.to_nat (Z.max 0 (Z.min i (Z.of_nat len))).

(** [s.substring(start, end)]: the indices are clamped and swapped when
    [start > end]. *)
Definition substring (s : string) (start stop : Z) : string :=
  let a := clamp (String.length s) start in
  let b := clamp (String.length s) stop in
  String.substring (Nat.min a b) (Nat.max a b - Nat.min a b) s.

(** [s.substring(start)] *)
Definition substringFrom (s : string) (start : Z) : string :=
  substring s start (Z.of_nat (String.length s)).

Definition nl : string := String (ascii_of_nat 10) EmptyString.

End JSString.

(** ** The simplified MCP server
    (simplified/species-mcp-server-simplified.ts) *)

Module McpServer.

Import Classifier.

Record UserCredentials : Type := {
  apiKey : string;
  secret : string;
  marketplaceUrl : string
}.

(** The arguments of the [species_configure] tool. *)
Record ConfigureArgs : Type := {
  c_apiKey : option string;
  c_secret : option string;
  c_marketplaceUrl : option string
}.

(** The masked key of the confirmation text:
    [`${apiKey.substring(0, 8)}...${apiKey.substring(apiKey.length - 4)}`]. *)
Definition maskKey (k : string) : string :=
  JSString.substring k 0 8 ++ "..." ++
  JSString.substringFrom k (Z.of_nat (String.length k) - 4).

(** [handleConfigure]: the new credentials and the text returned, or the
    thrown message. *)
Definition handleConfigure (args : ConfigureArgs)
  : Result string (UserCredentials * string) :=
  let url := default "https://api.species.io" (c_marketplaceUrl args) in
  if (negb (JS.truthyStr (c_apiKey args))
      || negb (JS.truthyStr (c_secret args)))%bool
  then Err "API key and secret are required"
  else
    let k := default "" (c_apiKey args) in
    Ok ({| apiKey := k; secret := default "" (c_secret args);
           marketplaceUrl := url |},
        "Configuration successful. You can now create transactions using your credentials."
        ++ JSString.nl ++ "Marketplace URL: " ++ url
        ++ JSString.nl ++ "API Key: " ++ maskKey k).

(** The arguments of the [species_create_transaction] tool. *)
Record CreateArgs : Type := {
  a_from : string;
  a_to : string;
  a_amount : Z;
  a_paymentProof : option string;
  a_feeProof : option string;
  a_chain : option string;
  a_usdtAddress : option string;
  a_listingId : option string
}.

Record PayWith : Type := {
  pw_currency : string;
  pw_chain : string;
  pw_proof : string;
  pw_feeProof : option string
}.

Record Proceeds : Type := {
  pp_usdtAddress : string;
  pp_chain : string
}.

Record RequestMetadata : Type := {
  md_listingId : option string;
  md_note : option string
}.

Record EventRequest : Type := {
  eventId : string;
  from : string;
  to : string;
  amount : Z;
  payWith : option PayWith;
  putProceeds : option Proceeds;
  metadata : option RequestMetadata
}.

(** The request that [handleCreateTransaction] builds; [now] is
    [Date.now()] and [uuid] the [uuidv4()] draw of the event id. *)
Definition buildEventRequest (now : Z) (uuid : string) (args : CreateArgs)
  : EventRequest :=
  let chain := default "TRON" (a_chain args) in
  {| eventId := "evt-" ++ pretty now ++ "-" ++ JSString.substring uuid 0 8;
     from := a_from args;
     to := a_to args;
     amount := a_amount args;
     payWith :=
       if JS.truthyStr (a_paymentProof args) then
         Some {| pw_currency := "USDT"; pw_chain := chain;
                 pw_proof := default "" (a_paymentProof args);
                 pw_feeProof := a_feeProof args |}
       else None;
     putProceeds :=
       if JS.truthyStr (a_usdtAddress args) then
         Some {| pp_usdtAddress := default "" (a_usdtAddress args);
                 pp_chain := chain |}
       else None;
     metadata :=
       Some {| md_listingId :=
                 if JS.truthyStr (a_listingId args) then a_listingId args
                 else None;
               md_note := None |} |}.

(** [request.metadata?.listingId] *)
Definition metadataListingId (request : EventRequest) : option string :=
  match metadata request with
  | Some md => md_listingId md
  | None => None
  end.

(** The fields of a request that [inferTransactionType] reads. *)
Definition inferView (request : EventRequest) : MCP.EventRequest :=
  {| MCP.rq_to := to request;
     MCP.rq_metadataListingId := metadataListingId request;
     MCP.rq_putProceeds :=
       option_map (fun p => {| usdtAddress := pp_usdtAddress p;
                               chain := pp_chain p |})
                  (putProceeds request);
     MCP.rq_payWith := option_map pw_proof (payWith request) |}.

Record AuthHeaders : Type := {
  contentType : string;
  xApiKey : string;
  xNonce : string;
  xTimestamp : string;
  xSignature : string;
  xEventId : string
}.

(** The message that [createSignature] signs: body + nonce + timestamp. *)
Definition signedMessage (body nonce timestamp : string) : string :=
  body ++ nonce ++ timestamp.

Section Signing.

(** HMAC-SHA256 under a secret, base64 encoded, and [JSON.stringify]. *)
Variable hmacBase64 : string -> string -> string.
Variable stringify : EventRequest -> string.

Definition createSignature (credentials : option UserCredentials)
    (body nonce timestamp : string) : Result string string :=
  match credentials with
  | None => Err "Credentials not configured"
  | Some c => Ok (hmacBase64 (secret c) (signedMessage body nonce timestamp))
  end.

(** [createAuthHeaders]; [nonce] is the [uuidv4()] draw and [timestamp]
    the ISO string of the clock read. *)
Definition createAuthHeaders (credentials : option UserCredentials)
    (nonce timestamp : string) (body : EventRequest) (evId : string)
  : Result string AuthHeaders :=
  match credentials with
  | None => Err "Credentials not configured"
  | Some c =>
      match createSignature credentials (stringify body) nonce timestamp with
      | Err e => Err e
      | Ok sig =>
          Ok {| contentType := "application/json";
                xApiKey := apiKey c;
                xNonce := nonce;
                xTimestamp := timestamp;
                xSignature := sig;
                xEventId := evId |}
      end
  end.

End Signing.

End McpServer.

(** ** The NOWPayments webhook handler
    (Architecture/Validator_Service_Spec.md, 6.2) *)

Module Webhook.

(** The payment of the webhook body. *)
Record Payment : Type := {
  payment_status : string;
  payment_id : string;
  actually_paid : Q;
  confirmations : option Z
}.

Record Order : Type := {
  o_eventId : string
}.

(** The ['payment.confirmed'] event that the handler emits. *)
Record PaymentConfirmed : Type := {
  eventId : string;
  paymentId : string;
  amount : Q;
  currency : string;
  pc_confirmations : option Z;
  ts : Time
}.

Record Response : Type := {
  statusCode : nat;
  body : string
}.

Section Handler.

(** [verifyWebhookSignature(req.body, signature, WEBHOOK_SECRET)] and
    [findOrderByPaymentId] are called but not defined in the document. *)
Variable verifyWebhookSignature : Payment -> option string -> bool.
Variable findOrderByPaymentId : string -> option Order.

(** The handler of [POST /webhooks/nowpayments]: the response and the
    events emitted. *)
Definition handleWebhook (now : Time) (signature : option string)
    (payment : Payment) : Response * list PaymentConfirmed :=
  if negb (verifyWebhookSignature payment signature) then
    ({| statusCode := 401; body := "Invalid signature" |}, [])
  else
    let emitted :=
      if String.eqb (payment_status payment) "finished" then
        match findOrderByPaymentId (payment_id payment) with
        | Some order =>
            [ {| eventId := o_eventId order;
                 paymentId := payment_id payment;
                 amount := actually_paid payment;
                 currency := "USDT";
                 pc_confirmations := confirmations payment;
                 ts := now |} ]
        | None => []
        end
      else [] in
    ({| statusCode := 200; body := "OK" |}, emitted).

End Handler.

End Webhook.

(** ** Sample inputs *)

Module Samples.

Import Classifier.
Import PrimFloat.

Definition sampleEvent (to : string) (l : option string)
    (p : option PutProceeds) : ClassifierInput :=
  {| event := {| ev_eventId := "evt-1"; ev_from := "alice"; ev_to := to;
                 ev_amount := 1000; ev_listingId := l;
                 ev_putProceeds := p |};
     userRegistry := Some {[ "vault-9" := TREASURY; "bob" := TRADER ]};
     in_ts := 0%Z |}.

Definition sampleProceeds : PutProceeds :=
  {| usdtAddress := "TXa1"; chain := "TRON" |}.

(** A trader whose account name has the word "treasury" in it, selling with
    a proceeds address. *)
Definition sampleNamedTrader : ClassifierInput :=
  {| event := {| ev_eventId := "evt-18"; ev_from := "alice";
                 ev_to := "treasury-fan-42"; ev_amount := 1000;
                 ev_listingId := None;
                 ev_putProceeds := Some sampleProceeds |};
     userRegistry := Some {[ "treasury-fan-42" := TRADER;
                             "alice" := TRADER ]};
     in_ts := 0%Z |}.

Definition sampleValidated : OrderValidated :=
  {| ov_eventId := "evt-2"; ov_from := "alice"; ov_to := "bob";
     ov_amount := 250; ov_mode := "TRANSFER"; ov_prepaid := true;
     ov_ts := 0%Z |}.

Definition sampleRegistry : gmap string Matching.User :=
  {[ "alice" := {| Matching.onliId := "alice";
                   Matching.vaultId := Some "vault-alice" |} ]}.

Definition sampleTreasuryOrder : Matching.OrderClassified :=
  {| Matching.eventId := "evt-3"; Matching.intent := BUY_TREASURY;
     Matching.amount := 1000; Matching.listingId := None;
     Matching.from := "alice"; Matching.to := "treasury";
     Matching.ts := 0%Z |}.

Definition sampleMatchEnv : Matching.Env :=
  {| Matching.uuid := 7; Matching.now_created := 1000%Z;
     Matching.now_expiry := 1000%Z |}.

Definition noFills (ev : Matching.OrderClassified)
  : Result Matching.MatchError (list Matching.Fill) := Ok [].

(** A market purchase matched against two listings and topped up by the
    requester's own prepaid balance: the first and the last fill require a
    buyer proof, the second does not. *)
Definition sampleMarketOrder : Matching.OrderClassified :=
  {| Matching.eventId := "evt-19"; Matching.intent := BUY_MARKET;
     Matching.amount := 600; Matching.listingId := Some "lst_456";
     Matching.from := "alice"; Matching.to := "market";
     Matching.ts := 0%Z |}.

Definition sampleMarketFill (id : nat) (seller : string) (a : Z)
    (proofNeeded : bool) : Matching.Fill :=
  {| Matching.matchId := id;
     Matching.f_eventId := "evt-19";
     Matching.buyerId := "alice";
     Matching.buyerVault := Some "vault-alice";
     Matching.sellerId := seller;
     Matching.sellerVault := None;
     Matching.fillAmount := a;
     Matching.f_listingId := Some "lst_456";
     Matching.requiresBuyerProof := proofNeeded;
     Matching.status := Matching.RESERVED;
     Matching.createdAt := 1000%Z;
     Matching.expiresAt := 301000%Z |}.

Definition sampleMarketFills : list Matching.Fill :=
  [ sampleMarketFill 11 "bob" 100 true;
    sampleMarketFill 12 "carol" 200 false;
    sampleMarketFill 13 "dave" 300 true ].

Definition marketFills (ev : Matching.OrderClassified)
  : Result Matching.MatchError (list Matching.Fill) := Ok sampleMarketFills.

(** The clock of the sample: the fill at position [i] is requested at
    [100 * i + 7], its deadline counted from [100 * i + 6]. *)
Definition sampleTimes (i : nat) : Time * Time :=
  ((100 * Z.of_nat i + 6)%Z, (100 * Z.of_nat i + 7)%Z).

(** What the sample purchase publishes at time 5 on an empty bus. *)
Definition sampleMarketBus : list MatchingEvents.Event :=
  [ MatchingEvents.Matched
      {| MatchingEvents.om_eventId := "evt-19";
         MatchingEvents.om_intent := BUY_MARKET;
         MatchingEvents.om_fills := sampleMarketFills;
         MatchingEvents.totalAmount := 600;
         MatchingEvents.om_ts := 5%Z |};
    MatchingEvents.Requested
      {| MatchingEvents.pr_eventId := "evt-19";
         MatchingEvents.pr_matchId := 11;
         MatchingEvents.pr_buyerId := "alice";
         MatchingEvents.pr_amount := 100;
         MatchingEvents.paymentDeadline := 600006%Z;
         MatchingEvents.pr_ts := 7%Z |};
    MatchingEvents.Requested
      {| MatchingEvents.pr_eventId := "evt-19";
         MatchingEvents.pr_matchId := 13;
         MatchingEvents.pr_buyerId := "alice";
         MatchingEvents.pr_amount := 300;
         MatchingEvents.paymentDeadline := 600206%Z;
         MatchingEvents.pr_ts := 207%Z |} ].

Definition sampleTreasuryFill : Matching.Fill :=
  {| Matching.matchId := 7;
     Matching.f_eventId := "evt-3";
     Matching.buyerId := "alice";
     Matching.buyerVault := Some "vault-alice";
     Matching.sellerId := "usr-treasury-vault-system";
     Matching.sellerVault := Some "treasury-vault";
     Matching.fillAmount := 1000;
     Matching.f_listingId := None;
     Matching.requiresBuyerProof := false;
     Matching.status := Matching.RESERVED;
     Matching.createdAt := 1000%Z;
     Matching.expiresAt := 301000%Z |}.

Definition sampleBook1 : OrderBook.Book :=
  {| OrderBook.listings :=
       [ {| OrderBook.listingId := 0; OrderBook.sellerId := "carol";
            OrderBook.amount := 6000; OrderBook.priceUsdt := 2;
            OrderBook.availableAmount := 6000;
            OrderBook.status := OrderBook.ACTIVE;
            OrderBook.createdAt := 0%Z;
            OrderBook.expiresAt := 172800000%Z |} ];
     OrderBook.reservations := [] |}.

Definition sampleBook2 : OrderBook.Book :=
  {| OrderBook.listings :=
       [ {| OrderBook.listingId := 0; OrderBook.sellerId := "carol";
            OrderBook.amount := 6000; OrderBook.priceUsdt := 2;
            OrderBook.availableAmount := 3500;
            OrderBook.status := OrderBook.ACTIVE;
            OrderBook.createdAt := 0%Z;
            OrderBook.expiresAt := 172800000%Z |} ];
     OrderBook.reservations :=
       [ {| OrderBook.matchId := 0; OrderBook.r_eventId := "evt-4";
            OrderBook.buyerId := "dave"; OrderBook.r_sellerId := "carol";
            OrderBook.r_amount := 2500; OrderBook.r_listingId := 0;
            OrderBook.r_status := OrderBook.RESERVED;
            OrderBook.r_createdAt := 10%Z;
            OrderBook.r_expiresAt := 300010%Z |} ] |}.

Definition sampleBook3 : OrderBook.Book :=
  {| OrderBook.listings :=
       [ {| OrderBook.listingId := 0; OrderBook.sellerId := "carol";
            OrderBook.amount := 6000; OrderBook.priceUsdt := 2;
            OrderBook.availableAmount := 6000;
            OrderBook.status := OrderBook.ACTIVE;
            OrderBook.createdAt := 0%Z;
            OrderBook.expiresAt := 172800000%Z |} ];
     OrderBook.reservations :=
       [ {| OrderBook.matchId := 0; OrderBook.r_eventId := "evt-4";
            OrderBook.buyerId := "dave"; OrderBook.r_sellerId := "carol";
            OrderBook.r_amount := 2500; OrderBook.r_listingId := 0;
            OrderBook.r_status := OrderBook.EXPIRED;
            OrderBook.r_createdAt := 10%Z;
            OrderBook.r_expiresAt := 300010%Z |} ] |}.

Definition samplePayment : Cashier.PaymentConfirmed :=
  {| Cashier.eventId := "evt-5"; Cashier.matchId := "m-1";
     Cashier.buyerId := "alice";
     Cashier.sellerId := "usr-treasury-vault-system";
     Cashier.pc_intent := BUY_TREASURY; Cashier.amount := 1000;
     Cashier.usdtAmount := 1000000000; Cashier.feeUsdt := None;
     Cashier.provider := "NOWPayments";
     Cashier.providerPaymentId := Some "npmt_abc123";
     Cashier.confirmations := 15; Cashier.ts := 0%Z |}.

Definition sampleCashierEnv : Cashier.Env :=
  {| Cashier.fireflyUp := true; Cashier.now_posted := 20%Z;
     Cashier.now_emitted := 21%Z |}.

Definition sampleCashierState : Cashier.State unit :=
  {| Cashier.db := ∅; Cashier.ledger := ∅; Cashier.cache := tt;
     Cashier.bus := []; Cashier.nextUuid := 0 |}.

(** A journal builder that forgets the credit lines. *)
Definition lopsidedJournal (uuid : nat) (now : Time)
    (ev : Cashier.PaymentConfirmed) : Cashier.JournalPost :=
  {| Cashier.postingId := uuid;
     Cashier.j_eventId := Cashier.eventId ev;
     Cashier.j_matchId := Cashier.matchId ev;
     Cashier.lines :=
       [ Cashier.mkLine (Cashier.buyerId ev) Cashier.SPECIES_balance
           Cashier.SPECIES (Cashier.amount ev) Cashier.Dr ];
     Cashier.postedAt := now;
     Cashier.description := "lopsided" |}.

Definition keepCache (j : Cashier.JournalPost) (c : unit) : unit := c.
Definition noAccounts (j : Cashier.JournalPost) : list string := [].
Definition zeroTotal (j : Cashier.JournalPost) : Z := 0%Z.

Definition sampleDownEnv : Cashier.Env :=
  {| Cashier.fireflyUp := false; Cashier.now_posted := 30%Z;
     Cashier.now_emitted := 31%Z |}.

(** The state after the first delivery of [samplePayment]. *)
Definition samplePostedState : Cashier.State unit :=
  Cashier.stateOf
    (Cashier.processPaymentConfirmed unit keepCache noAccounts zeroTotal
       zeroTotal sampleCashierEnv samplePayment sampleCashierState).

Definition sampleHelix : FloorManager.OracleHelix :=
  {| FloorManager.which_onli := "genome-1";
     FloorManager.what_kind := "asset";
     FloorManager.what_type := "SPECIES";
     FloorManager.what_face := "1";
     FloorManager.current_owner_id := "alice";
     FloorManager.current_owner_name := "Alice";
     FloorManager.last_updated := "2025-01-01T00:00:00.000Z";
     FloorManager.blacklisted := false |}.

(** An oracle that shows a single record, owned by alice. *)
Definition sampleOracle (req : FloorManager.OracleVerifyRequest)
  : option (list FloorManager.OracleHelix) := Some [sampleHelix].

Definition sampleOwnership : FloorManager.OwnershipChanged :=
  {| FloorManager.eventId := "evt-6"; FloorManager.matchId := "m-2";
     FloorManager.assetReceiptId := "issue-77";
     FloorManager.operation := FloorManager.Issue;
     FloorManager.from := Some "treasury"; FloorManager.to := "alice";
     FloorManager.amount := 1000; FloorManager.ts := 0%Z |}.

Definition alwaysOk {A : Type} (a : A) : bool := true.
Definition receiptOf (evId : string) : option string := Some evId.

Definition sampleWindow (t : Time) : bool :=
  ((0 <=? t)%Z && (t <=? 3600000)%Z)%bool.

Definition sampleTxHash : string :=
  "aaaaaaaaaaaaaaaaaaaaaaaaaaaaaaaaaaaaaaaaaaaaaaaaaaaaaaaaaaaaaaaa".

(** A successful, fresh, confirmed USDT transfer of 1 USDT, sent by
    another address than the expected sender. *)
Definition sampleTronTx : Validator.TronTx :=
  {| Validator.contractRet := "SUCCESS";
     Validator.block_timestamp := 1000%Z;
     Validator.blockNumber := 80%Z;
     Validator.contract_address := Validator.USDT_CONTRACT;
     Validator.owner_address := "TMallory";
     Validator.to_address := "TDest";
     Validator.value := 1000000%float |}.

Definition sampleFetchTx (txHash : string) : option Validator.TronTx :=
  Some sampleTronTx.

Definition sampleNOWPayment : Validator.NOWPayment :=
  {| Validator.payment_status := "finished";
     Validator.price_amount := 1000%float;
     Validator.price_currency := "USDT";
     Validator.actually_paid := 1000%float;
     Validator.pay_currency := "usdttrc20";
     Validator.confirmations := Some 15%Z;
     Validator.created_at := 1000%Z |}.

Definition sampleFetchPayment (paymentId : string)
  : option Validator.NOWPayment := Some sampleNOWPayment.

(** A payment processor that is down. *)
Definition downFetchPayment (paymentId : string)
  : option Validator.NOWPayment := None.

Definition sampleRequest : Validator.EventRequest :=
  {| Validator.eventId := "evt-7"; Validator.from := "alice";
     Validator.to := "treasury"; Validator.amount := 1000%float;
     Validator.payWith :=
       Some {| Validator.pw_currency := "USDT";
               Validator.pw_chain := Validator.TRON;
               Validator.proof := Some "npmt_abc123";
               Validator.feeProof := None |} |}.

Definition sampleNowResult : Validator.VerificationResult :=
  {| Validator.valid := true; Validator.proofId := "npmt_abc123";
     Validator.actual_amount := 1000%float;
     Validator.vr_confirmations := 15;
     Validator.network := Validator.TRON;
     Validator.checks :=
       [ ("status_check", true); ("amount_check", true);
         ("currency_check", true); ("confirmation_check", true);
         ("timestamp_check", true) ] |}.

Definition sampleTronResult : Validator.VerificationResult :=
  {| Validator.valid := false; Validator.proofId := sampleTxHash;
     Validator.actual_amount := Validator.normalizeAmount 1000000;
     Validator.vr_confirmations := 20;
     Validator.network := Validator.TRON;
     Validator.checks :=
       [ ("contract_check", true); ("from_check", false);
         ("to_check", true); ("amount_check", true);
         ("confirmation_check", true); ("status_check", true);
         ("timestamp_check", true) ] |}.

Definition sampleSender (req : Validator.EventRequest) : string := "TSender".
Definition sampleDestination (req : Validator.EventRequest) : string :=
  "TDest".
Definition sampleMode (req : Validator.EventRequest) : string := "BUY".

End Samples.

(** * Properties *)

(** ** Strings *)

Section StringFacts.

Lemma append_cons (x : ascii) (a b : string) :
  String x a ++ b = String x (a ++ b).
Proof. reflexivity. Qed.

Lemma append_nil_l (b : string) : "" ++ b = b.
Proof. reflexivity. Qed.

Lemma append_assoc (a b c : string) : (a ++ b) ++ c = a ++ (b ++ c).
Proof.
  induction a as [|x a IH]; rewrite ?append_nil_l, ?append_cons;
    [reflexivity|]. rewrite IH. reflexivity.
Qed.

Lemma length_append (a b : string) :
  String.length (a ++ b) = String.length a + String.length b.
Proof.
  induction a as [|x a IH]; rewrite ?append_nil_l, ?append_cons; simpl;
    [reflexivity|]. rewrite IH. reflexivity.
Qed.

Lemma append_nil_r (a : string) : a ++ "" = a.
Proof.
  induction a as [|x a IH]; rewrite ?append_nil_l, ?append_cons;
    [reflexivity|]. rewrite IH. reflexivity.
Qed.

(** Two concatenations with left parts of equal length are equal only when
    the parts are. *)
Lemma append_inj_length (a1 a2 b1 b2 : string) :
  String.length a1 = String.length a2 -> a1 ++ b1 = a2 ++ b2 ->
  a1 = a2 /\ b1 = b2.
Proof.
  revert a2. induction a1 as [|x a1 IH]; intros [|y a2] Hlen H;
    rewrite ?append_nil_l, ?append_cons in H; simpl in Hlen;
    try discriminate.
  - auto.
  - injection H as -> H. injection Hlen as Hlen.
    destruct (IH a2 Hlen H) as [-> ->]. auto.
Qed.

Lemma prefix_append (s b : string) : String.prefix s (s ++ b) = true.
Proof.
  induction s as [|x s IH]; rewrite ?append_nil_l, ?append_cons; simpl;
    [destruct b; reflexivity|].
  destruct (ascii_dec x x); [exact IH | congruence].
Qed.

Lemma prefix_cons (x : ascii) (s p : string) :
  String.prefix (String x s) p = true -> exists p', p = String x p'.
Proof.
  destruct p as [|y p]; simpl; [discriminate|].
  destruct (ascii_dec x y) as [->|]; [eauto | discriminate].
Qed.

Lemma includes_unfold (s sub : string) :
  JS.includes s sub =
  (String.prefix sub s ||
   match s with
   | EmptyString => false
   | String _ s' => JS.includes s' sub
   end)%bool.
Proof. destruct s; reflexivity. Qed.

Lemma includes_here (sub b : string) : JS.includes (sub ++ b) sub = true.
Proof. rewrite includes_unfold, prefix_append. reflexivity. Qed.

Lemma includes_skip (a s sub : string) :
  JS.includes s sub = true -> JS.includes (a ++ s) sub = true.
Proof.
  intros H. induction a as [|x a IH]; rewrite ?append_nil_l, ?append_cons;
    [exact H|].
  rewrite includes_unfold, IH. apply orb_true_r.
Qed.

Lemma includes_refl (s : string) : JS.includes s s = true.
Proof.
  rewrite <- (append_nil_r s) at 1. apply includes_here.
Qed.

Lemma toLowerCase_append (a b : string) :
  JS.toLowerCase (a ++ b) = JS.toLowerCase a ++ JS.toLowerCase b.
Proof.
  induction a as [|x a IH]; rewrite ?append_nil_l, ?append_cons; simpl;
    rewrite ?append_nil_l, ?append_cons; [reflexivity|].
  rewrite IH. reflexivity.
Qed.

Lemma toLowerCase_length (s : string) :
  String.length (JS.toLowerCase s) = String.length s.
Proof. induction s as [|x s IH]; simpl; [reflexivity|]. rewrite IH. reflexivity. Qed.

Lemma substring_all (s : string) (m : nat) :
  String.length s <= m -> String.substring 0 m s = s.
Proof.
  revert m. induction s as [|x s IH]; intros [|m] H; simpl in *;
    try reflexivity; try lia.
  rewrite IH by lia. reflexivity.
Qed.

Lemma substring_length (s : string) (n m : nat) :
  n + m <= String.length s -> String.length (String.substring n m s) = m.
Proof.
  revert n m. induction s as [|x s IH]; intros [|n] [|m] H; simpl in *;
    try reflexivity; try lia.
  - rewrite (IH 0 m) by lia. reflexivity.
  - apply (IH n 0). lia.
  - apply (IH n (S m)). lia.
Qed.

(** The converses: a prefix, an occurrence and a lower-cased concatenation
    each come from a decomposition of the string. *)
Lemma prefix_true (p s : string) :
  String.prefix p s = true -> exists b, s = p ++ b.
Proof.
  revert s. induction p as [|x p IH]; intros s H.
  - exists s. reflexivity.
  - destruct (prefix_cons x p s H) as [s' ->]. simpl in H.
    destruct (ascii_dec x x); [|congruence].
    destruct (IH s' H) as [b ->]. exists b. reflexivity.
Qed.

Lemma includes_true (s sub : string) :
  JS.includes s sub = true -> exists a b, s = a ++ sub ++ b.
Proof.
  induction s as [|x s IH]; rewrite includes_unfold; intros H;
    apply orb_true_iff in H; destruct H as [H|H].
  - destruct (prefix_true _ _ H) as [b Hb]. exists "", b. exact Hb.
  - discriminate.
  - destruct (prefix_true _ _ H) as [b Hb]. exists "", b. exact Hb.
  - destruct (IH H) as (a & b & ->). exists (String x a), b. reflexivity.
Qed.

Lemma toLowerCase_split (s x y : string) :
  JS.toLowerCase s = x ++ y ->
  exists s1 s2, s = s1 ++ s2 /\ JS.toLowerCase s1 = x /\
                JS.toLowerCase s2 = y.
Proof.
  revert s. induction x as [|c x IH]; intros s H.
  - exists "", s. rewrite append_nil_l in H. auto.
  - destruct s as [|d s]; rewrite append_cons in H; simpl in H;
      [discriminate|].
    injection H as Hc H. destruct (IH s H) as (s1 & s2 & -> & H1 & H2).
    exists (String d s1), s2. rewrite append_cons. simpl.
    rewrite Hc, H1. auto.
Qed.

End StringFacts.

(** ** Classifier *)

Section ClassifierProperties.

Import Classifier Samples.

Example includes_treasury_vault :
  JS.includes (JS.toLowerCase "usr-Treasury-vault-system") "treasury" = true.
Proof. reflexivity. Qed.

Example includes_not_in_bob :
  JS.includes (JS.toLowerCase "BOB") "treasury" = false.
Proof. reflexivity. Qed.

Example includes_case_sensitive : JS.includes "TREASURY" "treasury" = false.
Proof. reflexivity. Qed.

Lemma truthyStr_spec (o : option string) :
  JS.truthyStr o = true <-> exists l, o = Some l /\ l <> "".
Proof.
  destruct o as [s|]; simpl.
  - destruct (String.eqb_spec s "") as [->|Hne]; simpl.
    + split; [discriminate|]. intros (l & [= <-] & Hl). congruence.
    + split; [|reflexivity]. intros _. exists s. auto.
  - split; [discriminate|]. intros (l & Hl & _). discriminate.
Qed.

Lemma truthyObj_spec {A : Type} (o : option A) :
  JS.truthyObj o = true <-> exists p, o = Some p.
Proof.
  destruct o as [p|]; simpl.
  - split; [eauto|reflexivity].
  - split; [discriminate|]. intros (p & Hp). discriminate.
Qed.

Lemma isTreasuryRole_spec (r : option UserRole) :
  isTreasuryRole r = true <-> r = Some TREASURY.
Proof.
  destruct r as [[]|]; simpl; split; intros H; congruence.
Qed.

(** The name test of [isTreasuryDestination] holds exactly of the names
    that have the word "treasury" inside them, in any letter case. *)
Lemma includes_treasury_spec (to : string) :
  JS.includes (JS.toLowerCase to) "treasury" = true <-> mentionsTreasury to.
Proof.
  split.
  - intros H. apply includes_true in H. destruct H as (a' & b' & H).
    apply toLowerCase_split in H. destruct H as (a & mb & -> & _ & H).
    apply toLowerCase_split in H. destruct H as (m & b & -> & Hm & _).
    exists a, m, b. auto.
  - intros (a & m & b & -> & Hm). rewrite !toLowerCase_append, Hm.
    apply includes_skip, includes_here.
Qed.

Lemma registry_treasury_spec (input : ClassifierInput) :
  registryGet (userRegistry input) (ev_to (event input)) = Some TREASURY
  <-> hasTreasuryRole input.
Proof.
  unfold registryGet, hasTreasuryRole.
  destruct (userRegistry input) as [registry|].
  - split; [eauto|]. intros (r & [= <-] & H). exact H.
  - split; [discriminate|]. intros (r & H & _). discriminate.
Qed.

Lemma isTreasuryDestination_spec (input : ClassifierInput) :
  isTreasuryDestination (ev_to (event input)) (userRegistry input) = true
  <-> treasuryDestination input.
Proof.
  unfold isTreasuryDestination, treasuryDestination.
  rewrite <- includes_treasury_spec, <- registry_treasury_spec,
    <- isTreasuryRole_spec.
  destruct (JS.includes _ "treasury").
  - split; auto.
  - destruct (isTreasuryRole _); split; auto.
    intros [H|H]; discriminate.
Qed.

(** The treasury account itself is a treasury destination. *)
Lemma treasury_account_is_destination (input : ClassifierInput) :
  resolvesToTreasuryAccount input -> treasuryDestination input.
Proof.
  intros [H | H]; [left | right; exact H].
  unfold treasuryIdentifiers in H. simpl in H.
  destruct H as [<- | [<- | []]].
  - exists "", "treasury", "". split; reflexivity.
  - exists "usr-", "treasury", "-vault-system". split; reflexivity.
Qed.

Lemma decide_intent (now : Time) (input : ClassifierInput) :
  intent (decide now input) = fst (decideIntent input).
Proof.
  unfold decide. destruct (decideIntent input) as [i r]. reflexivity.
Qed.

Lemma decide_fields (now : Time) (input : ClassifierInput) :
  decide now input =
  {| oc_eventId := ev_eventId (event input);
     intent := fst (decideIntent input);
     oc_amount := ev_amount (event input);
     oc_listingId := ev_listingId (event input);
     metadata :=
       {| fromRole := registryGet (userRegistry input) (ev_from (event input));
          toRole := registryGet (userRegistry input) (ev_to (event input));
          classificationReason := snd (decideIntent input) |};
     oc_ts := now |}.
Proof.
  unfold decide. destruct (decideIntent input) as [i r]. reflexivity.
Qed.

(** C6, amended. The Classifier assigns the intent by a first-match-wins
    decision order: an explicit listing reference gives [BUY_MARKET];
    otherwise a treasury destination gives [BUY_TREASURY], where a treasury
    destination is one whose name has the word "treasury" inside it in any
    letter case, or one that the registry records with the treasury role;
    otherwise a present proceeds address gives [SELL_MARKET]; otherwise the
    intent is [TRANSFER]. The treasury account itself is a treasury
    destination. *)
Theorem classifier_first_match_wins (now : Time) (input : ClassifierInput) :
  (hasListingReference (event input) ->
     intent (decide now input) = BUY_MARKET) /\
  (~ hasListingReference (event input) -> treasuryDestination input ->
     intent (decide now input) = BUY_TREASURY) /\
  (~ hasListingReference (event input) -> ~ treasuryDestination input ->
     hasProceedsAddress (event input) ->
     intent (decide now input) = SELL_MARKET) /\
  (~ hasListingReference (event input) -> ~ treasuryDestination input ->
     ~ hasProceedsAddress (event input) ->
     intent (decide now input) = TRANSFER) /\
  (~ hasListingReference (event input) -> resolvesToTreasuryAccount input ->
     intent (decide now input) = BUY_TREASURY).
Proof.
  assert (Hacc := treasury_account_is_destination input).
  revert Hacc.
  rewrite decide_intent. unfold decideIntent.
  unfold hasListingReference, hasProceedsAddress.
  rewrite <- truthyStr_spec, <- isTreasuryDestination_spec, <- truthyObj_spec.
  destruct (JS.truthyStr _); [repeat split; intros; congruence|].
  destruct (isTreasuryDestination _ _);
    [repeat split; intros; congruence|].
  destruct (JS.truthyObj _); intros Hacc; repeat split; intros;
    try congruence; exfalso; apply Hacc in H0; discriminate.
Qed.

Lemma sample_not_listed (to : string) (p : option PutProceeds) :
  ~ hasListingReference (event (sampleEvent to None p)).
Proof. intros (l & Hl & _). discriminate. Qed.

Lemma sample_bob_not_treasury (p : option PutProceeds) :
  ~ treasuryDestination (sampleEvent "bob" None p).
Proof.
  rewrite <- isTreasuryDestination_spec. vm_compute. discriminate.
Qed.

(** C6, as stated, fails where the destination is not the treasury account
    but has the word in its name: a trader named [treasury-fan-42], recorded
    as a trader in the registry, sells with a proceeds address and no
    listing reference. The destination is none of the treasury's
    identifiers and has no treasury role, a proceeds address is present,
    and the intent is [BUY_TREASURY], not [SELL_MARKET]. *)
Lemma classifier_named_trader_counterexample :
  ~ hasListingReference (event sampleNamedTrader) /\
  ~ resolvesToTreasuryAccount sampleNamedTrader /\
  hasProceedsAddress (event sampleNamedTrader) /\
  registryGet (userRegistry sampleNamedTrader)
    (ev_to (event sampleNamedTrader)) = Some TRADER /\
  intent (decide 5%Z sampleNamedTrader) = BUY_TREASURY /\
  intent (decide 5%Z sampleNamedTrader) <> SELL_MARKET.
Proof.
  split; [|split; [|split; [|split; [|split]]]].
  - intros (l & Hl & _). discriminate.
  - intros [H | (registry & [= <-] & H)].
    + simpl in H. destruct H as [H | [H | []]]; discriminate.
    + vm_compute in H. discriminate.
  - exists sampleProceeds. reflexivity.
  - vm_compute. reflexivity.
  - vm_compute. reflexivity.
  - vm_compute. discriminate.
Qed.

Lemma classifier_first_match_wins_witness :
  intent (decide 5%Z (sampleEvent "Treasury" (Some "lst_456") None))
    = BUY_MARKET /\
  intent (decide 5%Z (sampleEvent "The-TREASURY-desk" None
                        (Some sampleProceeds)))
    = BUY_TREASURY /\
  intent (decide 5%Z (sampleEvent "vault-9" None (Some sampleProceeds)))
    = BUY_TREASURY /\
  intent (decide 5%Z (sampleEvent "bob" None (Some sampleProceeds)))
    = SELL_MARKET /\
  intent (decide 5%Z (sampleEvent "bob" None None)) = TRANSFER /\
  intent (decide 5%Z (sampleEvent "treasury" None None)) = BUY_TREASURY /\
  intent (decide 5%Z (sampleEvent "usr-treasury-vault-system" None None))
    = BUY_TREASURY.
Proof.
  split; [|split; [|split; [|split; [|split; [|split]]]]].
  - apply (classifier_first_match_wins 5%Z
             (sampleEvent "Treasury" (Some "lst_456") None)).
    exists "lst_456". split; [reflexivity | discriminate].
  - apply (proj1 (proj2
             (classifier_first_match_wins 5%Z
                (sampleEvent "The-TREASURY-desk" None
                   (Some sampleProceeds))))).
    + apply sample_not_listed.
    + left. exists "The-", "TREASURY", "-desk". split; reflexivity.
  - apply (proj1 (proj2
             (classifier_first_match_wins 5%Z
                (sampleEvent "vault-9" None (Some sampleProceeds))))).
    + apply sample_not_listed.
    + right. eexists. split; reflexivity.
  - apply (classifier_first_match_wins 5%Z
             (sampleEvent "bob" None (Some sampleProceeds))).
    + apply sample_not_listed.
    + apply sample_bob_not_treasury.
    + exists sampleProceeds. reflexivity.
  - apply (classifier_first_match_wins 5%Z (sampleEvent "bob" None None)).
    + apply sample_not_listed.
    + apply sample_bob_not_treasury.
    + intros (p & Hp). discriminate.
  - apply (proj2 (proj2 (proj2 (proj2
             (classifier_first_match_wins 5%Z
                (sampleEvent "treasury" None None)))))).
    + apply sample_not_listed.
    + left. left. reflexivity.
  - apply (proj2 (proj2 (proj2 (proj2
             (classifier_first_match_wins 5%Z
                (sampleEvent "usr-treasury-vault-system" None None)))))).
    + apply sample_not_listed.
    + left. right. left. reflexivity.
Defined.

End ClassifierProperties.

Section ClassifierDeterminism.

Import Classifier Samples.

(** The fields of the output other than the emission timestamp depend on
    the input alone: two runs agree on the event id, the intent, the
    amount, the listing id and the metadata, and each carries its own clock
    read as [ts]. *)
Lemma classifier_output_equal_up_to_ts (t1 t2 : Time)
    (input : ClassifierInput) :
  decide t2 input = withTs t2 (decide t1 input) /\
  oc_eventId (decide t1 input) = oc_eventId (decide t2 input) /\
  intent (decide t1 input) = intent (decide t2 input) /\
  oc_amount (decide t1 input) = oc_amount (decide t2 input) /\
  oc_listingId (decide t1 input) = oc_listingId (decide t2 input) /\
  metadata (decide t1 input) = metadata (decide t2 input) /\
  oc_ts (decide t1 input) = t1 /\ oc_ts (decide t2 input) = t2.
Proof.
  rewrite !decide_fields. unfold withTs. simpl. repeat split.
Qed.

(** C9 at the failing input. Two runs of [decide] on the same input, one
    millisecond apart, give outputs that are not equal: they agree on the
    intent and differ in [ts], which [decide] reads from the clock instead
    of taking it from its input. *)
Theorem classifier_output_repeat_differs :
  decide 0%Z (sampleEvent "bob" None None)
    <> decide 1%Z (sampleEvent "bob" None None) /\
  intent (decide 0%Z (sampleEvent "bob" None None))
    = intent (decide 1%Z (sampleEvent "bob" None None)) /\
  oc_ts (decide 0%Z (sampleEvent "bob" None None)) = 0%Z /\
  oc_ts (decide 1%Z (sampleEvent "bob" None None)) = 1%Z.
Proof.
  split; [|repeat split].
  intros H. apply (f_equal oc_ts) in H. rewrite !decide_fields in H.
  simpl in H. discriminate.
Qed.

(** C10. [processEvent] builds the classifier input from the event's
    [eventId], [from], [to] and [amount] only: no listing id, no proceeds
    address and no registry are forwarded, so the one event it publishes
    has intent [BUY_TREASURY] (when the lower-cased destination contains
    "treasury") or [TRANSFER], never [BUY_MARKET] or [SELL_MARKET]. *)
Theorem processEvent_treasury_or_transfer (t_in t_out : Time)
    (ev : OrderValidated) (bus : list OrderClassified) :
  let input := inputOfValidated t_in ev in
  ev_eventId (event input) = ov_eventId ev /\
  ev_from (event input) = ov_from ev /\
  ev_to (event input) = ov_to ev /\
  ev_amount (event input) = ov_amount ev /\
  ev_listingId (event input) = None /\
  ev_putProceeds (event input) = None /\
  userRegistry input = None /\
  exists o,
    processEvent t_in t_out ev bus = (bus ++ [o])%list /\
    intent o = (if JS.includes (JS.toLowerCase (ov_to ev)) "treasury"
                then BUY_TREASURY else TRANSFER) /\
    (intent o = BUY_TREASURY \/ intent o = TRANSFER) /\
    intent o <> BUY_MARKET /\ intent o <> SELL_MARKET /\
    oc_listingId o = None.
Proof.
  simpl. do 7 (split; [reflexivity|]).
  exists (decide t_out (inputOfValidated t_in ev)).
  split; [reflexivity|].
  rewrite decide_fields. unfold decideIntent, isTreasuryDestination. simpl.
  destruct (JS.includes (JS.toLowerCase (ov_to ev)) "treasury"); simpl;
    repeat split; auto; discriminate.
Qed.

(** The MCP server's preview helper is not the Classifier: it has one more
    rule, a request that pays is shown as a market purchase. *)
Lemma inferTransactionType_payWith_rule :
  MCP.inferTransactionType
    {| MCP.rq_to := "bob"; MCP.rq_metadataListingId := None;
       MCP.rq_putProceeds := None; MCP.rq_payWith := Some "npmt_abc123" |}
    = BUY_MARKET /\
  intent (decide 0%Z (sampleEvent "bob" None None)) = TRANSFER.
Proof. split; reflexivity. Qed.

End ClassifierDeterminism.

(** ** Matching Service: treasury issuance *)

Section TreasuryFill.

Import Classifier Matching Samples.

Variable registry : gmap string User.
Variables createMarketFills createListing createTransferFill :
  OrderClassified -> Result MatchError (list Fill).

Lemma createFills_treasury (env : Env) (ev : OrderClassified) :
  Matching.intent ev = BUY_TREASURY ->
  createFills registry createMarketFills createListing createTransferFill
    env ev = createTreasuryFill registry env ev.
Proof. intros H. unfold createFills. rewrite H. reflexivity. Qed.

(** A requester unknown to the registry gets no fill: the call throws. *)
Lemma createTreasuryFill_unknown_user (env : Env) (ev : OrderClassified) :
  registry !! from ev = None ->
  createTreasuryFill registry env ev = Err (UserNotFound (from ev)).
Proof.
  intros H. unfold createTreasuryFill, getUser. rewrite H. reflexivity.
Qed.

(** C8, amended. For a treasury-issuance intent whose requester is in the
    registry, the Matching Service produces exactly one fill: its buyer is
    the requester's registry identity, its seller is the treasury account,
    its amount is the requested amount, it references no listing and
    requires no buyer proof; the fill is created in [RESERVED] state with
    an expiry five minutes after the clock read. *)
Theorem treasury_issuance_single_fill (env : Env) (ev : OrderClassified)
    (buyer : User) :
  Matching.intent ev = BUY_TREASURY ->
  registry !! from ev = Some buyer ->
  exists f,
    createFills registry createMarketFills createListing createTransferFill
      env ev = Ok [f] /\
    f_eventId f = eventId ev /\
    buyerId f = onliId buyer /\
    buyerVault f = vaultId buyer /\
    sellerId f = "usr-treasury-vault-system" /\
    sellerVault f = Some "treasury-vault" /\
    fillAmount f = amount ev /\
    f_listingId f = None /\
    requiresBuyerProof f = false /\
    status f = RESERVED /\
    createdAt f = now_created env /\
    expiresAt f = (now_expiry env + 300000)%Z.
Proof.
  intros Hi Hu. rewrite createFills_treasury by exact Hi.
  unfold createTreasuryFill, getUser. rewrite Hu.
  eexists. split; [reflexivity|]. simpl. repeat split.
Qed.

End TreasuryFill.

Section TreasuryFillSamples.

Import Classifier Matching Samples.

(** C8, as stated, fails: the single fill of a treasury issuance is created
    [RESERVED] and carries an expiry, five minutes after the clock read. *)
Lemma treasury_fill_lease_counterexample :
  createFills sampleRegistry noFills noFills noFills sampleMatchEnv
    sampleTreasuryOrder = Ok [sampleTreasuryFill] /\
  holdsLease sampleTreasuryFill = true /\
  expiresAt sampleTreasuryFill = (now_expiry sampleMatchEnv + 5 * 60 * 1000)%Z.
Proof. repeat split. Qed.

Lemma treasury_issuance_single_fill_witness :
  exists f,
    createFills sampleRegistry noFills noFills noFills sampleMatchEnv
      sampleTreasuryOrder = Ok [f] /\
    buyerId f = "alice" /\
    sellerId f = "usr-treasury-vault-system" /\
    f_listingId f = None /\
    status f = RESERVED.
Proof.
  destruct (treasury_issuance_single_fill sampleRegistry noFills noFills
              noFills sampleMatchEnv sampleTreasuryOrder
              {| onliId := "alice"; vaultId := Some "vault-alice" |}
              eq_refl eq_refl)
    as (f & Hf & _ & Hb & _ & Hs & _ & _ & Hl & _ & Hst & _).
  exists f. repeat split; assumption.
Defined.

End TreasuryFillSamples.

(** ** The order book: bounds and monotonicity of [availableAmount] *)

Section OrderBookProperties.

Import OrderBook.

Local Open Scope Z_scope.

Lemma held_app (lid : nat) (rs : list MatchReservation)
    (r : MatchReservation) :
  held lid (rs ++ [r]) = held lid rs + contrib lid r.
Proof.
  induction rs as [|r0 rs IH]; simpl; [lia|]. rewrite IH. lia.
Qed.

Lemma held_insert (lid : nat) (rs : list MatchReservation) (mid : nat)
    (r r' : MatchReservation) :
  rs !! mid = Some r ->
  held lid (<[mid := r']> rs) = held lid rs - contrib lid r + contrib lid r'.
Proof.
  revert mid. induction rs as [|r0 rs IH]; intros [|mid] H; simpl in *;
    try discriminate.
  - injection H as ->. lia.
  - rewrite (IH mid H). lia.
Qed.

Lemma contrib_nonneg (lid : nat) (r : MatchReservation) :
  0 <= r_amount r -> 0 <= contrib lid r.
Proof. unfold contrib. destruct (_ && _)%bool; lia. Qed.

Lemma held_nonneg (lid : nat) (rs : list MatchReservation) :
  (forall r, r ∈ rs -> 0 <= r_amount r) -> 0 <= held lid rs.
Proof.
  induction rs as [|r0 rs IH]; intros H; simpl; [lia|].
  assert (0 <= contrib lid r0).
  { apply contrib_nonneg, H. left. }
  assert (0 <= held lid rs).
  { apply IH. intros r Hr. apply H. right. exact Hr. }
  lia.
Qed.

Lemma held_fresh (lid : nat) (rs : list MatchReservation) :
  (forall r, r ∈ rs -> (r_listingId r < lid)%nat) -> held lid rs = 0.
Proof.
  induction rs as [|r0 rs IH]; intros H; simpl; [reflexivity|].
  rewrite IH by (intros r Hr; apply H; right; exact Hr).
  unfold contrib.
  assert (Hlt : (r_listingId r0 < lid)%nat) by (apply H; left).
  destruct (Nat.eqb_spec (r_listingId r0) lid) as [He|_]; [lia|].
  rewrite andb_false_r. reflexivity.
Qed.

Lemma contrib_released (lid : nat) (r : MatchReservation)
    (s : ReservationStatus) :
  s = CONFIRMED \/ s = EXPIRED -> contrib lid (setStatus r s) = 0.
Proof. intros [-> | ->]; reflexivity. Qed.

Lemma contrib_held (lid : nat) (r : MatchReservation) :
  holds r = true ->
  contrib lid r = if Nat.eqb (r_listingId r) lid then r_amount r else 0.
Proof. intros H. unfold contrib. rewrite H. reflexivity. Qed.

Lemma elem_of_insert_cases (rs : list MatchReservation) (mid : nat)
    (x r : MatchReservation) :
  r ∈ <[mid := x]> rs -> r = x \/ r ∈ rs.
Proof.
  intros H. apply list_elem_of_lookup in H as [j Hj].
  apply list_lookup_insert_Some in Hj as [(_ & -> & _) | (_ & Hj)].
  - left. reflexivity.
  - right. eapply list_elem_of_lookup_2. exact Hj.
Qed.

Lemma bookInv_empty : bookInv emptyBook.
Proof.
  split; simpl.
  - intros i l H. rewrite lookup_nil in H. discriminate.
  - intros r H. inversion H.
Qed.

Lemma createListing_inv (cfg : Config) (now : Time) (seller : string)
    (amt price : Z) (b b' : Book) :
  bookInv b -> 0 < amt ->
  createListing cfg now seller amt price b = Ok b' -> bookInv b'.
Proof.
  intros [Hl Hr] Hpos. unfold createListing.
  destruct (amt <? minAmount cfg); [discriminate|].
  intros [= <-]. split; simpl.
  - intros i l Hi. apply lookup_app_Some in Hi as [Hi | [Hge Hi]].
    + apply Hl, Hi.
    + destruct (i - length (listings b))%nat as [|k] eqn:Hk;
        simpl in Hi; [|rewrite lookup_nil in Hi; discriminate].
      injection Hi as <-. unfold listingOk. simpl.
      rewrite held_fresh; [lia|].
      intros r Hrin. destruct (Hr r Hrin). lia.
  - intros r Hrin. destruct (Hr r Hrin). rewrite length_app. simpl.
    split; [assumption | lia].
Qed.

Lemma marketPurchase_inv (cfg : Config) (now : Time) (evId buyer : string)
    (lid : nat) (requested : Z) (b b' : Book) :
  bookInv b -> 0 < requested ->
  marketPurchase cfg now evId buyer lid requested b = Ok b' -> bookInv b'.
Proof.
  intros [Hl Hr] Hpos. unfold marketPurchase.
  destruct (listings b !! lid) as [l|] eqn:Hlid; [|discriminate].
  destruct (listingExpired now l); [discriminate|].
  destruct (_ && _)%bool; [discriminate|].
  intros [= <-]. destruct (Hl lid l Hlid) as [Ha Hb].
  pose proof (lookup_lt_Some _ _ _ Hlid) as Hlt.
  split; simpl.
  - intros i l0 Hi. unfold listingOk. rewrite held_app.
    apply list_lookup_insert_Some in Hi as [(<- & <- & _) | (Hne & Hi)].
    + simpl. unfold contrib. simpl. rewrite Nat.eqb_refl. simpl. lia.
    + destruct (Hl i l0 Hi) as [Ha0 Hb0]. unfold contrib. simpl.
      destruct (Nat.eqb_spec lid i); [congruence|]. lia.
  - intros r Hrin. rewrite length_insert.
    apply elem_of_app in Hrin as [Hrin | Hrin].
    + apply Hr, Hrin.
    + apply list_elem_of_singleton in Hrin as ->. simpl. split; [lia|exact Hlt].
Qed.

Lemma confirmFill_inv (now : Time) (mid : nat) (b b' : Book) :
  bookInv b -> confirmFill now mid b = Ok b' -> bookInv b'.
Proof.
  intros [Hl Hr]. unfold confirmFill.
  destruct (reservations b !! mid) as [r|] eqn:Hmid; [|discriminate].
  destruct (negb (holds r)); [discriminate|].
  destruct (reservationExpired now r); [discriminate|].
  intros [= <-].
  assert (Hrin : r ∈ reservations b) by (eapply list_elem_of_lookup_2; eauto).
  destruct (Hr r Hrin) as [Hamt Hidx].
  split; simpl.
  - intros i l Hi. destruct (Hl i l Hi) as [Ha Hb]. unfold listingOk.
    rewrite (held_insert i _ mid r _ Hmid).
    rewrite contrib_released by auto.
    pose proof (contrib_nonneg i r Hamt). lia.
  - intros r0 Hr0. apply elem_of_insert_cases in Hr0 as [-> | Hr0].
    + simpl. auto.
    + apply Hr, Hr0.
Qed.

Lemma releaseExpired_inv (now : Time) (mid : nat) (b b' : Book) :
  bookInv b -> releaseExpired now mid b = Ok b' -> bookInv b'.
Proof.
  intros [Hl Hr]. unfold releaseExpired.
  destruct (reservations b !! mid) as [r|] eqn:Hmid; [|discriminate].
  destruct (holds r) eqn:Hh; simpl; [|discriminate].
  destruct (negb (reservationExpired now r)); [discriminate|].
  destruct (listings b !! r_listingId r) as [l|] eqn:Hlid; [|discriminate].
  intros [= <-].
  assert (Hrin : r ∈ reservations b) by (eapply list_elem_of_lookup_2; eauto).
  destruct (Hr r Hrin) as [Hamt Hidx].
  split; simpl.
  - intros i l0 Hi. unfold listingOk.
    rewrite (held_insert i _ mid r _ Hmid).
    rewrite contrib_released by auto. rewrite (contrib_held i r Hh).
    apply list_lookup_insert_Some in Hi as [(<- & <- & _) | (Hne & Hi)].
    + destruct (Hl _ l Hlid) as [Ha Hb]. simpl. rewrite Nat.eqb_refl. lia.
    + destruct (Hl i l0 Hi) as [Ha Hb].
      destruct (Nat.eqb_spec (r_listingId r) i); [congruence|]. lia.
  - intros r0 Hr0. rewrite length_insert.
    apply elem_of_insert_cases in Hr0 as [-> | Hr0].
    + simpl. auto.
    + apply Hr, Hr0.
Qed.

Lemma apply_inv (cfg : Config) (now : Time) (op : Op) (b b' : Book) :
  bookInv b -> admitted op -> apply cfg now op b = Ok b' -> bookInv b'.
Proof.
  intros Hinv Hadm. destruct op; simpl in *.
  - apply createListing_inv; assumption.
  - apply marketPurchase_inv; assumption.
  - apply confirmFill_inv; assumption.
  - apply releaseExpired_inv; assumption.
Qed.

Lemma reachable_inv (cfg : Config) (b : Book) : reachable cfg b -> bookInv b.
Proof.
  induction 1 as [|b b' now op _ IH Hadm Happ].
  - apply bookInv_empty.
  - eapply apply_inv; eauto.
Qed.

Lemma bookInv_bounds (b : Book) (i : nat) (l : Listing) :
  bookInv b -> listings b !! i = Some l ->
  0 <= availableAmount l <= amount l.
Proof.
  intros [Hl Hr] Hi. destruct (Hl i l Hi) as [Ha Hb].
  assert (0 <= held i (reservations b)).
  { apply held_nonneg. intros r Hrin. apply Hr, Hrin. }
  lia.
Qed.

End OrderBookProperties.

Section OrderBookSteps.

Import OrderBook Samples.

Local Open Scope Z_scope.

(** What one operation does to a listing that exists before it: the listing
    stays, its amount is unchanged, and its available amount does not grow,
    unless the operation releases an expired held reservation of that
    listing, which returns exactly the held amount. *)
Lemma apply_available (cfg : Config) (now : Time) (op : Op) (b b' : Book)
    (i : nat) (l : Listing) :
  bookInv b -> admitted op -> apply cfg now op b = Ok b' ->
  listings b !! i = Some l ->
  exists l', listings b' !! i = Some l' /\ amount l' = amount l /\
    (availableAmount l' <= availableAmount l \/
     exists r, releasedBy op b = Some r /\ r_listingId r = i /\
       holds r = true /\ reservationExpired now r = true /\
       availableAmount l' = availableAmount l + r_amount r).
Proof.
  intros [Hl Hr] Hadm Happ Hi. destruct op; simpl in *.
  - unfold createListing in Happ.
    destruct (amt <? minAmount cfg); [discriminate|].
    injection Happ as <-. simpl. exists l.
    split; [apply lookup_app_l_Some, Hi|]. split; [reflexivity|]. left. lia.
  - unfold marketPurchase in Happ.
    destruct (listings b !! lid) as [l0|] eqn:Hlid; [|discriminate].
    destruct (listingExpired now l0); [discriminate|].
    destruct (_ && _)%bool; [discriminate|].
    injection Happ as <-. simpl.
    destruct (decide (lid = i)) as [->|Hne].
    + assert (l0 = l) as -> by congruence.
      exists (setAvailable l (availableAmount l
                              - Z.min requested (availableAmount l))).
      split; [apply list_lookup_insert_eq; eapply lookup_lt_Some; eauto|].
      split; [reflexivity|]. left. simpl.
      destruct (Hl i l Hi) as [Ha _]. lia.
    + exists l. rewrite list_lookup_insert_ne by exact Hne.
      split; [exact Hi|]. split; [reflexivity|]. left. lia.
  - unfold confirmFill in Happ.
    destruct (reservations b !! mid) as [r|]; [|discriminate].
    destruct (negb (holds r)); [discriminate|].
    destruct (reservationExpired now r); [discriminate|].
    injection Happ as <-. simpl. exists l.
    split; [exact Hi|]. split; [reflexivity|]. left. lia.
  - unfold releaseExpired in Happ.
    destruct (reservations b !! mid) as [r|] eqn:Hmid; [|discriminate].
    destruct (holds r) eqn:Hh; simpl in Happ; [|discriminate].
    destruct (reservationExpired now r) eqn:He; simpl in Happ; [|discriminate].
    destruct (listings b !! r_listingId r) as [l0|] eqn:Hlid; [|discriminate].
    injection Happ as <-. simpl.
    destruct (decide (r_listingId r = i)) as [Heq|Hne].
    + rewrite Heq in Hlid. assert (l0 = l) as -> by congruence.
      exists (setAvailable l (availableAmount l + r_amount r)).
      rewrite Heq.
      split; [apply list_lookup_insert_eq; eapply lookup_lt_Some; eauto|].
      split; [reflexivity|]. right. exists r. simpl. auto.
    + exists l. rewrite list_lookup_insert_ne by exact Hne.
      split; [exact Hi|]. split; [reflexivity|]. left. lia.
Qed.

(** C3. After every Matching Engine operation on a reachable book (listing
    creation, reservation creation, fill confirmation, reservation
    release), every listing's [availableAmount] is non-negative and at most
    its total amount; and for every listing that existed before the
    operation, the available amount did not grow, except when the operation
    releases an expired held reservation of that listing, in which case it
    grew by exactly the held amount. *)
Theorem listing_available_bounded_monotone (cfg : Config) (now : Time)
    (op : Op) (b b' : Book) :
  reachable cfg b -> admitted op -> apply cfg now op b = Ok b' ->
  (forall i l', listings b' !! i = Some l' ->
     0 <= availableAmount l' <= amount l') /\
  (forall i l, listings b !! i = Some l ->
     exists l', listings b' !! i = Some l' /\ amount l' = amount l /\
       (availableAmount l' <= availableAmount l \/
        exists r, releasedBy op b = Some r /\ r_listingId r = i /\
          holds r = true /\ reservationExpired now r = true /\
          availableAmount l' = availableAmount l + r_amount r)).
Proof.
  intros Hreach Hadm Happ.
  pose proof (reachable_inv cfg b Hreach) as Hinv.
  split.
  - intros i l' Hi. eapply bookInv_bounds; [|exact Hi].
    eapply apply_inv; eauto.
  - intros i l Hi. eapply apply_available; eauto.
Qed.

Lemma sampleBook2_reachable : reachable defaultConfig sampleBook2.
Proof.
  apply (reach_step defaultConfig sampleBook1 sampleBook2 10
           (MarketPurchase "evt-4" "dave" 0%nat 2500)).
  - apply (reach_step defaultConfig emptyBook sampleBook1 0
             (CreateListing "carol" 6000 2)).
    + apply reach_empty.
    + simpl. lia.
    + reflexivity.
  - simpl. lia.
  - reflexivity.
Defined.

Lemma listing_available_bounded_monotone_witness :
  (forall i l', listings sampleBook3 !! i = Some l' ->
     0 <= availableAmount l' <= amount l') /\
  (forall i l, listings sampleBook2 !! i = Some l ->
     exists l', listings sampleBook3 !! i = Some l' /\ amount l' = amount l /\
       (availableAmount l' <= availableAmount l \/
        exists r, releasedBy (ReleaseExpired 0%nat) sampleBook2 = Some r /\
          r_listingId r = i /\
          holds r = true /\ reservationExpired 400000 r = true /\
          availableAmount l' = availableAmount l + r_amount r)).
Proof.
  apply (listing_available_bounded_monotone defaultConfig 400000
           (ReleaseExpired 0%nat) sampleBook2 sampleBook3).
  - exact sampleBook2_reachable.
  - exact I.
  - reflexivity.
Defined.

End OrderBookSteps.

(** ** Cashier: balanced postings and idempotent delivery *)

Section CashierProperties.

Import Classifier Cashier.

Local Open Scope Z_scope.

Variable Cache : Type.
Variable updateBalanceCache : JournalPost -> Cache -> Cache.
Variable getAffectedAccounts : JournalPost -> list string.
Variables sumDebits sumCredits : JournalPost -> Z.

Local Abbreviation processWith :=
  (processPaymentConfirmedWith Cache updateBalanceCache getAffectedAccounts
     sumDebits sumCredits).
Local Abbreviation process :=
  (processPaymentConfirmed Cache updateBalanceCache getAffectedAccounts
     sumDebits sumCredits).
Local Abbreviation redeliver :=
  (deliver Cache updateBalanceCache getAffectedAccounts sumDebits sumCredits).

Lemma balanced_spec (ls : list JournalLine) :
  balanced ls = true <-> forall c, sumSide Dr c ls = sumSide Cr c ls.
Proof.
  unfold balanced, balancedIn. rewrite andb_true_iff, !Z.eqb_eq. split.
  - intros [Hu Hs] []; assumption.
  - intros H. split; apply H.
Qed.

Lemma unbalanced_spec (ls : list JournalLine) :
  (exists c, sumSide Dr c ls <> sumSide Cr c ls) -> balanced ls = false.
Proof.
  intros [c Hc]. destruct (balanced ls) eqn:Hb; [|reflexivity].
  exfalso. apply Hc. apply balanced_spec. exact Hb.
Qed.

(** The lines of [createJournalEntries] balance in every currency. *)
Lemma journalLines_balanced (ev : PaymentConfirmed) (c : Currency) :
  sumSide Dr c (journalLines ev) = sumSide Cr c (journalLines ev).
Proof.
  unfold journalLines. destruct (pc_intent ev), c; simpl; lia.
Qed.

Lemma createJournalEntries_balanced (uuid : nat) (now : Time)
    (ev : PaymentConfirmed) :
  balanced (lines (createJournalEntries uuid now ev)) = true.
Proof. apply balanced_spec. intros c. apply journalLines_balanced. Qed.

(** C1. Every posting that [createJournalEntries] builds from a
    confirmed-payment event balances in every currency; the poster checks
    the balance before it submits: a journal with a currency whose debit
    and credit sums differ makes the call throw [UnbalancedPosting] with
    nothing posted, stored, cached or published; and a call that returns
    has submitted a balanced journal exactly as it was built. *)
Theorem journal_balanced_checked_before_post
    (create : nat -> Time -> PaymentConfirmed -> JournalPost)
    (env : Env) (ev : PaymentConfirmed) (st : State Cache) :
  let built := createJournalEntries (nextUuid st) (now_posted env) ev in
  let j := create (nextUuid st) (now_posted env) ev in
  (forall c, sumSide Dr c (lines built) = sumSide Cr c (lines built)) /\
  (isAlreadyPosted (keyOf ev) st = false ->
   (exists c, sumSide Dr c (lines j) <> sumSide Cr c (lines j)) ->
   exists st', processWith create env ev st = Threw UnbalancedPosting st' /\
     db st' = db st /\ ledger st' = ledger st /\
     cache st' = cache st /\ bus st' = bus st) /\
  (forall st', isAlreadyPosted (keyOf ev) st = false ->
     processWith create env ev st = Returned st' ->
     (forall c, sumSide Dr c (lines j) = sumSide Cr c (lines j)) /\
     exists j', ledger st' !! (j_eventId j ++ ":" ++ j_matchId j)%string
                = Some j' /\
       (ledger st !! (j_eventId j ++ ":" ++ j_matchId j)%string = None ->
        j' = j)).
Proof.
  intros built j. split; [|split].
  - intros c. apply journalLines_balanced.
  - intros Hnew Hbad. unfold processPaymentConfirmedWith.
    rewrite Hnew. unfold validateBalanced. fold j.
    rewrite (unbalanced_spec _ Hbad).
    eexists. split; [reflexivity|]. simpl. auto.
  - intros st' Hnew. unfold processPaymentConfirmedWith.
    rewrite Hnew. unfold validateBalanced, postToFirefly. fold j.
    destruct (balanced (lines j)) eqn:Hb; [|discriminate].
    destruct (fireflyUp env); simpl; [|discriminate].
    destruct (ledger st !! _) as [j0|] eqn:Hl; intros [= <-]; simpl.
    + split; [apply balanced_spec, Hb|].
      exists j0. split; [exact Hl | discriminate].
    + split; [apply balanced_spec, Hb|].
      exists j. split; [apply lookup_insert_eq | reflexivity].
Qed.

(** A call that returns leaves the key posted. *)
Lemma process_returns_posted (env : Env) (ev : PaymentConfirmed)
    (st st' : State Cache) :
  process env ev st = Returned st' -> isAlreadyPosted (keyOf ev) st' = true.
Proof.
  unfold processPaymentConfirmed, processPaymentConfirmedWith.
  destruct (isAlreadyPosted (keyOf ev) st) eqn:Hp.
  - intros [= <-]. exact Hp.
  - destruct (validateBalanced _); [|discriminate].
    destruct (postToFirefly _ _ _) as [[pid led]|]; [|discriminate].
    intros [= <-]. unfold isAlreadyPosted, storePostingReference. simpl.
    rewrite lookup_insert_eq. reflexivity.
Qed.

(** A delivery of an already posted key returns without any effect. *)
Lemma process_posted_noop (env : Env) (ev : PaymentConfirmed)
    (st : State Cache) :
  isAlreadyPosted (keyOf ev) st = true -> process env ev st = Returned st.
Proof.
  intros H.
  unfold processPaymentConfirmed, processPaymentConfirmedWith.
  rewrite H. reflexivity.
Qed.

Lemma redeliver_posted_noop (envs : list Env) (ev : PaymentConfirmed)
    (st : State Cache) :
  isAlreadyPosted (keyOf ev) st = true -> redeliver envs ev st = st.
Proof.
  intros H. induction envs as [|env envs IH]; simpl.
  - reflexivity.
  - rewrite (process_posted_noop env ev st H). simpl. exact IH.
Qed.

(** The first successful post of a fresh key adds exactly the built journal
    to the ledger and publishes exactly one event. *)
Lemma process_first_post (env : Env) (ev : PaymentConfirmed)
    (st st' : State Cache) :
  isAlreadyPosted (keyOf ev) st = false ->
  ledger st !! keyOf ev = None ->
  process env ev st = Returned st' ->
  let j := createJournalEntries (nextUuid st) (now_posted env) ev in
  ledger st' = <[keyOf ev := j]> (ledger st) /\
  db st' = <[keyOf ev := postingId j]> (db st) /\
  exists posted, bus st' = (bus st ++ [posted])%list /\
    lp_postingId posted = postingId j.
Proof.
  intros Hnew Hfree.
  unfold processPaymentConfirmed, processPaymentConfirmedWith.
  rewrite Hnew. unfold validateBalanced, postToFirefly.
  rewrite createJournalEntries_balanced.
  destruct (fireflyUp env); simpl; [|discriminate].
  change (eventId ev ++ ":" ++ matchId ev)%string with (keyOf ev).
  rewrite Hfree. intros [= <-]. simpl.
  split; [reflexivity|]. split; [reflexivity|].
  eexists. split; reflexivity.
Qed.

(** A delivery that throws leaves the stores as they were. *)
Lemma process_threw_stores (env : Env) (ev : PaymentConfirmed)
    (st st' : State Cache) (e : CashierError) :
  process env ev st = Threw e st' ->
  db st' = db st /\ ledger st' = ledger st /\ cache st' = cache st /\
  bus st' = bus st.
Proof.
  unfold processPaymentConfirmed, processPaymentConfirmedWith.
  destruct (isAlreadyPosted (keyOf ev) st); [discriminate|].
  destruct (validateBalanced _).
  - destruct (postToFirefly _ _ _) as [[pid led]|]; [discriminate|].
    intros [= _ <-]. simpl. auto.
  - intros [= _ <-]. simpl. auto.
Qed.

(** Any sequence of deliveries of one message of a fresh key, failed ones
    included, leaves the ledger untouched or with exactly one posting under
    the key, and the bus with at most one more event. *)
Lemma redeliver_at_most_one_posting (envs : list Env) (ev : PaymentConfirmed)
    (st : State Cache) :
  isAlreadyPosted (keyOf ev) st = false ->
  ledger st !! keyOf ev = None ->
  (ledger (redeliver envs ev st) = ledger st /\
   bus (redeliver envs ev st) = bus st) \/
  (exists j, ledger (redeliver envs ev st) = <[keyOf ev := j]> (ledger st) /\
     length (bus (redeliver envs ev st)) = S (length (bus st))).
Proof.
  revert st. induction envs as [|env envs IH]; intros st Hnew Hfree; simpl.
  - left. auto.
  - destruct (process env ev st) as [st'|e st'] eqn:Hrun; simpl.
    + right.
      rewrite (redeliver_posted_noop envs ev st')
        by (eapply process_returns_posted; eauto).
      destruct (process_first_post env ev st st' Hnew Hfree Hrun)
        as (Hl & _ & posted & Hb & _).
      eexists. split; [exact Hl|]. rewrite Hb, length_app. simpl. lia.
    + destruct (process_threw_stores env ev st st' e Hrun)
        as (Hd & Hl & _ & Hb).
      rewrite <- Hl, <- Hb. apply IH.
      * unfold isAlreadyPosted in *. rewrite Hd. exact Hnew.
      * rewrite Hl. exact Hfree.
Qed.

(** C2. Once a delivery of a confirmed-payment message has returned, every
    re-delivery of the same message, whatever its environment and however
    many times, returns at once and changes no stored state; when the key
    was fresh, the ledger holds exactly one more posting (the built journal
    under the key) and the bus exactly one more event after any number of
    re-deliveries. *)
Theorem ledger_post_idempotent (env : Env) (ev : PaymentConfirmed)
    (st st' : State Cache) (envs : list Env) :
  process env ev st = Returned st' ->
  (forall env', process env' ev st' = Returned st') /\
  redeliver envs ev st' = st' /\
  (isAlreadyPosted (keyOf ev) st = false ->
   ledger st !! keyOf ev = None ->
   let j := createJournalEntries (nextUuid st) (now_posted env) ev in
   ledger (redeliver envs ev st') = <[keyOf ev := j]> (ledger st) /\
   size (ledger (redeliver envs ev st')) = S (size (ledger st)) /\
   length (bus (redeliver envs ev st')) = S (length (bus st))).
Proof.
  intros Hret. pose proof (process_returns_posted _ _ _ _ Hret) as Hposted.
  split; [intros env'; apply process_posted_noop, Hposted|].
  split; [apply redeliver_posted_noop, Hposted|].
  intros Hnew Hfree j. rewrite (redeliver_posted_noop envs ev st' Hposted).
  destruct (process_first_post env ev st st' Hnew Hfree Hret)
    as (Hl & _ & posted & Hb & _).
  rewrite Hl, Hb. split; [reflexivity|]. split.
  - apply map_size_insert_None, Hfree.
  - rewrite length_app. simpl. lia.
Qed.

End CashierProperties.

Section CashierSamples.

Import Classifier Cashier Samples.

Local Open Scope Z_scope.

Local Abbreviation processWith :=
  (processPaymentConfirmedWith unit keepCache noAccounts zeroTotal zeroTotal).
Local Abbreviation process :=
  (processPaymentConfirmed unit keepCache noAccounts zeroTotal zeroTotal).
Local Abbreviation redeliver :=
  (deliver unit keepCache noAccounts zeroTotal zeroTotal).

Lemma journal_balanced_checked_before_post_witness :
  (forall c,
     sumSide Dr c (lines (createJournalEntries 0 20 samplePayment)) =
     sumSide Cr c (lines (createJournalEntries 0 20 samplePayment))) /\
  (exists st',
     processWith lopsidedJournal sampleCashierEnv samplePayment
       sampleCashierState = Threw UnbalancedPosting st' /\
     ledger st' = ledger sampleCashierState /\
     bus st' = bus sampleCashierState) /\
  (exists j',
     ledger samplePostedState !! "evt-5:m-1"%string = Some j' /\
     j' = createJournalEntries 0 20 samplePayment).
Proof.
  split; [|split].
  - apply (journal_balanced_checked_before_post unit keepCache noAccounts
             zeroTotal zeroTotal lopsidedJournal sampleCashierEnv
             samplePayment sampleCashierState).
  - destruct (journal_balanced_checked_before_post unit keepCache noAccounts
                zeroTotal zeroTotal lopsidedJournal sampleCashierEnv
                samplePayment sampleCashierState) as (_ & Hfatal & _).
    destruct Hfatal as (st' & Hthrew & _ & Hl & _ & Hb).
    + reflexivity.
    + exists SPECIES. vm_compute. discriminate.
    + exists st'. auto.
  - destruct (journal_balanced_checked_before_post unit keepCache noAccounts
                zeroTotal zeroTotal createJournalEntries sampleCashierEnv
                samplePayment sampleCashierState) as (_ & _ & Hposted).
    destruct (Hposted samplePostedState) as (_ & j' & Hj' & Hsame).
    + reflexivity.
    + reflexivity.
    + exists j'. split; [exact Hj'|]. apply Hsame. reflexivity.
Defined.

Lemma ledger_post_idempotent_witness :
  process sampleDownEnv samplePayment samplePostedState
    = Returned samplePostedState /\
  redeliver [sampleCashierEnv; sampleDownEnv; sampleCashierEnv]
    samplePayment samplePostedState = samplePostedState /\
  size (ledger (redeliver [sampleCashierEnv; sampleDownEnv; sampleCashierEnv]
                  samplePayment samplePostedState)) = 1%nat /\
  length (bus (redeliver [sampleCashierEnv; sampleDownEnv; sampleCashierEnv]
                 samplePayment samplePostedState)) = 1%nat.
Proof.
  destruct (ledger_post_idempotent unit keepCache noAccounts zeroTotal
              zeroTotal sampleCashierEnv samplePayment sampleCashierState
              samplePostedState
              [sampleCashierEnv; sampleDownEnv; sampleCashierEnv])
    as (Hnoop & Hsame & Hone).
  - reflexivity.
  - split; [apply Hnoop|]. split; [exact Hsame|].
    destruct Hone as (_ & Hsize & Hbus); [reflexivity | reflexivity |].
    split; [exact Hsize | exact Hbus].
Defined.

End CashierSamples.

(** ** Floor Manager: oracle verification *)

Section FloorManagerProperties.

Import FloorManager.

Variable EventReceipt : Type.
Variable revealGenomes : OracleVerifyRequest -> option (list OracleHelix).
Variable finalizeLedgers : OwnershipChanged -> bool.
Variable composeEventReceipt : string -> option EventReceipt.
Variable storeReceipt : EventReceipt -> bool.
Variable cleanup : string -> bool.

Local Abbreviation reconcile :=
  (processOwnershipChanged EventReceipt revealGenomes finalizeLedgers
     composeEventReceipt storeReceipt cleanup).

(** When the oracle shows no record under the destination account, the
    outcome is the oracle-verification failure and never a completion. *)
Lemma owner_not_found_never_completed (now : Time) (ev : OwnershipChanged)
    (helices : list OracleHelix) :
  revealGenomes (oracleRequest (to ev)) = Some helices ->
  (forall h, In h helices -> current_owner_id h <> to ev) ->
  reconcile now ev =
    ReconciliationFailure ev
      (OracleVerificationFailed (Some "Owner not found in oracle")).
Proof.
  intros Hq Hnone. unfold processOwnershipChanged, verifyWithOracle.
  rewrite Hq.
  assert (Hex : existsb (fun helix => String.eqb (current_owner_id helix)
                                        (to ev)) helices = false).
  { destruct (existsb _ helices) eqn:He; [|reflexivity].
    apply existsb_exists in He as (h & Hin & Heq).
    apply String.eqb_eq in Heq. exfalso. exact (Hnone h Hin Heq). }
  simpl. rewrite Hex. reflexivity.
Qed.

(** When the oracle errs, the outcome is a failure as well. *)
Lemma oracle_unavailable_never_completed (now : Time)
    (ev : OwnershipChanged) :
  revealGenomes (oracleRequest (to ev)) = None ->
  reconcile now ev = ReconciliationFailure ev OracleUnavailable.
Proof.
  intros Hq. unfold processOwnershipChanged, verifyWithOracle.
  rewrite Hq. reflexivity.
Qed.

(** The verification reads neither the amount nor the asset receipt: one
    record under the destination account verifies any expected amount. *)
Lemma one_record_verifies_any_amount (ev : OwnershipChanged)
    (helices : list OracleHelix) (h : OracleHelix) (receiptId : string) :
  revealGenomes (oracleRequest (to ev)) = Some helices ->
  In h helices -> current_owner_id h = to ev ->
  verifyWithOracle revealGenomes (to ev) receiptId =
    Ok {| verified := true; helixCount := length helices; reason := None |}.
Proof.
  intros Hq Hin Hown. unfold verifyWithOracle.
  rewrite Hq.
  assert (Hex : existsb (fun helix => String.eqb (current_owner_id helix)
                                        (to ev)) helices = true).
  { apply existsb_exists. exists h. split; [exact Hin|].
    apply String.eqb_eq, Hown. }
  rewrite Hex. reflexivity.
Qed.

End FloorManagerProperties.

Section FloorManagerSamples.

Import FloorManager Samples.

(** C4 at the failing input. The event reports 1000 units delivered to
    alice, the oracle shows a single record under alice: the verification
    succeeds and the ['order.completed'] event with status [COMPLETED] is
    published; the same oracle answer completes an event of 5 units as
    well, so the amount is not compared. *)
Theorem oracle_amount_mismatch_completes :
  amount sampleOwnership = 1000%Z /\
  sampleOracle (oracleRequest (to sampleOwnership)) = Some [sampleHelix] /\
  verifyWithOracle sampleOracle (to sampleOwnership)
    (assetReceiptId sampleOwnership) =
    Ok {| verified := true; helixCount := 1; reason := None |} /\
  processOwnershipChanged string sampleOracle alwaysOk receiptOf alwaysOk
    alwaysOk 50%Z sampleOwnership = Completed "evt-6" "evt-6" 50%Z /\
  processOwnershipChanged string sampleOracle alwaysOk receiptOf alwaysOk
    alwaysOk 50%Z (withAmount 5 sampleOwnership)
    = Completed "evt-6" "evt-6" 50%Z.
Proof. repeat split. Qed.

End FloorManagerSamples.

(** ** Validator: validity of a verification result, and backend errors *)

Section ValidatorProperties.

Import Validator.
Import PrimFloat.

Variable isWithinTimeWindow : Time -> bool.
Variable fromHex : string -> string.
Variable getUSDTPrice : float.
Variables extractFromAddress getPaymentDestination determineMode :
  EventRequest -> string.
Variable fetchPayment : string -> option NOWPayment.
Variable fetchTransaction : string -> option TronTx.
Variable getCurrentBlockNumber : option Z.

Local Abbreviation verifyNow := (verifyPayment isWithinTimeWindow fetchPayment).
Local Abbreviation verifyTron :=
  (verifyTransaction isWithinTimeWindow fromHex fetchTransaction
     getCurrentBlockNumber).
Local Abbreviation validate :=
  (validatePaymentProof isWithinTimeWindow fromHex getUSDTPrice
     extractFromAddress getPaymentDestination determineMode fetchPayment
     fetchTransaction getCurrentBlockNumber).

Example isNOWPaymentId_accepts : isNOWPaymentId "npmt_abc123" = true.
Proof. reflexivity. Qed.

Example isNOWPaymentId_needs_suffix : isNOWPaymentId "npmt_" = false.
Proof. reflexivity. Qed.

Example isNOWPaymentId_rejects_dash : isNOWPaymentId "npmt_ab-1" = false.
Proof. reflexivity. Qed.

Example isTronTxHash_accepts : isTronTxHash Samples.sampleTxHash = true.
Proof. reflexivity. Qed.

Example isTronTxHash_rejects_short : isTronTxHash "abc123" = false.
Proof. reflexivity. Qed.

(** The amount checks are computed in doubles: a price of 1000.01 is
    within a cent of 1000 (the difference rounds below 0.01), and 300000
    micro-units are not equal to 3 times the price 0.1. *)
Example nowAmountCheck_rounds :
  nowAmountCheck (100001 / 100)%float 1000%float = true.
Proof. reflexivity. Qed.

Example nowAmountCheck_rejects_a_cent :
  nowAmountCheck (100002 / 100)%float 1000%float = false.
Proof. reflexivity. Qed.

Example tronAmountCheck_rounds :
  tronAmountCheck 300000%float (3 * (1 / 10))%float = false.
Proof. reflexivity. Qed.

Example tronAmountCheck_exact :
  tronAmountCheck 1000000%float 1%float = true.
Proof. reflexivity. Qed.

(** Neither amount check is a relative tolerance of 0.1 percent: a price
    0.05 percent above the expected 1000 is refused and a price five times
    the expected 0.001 is accepted by the processor path, and one
    micro-unit above the expected 1 is refused by the TRON path. *)
Example amount_checks_not_relative :
  nowAmountCheck (2001 / 2)%float 1000%float = false /\
  nowAmountCheck (5 / 1000)%float (1 / 1000)%float = true /\
  tronAmountCheck 1000001%float 1%float = false.
Proof. repeat split. Qed.

(** The five checks of the payment-processor path, on the payment record. *)
Lemma nowChecks_all (payment : NOWPayment)
    (expectedAmount : float) :
  allChecks (nowChecks isWithinTimeWindow payment expectedAmount) = true <->
  payment_status payment = "finished" /\
  nowAmountCheck (price_amount payment) expectedAmount = true /\
  price_currency payment = "USDT" /\
  (12 <= getConfirmations payment)%Z /\
  isWithinTimeWindow (created_at payment) = true.
Proof.
  unfold allChecks, nowChecks. simpl.
  rewrite !andb_true_iff, !String.eqb_eq, Z.leb_le.
  tauto.
Qed.

(** The seven checks of the direct TRON path, on the transaction. *)
Lemma tronChecks_all (tx : TronTx) (confs : Z)
    (fromAddress toAddress : string) (expectedAmount : float) :
  allChecks (tronChecks isWithinTimeWindow fromHex tx confs fromAddress
               toAddress expectedAmount) = true <->
  contract_address tx = USDT_CONTRACT /\
  fromHex (owner_address tx) = fromAddress /\
  fromHex (to_address tx) = toAddress /\
  tronAmountCheck (value tx) expectedAmount = true /\
  (12 <= confs)%Z /\
  contractRet tx = "SUCCESS" /\
  isWithinTimeWindow (block_timestamp tx) = true.
Proof.
  unfold allChecks, tronChecks. simpl.
  rewrite !andb_true_iff, !String.eqb_eq, Z.leb_le.
  tauto.
Qed.

(** C5, amended. A verification result is valid if and only if every check
    of the answering backend holds. On the payment-processor path these are
    the five checks of status (the payment is [finished]), currency (the
    price currency is USDT), amount (the verifier's amount check against
    the expected amount), confirmations (at least 12) and freshness (the
    creation time is within the window). On the direct TRON path they are
    the same five (status [SUCCESS], the token contract as currency, the
    verifier's amount check, at least 12 confirmations, the block time
    within the window) and two more: the decoded sender and the decoded
    recipient are the expected addresses. *)
Theorem verification_valid_iff_all_checks (proofRef : string)
    (fromAddress toAddress : string) (expectedAmount : float) :
  (forall r, verifyNow proofRef expectedAmount = Some r ->
     exists payment, fetchPayment proofRef = Some payment /\
       (valid r = true <->
        payment_status payment = "finished" /\
        nowAmountCheck (price_amount payment) expectedAmount = true /\
        price_currency payment = "USDT" /\
        (12 <= getConfirmations payment)%Z /\
        isWithinTimeWindow (created_at payment) = true)) /\
  (forall r, verifyTron proofRef fromAddress toAddress expectedAmount
             = Some r ->
     exists tx currentBlock,
       fetchTransaction proofRef = Some tx /\
       getCurrentBlockNumber = Some currentBlock /\
       (valid r = true <->
        contract_address tx = USDT_CONTRACT /\
        fromHex (owner_address tx) = fromAddress /\
        fromHex (to_address tx) = toAddress /\
        tronAmountCheck (value tx) expectedAmount = true /\
        (12 <= currentBlock - blockNumber tx)%Z /\
        contractRet tx = "SUCCESS" /\
        isWithinTimeWindow (block_timestamp tx) = true)).
Proof.
  split.
  - intros r. unfold verifyPayment.
    destruct (fetchPayment proofRef) as [payment|]; [|discriminate].
    intros [= <-]. exists payment. split; [reflexivity|].
    simpl. apply nowChecks_all.
  - intros r. unfold verifyTransaction, tronConfirmations.
    destruct (fetchTransaction proofRef) as [tx|]; [|discriminate].
    destruct getCurrentBlockNumber as [currentBlock|]; [|discriminate].
    intros [= <-]. exists tx, currentBlock.
    split; [reflexivity|]. split; [reflexivity|].
    simpl. apply tronChecks_all.
Qed.

(** An error of the backend that the proof format selects is reported as
    ['verification.error']; the other backend is not consulted. *)
Lemma primary_error_is_verification_error (now : Time) (req : EventRequest)
    (pw : PayWith) (p : string) :
  payWith req = Some pw -> proof pw = Some p -> p <> "" ->
  (isNOWPaymentId p = true /\ fetchPayment p = None) \/
  (isNOWPaymentId p = false /\ isTronTxHash p = true /\
   fetchTransaction p = None) ->
  validate now req =
    inr (createPaymentFailed now (eventId req) verification_error).
Proof.
  intros Hpw Hp Hne Hcase. unfold validatePaymentProof.
  rewrite Hpw, Hp. simpl.
  destruct (String.eqb_spec p "") as [->|_]; [congruence|]. simpl.
  destruct Hcase as [[Hnow Hf] | (Hnow & Htron & Hf)]; rewrite Hnow.
  - unfold verifyPayment. rewrite Hf. reflexivity.
  - rewrite Htron. unfold verifyTransaction. rewrite Hf. reflexivity.
Qed.

End ValidatorProperties.

Section ValidatorSamples.

Import Validator Samples.
Import PrimFloat.

(** C5, as stated, fails on the direct TRON path: the transaction is final
    ([SUCCESS]), in the expected token, of the expected amount, confirmed
    20 times and fresh, and yet the result is not valid, because the sender
    is not the expected one. *)
Lemma verification_five_predicates_counterexample :
  verifyTransaction sampleWindow id sampleFetchTx (Some 100%Z)
    sampleTxHash "TSender" "TDest" 1%float = Some sampleTronResult /\
  valid sampleTronResult = false /\
  failed (checks sampleTronResult) "status_check" = false /\
  failed (checks sampleTronResult) "contract_check" = false /\
  failed (checks sampleTronResult) "amount_check" = false /\
  failed (checks sampleTronResult) "confirmation_check" = false /\
  failed (checks sampleTronResult) "timestamp_check" = false /\
  failed (checks sampleTronResult) "from_check" = true.
Proof. repeat split. Qed.

Lemma verification_valid_iff_all_checks_witness :
  (exists payment, sampleFetchPayment "npmt_abc123" = Some payment /\
     (valid sampleNowResult = true <->
      payment_status payment = "finished" /\
      nowAmountCheck (price_amount payment) 1000%float = true /\
      price_currency payment = "USDT" /\
      (12 <= getConfirmations payment)%Z /\
      sampleWindow (created_at payment) = true)) /\
  (exists tx currentBlock,
     sampleFetchTx sampleTxHash = Some tx /\
     Some 100%Z = Some currentBlock /\
     (valid sampleTronResult = true <->
      contract_address tx = USDT_CONTRACT /\
      id (owner_address tx) = "TSender" /\
      id (to_address tx) = "TDest" /\
      tronAmountCheck (value tx) 1%float = true /\
      (12 <= currentBlock - blockNumber tx)%Z /\
      contractRet tx = "SUCCESS" /\
      sampleWindow (block_timestamp tx) = true)).
Proof.
  split.
  - apply (verification_valid_iff_all_checks sampleWindow id
             sampleFetchPayment sampleFetchTx (Some 100%Z) "npmt_abc123"
             "TSender" "TDest" 1000%float).
    reflexivity.
  - apply (verification_valid_iff_all_checks sampleWindow id
             sampleFetchPayment sampleFetchTx (Some 100%Z) sampleTxHash
             "TSender" "TDest" 1%float).
    reflexivity.
Defined.

(** The amount check of the payment-processor path reads the price of the
    payment, not what was paid: a finished payment priced at the expected
    1000 of which 1 was paid is valid, and 1 is the amount reported. *)
Example amount_check_reads_price_amount :
  exists r,
    verifyPayment sampleWindow
      (fun _ => Some {| payment_status := "finished";
                        price_amount := 1000%float;
                        price_currency := "USDT";
                        actually_paid := 1%float;
                        pay_currency := "usdttrc20";
                        confirmations := Some 15%Z;
                        created_at := 1000%Z |})
      "npmt_abc123" 1000%float = Some r /\
    valid r = true /\ actual_amount r = 1%float.
Proof. eexists. repeat split. Qed.

(** C7 at the failing input. The proof is a payment-processor identifier,
    the payment processor is down, and the TRON backend answers: the caller
    receives the ['verification.error'] failure; no verification result is
    produced from the other backend. *)
Theorem validator_primary_down_no_fallback :
  isNOWPaymentId "npmt_abc123" = true /\
  downFetchPayment "npmt_abc123" = None /\
  sampleFetchTx "npmt_abc123" = Some sampleTronTx /\
  validatePaymentProof sampleWindow id 1%float sampleSender
    sampleDestination sampleMode downFetchPayment sampleFetchTx
    (Some 100%Z) 60%Z sampleRequest =
  inr {| pf_eventId := "evt-7"; pf_reason := verification_error;
         pf_ts := 60%Z |}.
Proof. repeat split. Qed.

End ValidatorSamples.

(** * Further properties of the services *)

(** ** Classifier: the treasury test and what the intent depends on *)

Section ClassifierExtras.

Import Classifier.

(** A destination whose name contains "treasury", in any letter case and
    at any position, counts as the treasury whatever role the registry
    gives it; without a listing reference the intent is then
    [BUY_TREASURY]. *)
Theorem treasury_name_match_wins (now : Time) (input : ClassifierInput)
    (a m b : string) :
  JS.toLowerCase m = "treasury" ->
  ev_to (event input) = a ++ m ++ b ->
  JS.truthyStr (ev_listingId (event input)) = false ->
  isTreasuryDestination (ev_to (event input)) (userRegistry input) = true /\
  intent (decide now input) = BUY_TREASURY.
Proof.
  intros Hm Hto Hl.
  assert (Ht : isTreasuryDestination (ev_to (event input))
                 (userRegistry input) = true).
  { unfold isTreasuryDestination. rewrite Hto, !toLowerCase_append, Hm.
    rewrite includes_skip by apply includes_here. reflexivity. }
  split; [exact Ht|].
  rewrite decide_intent. unfold decideIntent. rewrite Hl, Ht. reflexivity.
Qed.

Lemma treasury_name_match_wins_witness :
  intent (decide 3%Z
    {| event := {| ev_eventId := "evt-8"; ev_from := "alice";
                   ev_to := "not-Treasury-bob"; ev_amount := 10;
                   ev_listingId := None; ev_putProceeds := None |};
       userRegistry := Some {[ "not-Treasury-bob" := TRADER ]};
       in_ts := 0%Z |}) = BUY_TREASURY.
Proof.
  apply (treasury_name_match_wins 3%Z _ "not-" "Treasury" "-bob");
    reflexivity.
Defined.

(** The intent depends on four facts only: whether a listing is referenced,
    the destination, the registry role of the destination, and whether a
    proceeds address is present. The sender, the amount, the event id, the
    timestamps and every other registry entry have no influence. *)
Theorem intent_depends_on_four_facts (now1 now2 : Time)
    (i1 i2 : ClassifierInput) :
  JS.truthyStr (ev_listingId (event i1))
    = JS.truthyStr (ev_listingId (event i2)) ->
  ev_to (event i1) = ev_to (event i2) ->
  registryGet (userRegistry i1) (ev_to (event i1))
    = registryGet (userRegistry i2) (ev_to (event i2)) ->
  JS.truthyObj (ev_putProceeds (event i1))
    = JS.truthyObj (ev_putProceeds (event i2)) ->
  intent (decide now1 i1) = intent (decide now2 i2).
Proof.
  intros Hl Hto Hr Hp. rewrite !decide_intent.
  unfold decideIntent, isTreasuryDestination. rewrite Hl, Hr, Hto, Hp.
  reflexivity.
Qed.

Lemma intent_depends_on_four_facts_witness :
  intent (decide 1%Z
    {| event := {| ev_eventId := "evt-9"; ev_from := "treasury";
                   ev_to := "bob"; ev_amount := 7;
                   ev_listingId := None; ev_putProceeds := None |};
       userRegistry := Some {[ "treasury" := TREASURY ]};
       in_ts := 0%Z |})
  = intent (decide 2%Z
    {| event := {| ev_eventId := "evt-10"; ev_from := "carol";
                   ev_to := "bob"; ev_amount := 900;
                   ev_listingId := Some ""; ev_putProceeds := None |};
       userRegistry := None;
       in_ts := 5%Z |}).
Proof.
  apply intent_depends_on_four_facts; reflexivity.
Defined.

End ClassifierExtras.

(** ** The simplified MCP server: requests, previews, credentials *)

Section McpServerExtras.

Import Classifier McpServer.

(** The [=== 'treasury'] test of [inferTransactionType] adds nothing to its
    [includes] test. *)
Lemma treasury_equality_test_redundant (to : string) :
  (String.eqb to "treasury" || JS.includes to "treasury")%bool
  = JS.includes to "treasury".
Proof.
  destruct (String.eqb_spec to "treasury") as [->|_]; [|reflexivity].
  reflexivity.
Qed.

(** The preview of the MCP server and the Classifier agree on a request
    that carries no payment and whose destination contains "treasury" in
    lower case exactly when it does in any case, provided the Classifier
    reads the same listing id, destination and proceeds and has no
    registry. *)
Theorem preview_agrees_with_classifier (now : Time)
    (request : EventRequest) (input : ClassifierInput) :
  payWith request = None ->
  userRegistry input = None ->
  ev_listingId (event input) = metadataListingId request ->
  ev_to (event input) = to request ->
  JS.truthyObj (ev_putProceeds (event input))
    = JS.truthyObj (putProceeds request) ->
  JS.includes (JS.toLowerCase (to request)) "treasury"
    = JS.includes (to request) "treasury" ->
  MCP.inferTransactionType (inferView request) = intent (decide now input).
Proof.
  intros Hpay Hreg Hl Hto Hp Hcase. rewrite decide_intent.
  unfold decideIntent, isTreasuryDestination, MCP.inferTransactionType.
  unfold inferView. simpl.
  rewrite Hl, Hto, Hreg, Hp, Hcase, Hpay, treasury_equality_test_redundant.
  simpl.
  destruct (JS.truthyStr (metadataListingId request)); [reflexivity|].
  destruct (JS.includes (to request) "treasury"); [reflexivity|].
  destruct (putProceeds request); reflexivity.
Qed.

Lemma preview_agrees_with_classifier_witness :
  MCP.inferTransactionType
    (inferView
       {| eventId := "evt-11"; from := "alice"; to := "bob"; amount := 6000;
          payWith := None;
          putProceeds := Some {| pp_usdtAddress := "TXa1";
                                 pp_chain := "TRON" |};
          metadata := Some {| md_listingId := None; md_note := None |} |})
  = intent (decide 4%Z
      {| event := {| ev_eventId := "evt-11"; ev_from := "alice";
                     ev_to := "bob"; ev_amount := 6000;
                     ev_listingId := None;
                     ev_putProceeds :=
                       Some {| usdtAddress := "TXa1"; chain := "TRON" |} |};
         userRegistry := None; in_ts := 0%Z |}).
Proof.
  apply preview_agrees_with_classifier; reflexivity.
Defined.

(** A fee proof travels inside [payWith] only: when no payment proof is
    given, the request that [handleCreateTransaction] builds has no
    [payWith] and is the same whatever fee proof was passed. *)
Theorem fee_proof_needs_payment_proof (now : Z) (uuid : string)
    (f t : string) (amt : Z) (proofArg fee1 fee2 ch addr lid : option string) :
  JS.truthyStr proofArg = false ->
  payWith (buildEventRequest now uuid
             {| a_from := f; a_to := t; a_amount := amt;
                a_paymentProof := proofArg; a_feeProof := fee1;
                a_chain := ch; a_usdtAddress := addr;
                a_listingId := lid |}) = None /\
  buildEventRequest now uuid
    {| a_from := f; a_to := t; a_amount := amt;
       a_paymentProof := proofArg; a_feeProof := fee1;
       a_chain := ch; a_usdtAddress := addr; a_listingId := lid |}
  = buildEventRequest now uuid
      {| a_from := f; a_to := t; a_amount := amt;
         a_paymentProof := proofArg; a_feeProof := fee2;
         a_chain := ch; a_usdtAddress := addr; a_listingId := lid |}.
Proof.
  intros H. unfold buildEventRequest. simpl. rewrite H. split; reflexivity.
Qed.

Lemma fee_proof_needs_payment_proof_witness :
  payWith (buildEventRequest 1700000000000
             "123e4567-e89b-12d3-a456-426614174000"
             {| a_from := "alice"; a_to := "market"; a_amount := 6000;
                a_paymentProof := None; a_feeProof := Some "npmt_fee1";
                a_chain := None; a_usdtAddress := Some "TXa1";
                a_listingId := None |}) = None.
Proof.
  apply (fee_proof_needs_payment_proof 1700000000000
           "123e4567-e89b-12d3-a456-426614174000" "alice" "market" 6000
           None (Some "npmt_fee1") None None (Some "TXa1") None).
  reflexivity.
Defined.

Lemma clamp_zero (len : nat) : JSString.clamp len 0 = 0.
Proof. unfold JSString.clamp. lia. Qed.

Lemma clamp_beyond (len : nat) (i : Z) :
  (Z.of_nat len <= i)%Z -> JSString.clamp len i = len.
Proof. unfold JSString.clamp. lia. Qed.

Lemma substring_prefix_all (k : string) (n : Z) :
  (Z.of_nat (String.length k) <= n)%Z -> JSString.substring k 0 n = k.
Proof.
  intros H. unfold JSString.substring.
  rewrite clamp_zero, (clamp_beyond _ _ H). simpl.
  rewrite Nat.sub_0_r. apply substring_all. lia.
Qed.

(** The masking of the API key in the confirmation text does not mask a
    short key: [handleConfigure] with a key of at most 8 characters returns
    a text that contains the whole key. *)
Theorem short_api_key_shown_in_full (args : ConfigureArgs)
    (creds : UserCredentials) (text : string) :
  handleConfigure args = Ok (creds, text) ->
  String.length (apiKey creds) <= 8 ->
  String.prefix (apiKey creds) (maskKey (apiKey creds)) = true /\
  JS.includes text (apiKey creds) = true.
Proof.
  unfold handleConfigure.
  destruct (_ || _)%bool; [discriminate|].
  intros [= <- <-] Hlen. cbn [apiKey] in *.
  set (k := default "" (c_apiKey args)) in *.
  assert (Hmask : maskKey k = k ++ "..." ++
            JSString.substringFrom k (Z.of_nat (String.length k) - 4)).
  { unfold maskKey. rewrite (substring_prefix_all k 8) by lia. reflexivity. }
  split.
  - rewrite Hmask. apply prefix_append.
  - rewrite Hmask, ?append_assoc.
    do 6 apply includes_skip. apply includes_here.
Qed.

Lemma short_api_key_shown_in_full_witness :
  exists text,
    handleConfigure {| c_apiKey := Some "key42"; c_secret := Some "s3cret";
                       c_marketplaceUrl := None |}
    = Ok ({| apiKey := "key42"; secret := "s3cret";
             marketplaceUrl := "https://api.species.io" |}, text) /\
    JS.includes text "key42" = true.
Proof.
  eexists. split; [reflexivity|].
  apply (short_api_key_shown_in_full
           {| c_apiKey := Some "key42"; c_secret := Some "s3cret";
              c_marketplaceUrl := None |}
           {| apiKey := "key42"; secret := "s3cret";
              marketplaceUrl := "https://api.species.io" |}).
  - reflexivity.
  - simpl. lia.
Defined.

(** [handleConfigure] rejects a missing or empty key or secret, and what it
    accepts it stores unchanged, with the default marketplace URL when none
    is given. *)
Theorem configure_accepts_iff_key_and_secret (args : ConfigureArgs) :
  (forall creds text, handleConfigure args = Ok (creds, text) ->
     c_apiKey args = Some (apiKey creds) /\ apiKey creds <> "" /\
     c_secret args = Some (secret creds) /\ secret creds <> "" /\
     marketplaceUrl creds
       = default "https://api.species.io" (c_marketplaceUrl args)) /\
  (forall e, handleConfigure args = Err e ->
     e = "API key and secret are required" /\
     (c_apiKey args = None \/ c_apiKey args = Some "" \/
      c_secret args = None \/ c_secret args = Some "")).
Proof.
  unfold handleConfigure.
  destruct (c_apiKey args) as [k|], (c_secret args) as [x|]; simpl.
  - destruct (String.eqb_spec k "") as [->|Hk]; simpl.
    + split; [discriminate|]. intros e [= <-]. auto.
    + destruct (String.eqb_spec x "") as [->|Hx]; simpl.
      * split; [discriminate|]. intros e [= <-]. auto 6.
      * split; [|discriminate]. intros creds text [= <- <-]. simpl. auto.
  - destruct (String.eqb k ""); simpl;
      (split; [discriminate | intros e [= <-]; auto 6]).
  - split; [discriminate|]. intros e [= <-]. auto.
  - split; [discriminate|]. intros e [= <-]. auto.
Qed.

Lemma configure_accepts_iff_key_and_secret_witness :
  "API key and secret are required" = "API key and secret are required" /\
  (Some "" = None \/ Some "" = Some "" \/
   Some "s3cret" = None \/ Some "s3cret" = Some "").
Proof.
  apply (configure_accepts_iff_key_and_secret
           {| c_apiKey := Some ""; c_secret := Some "s3cret";
              c_marketplaceUrl := None |}).
  reflexivity.
Defined.

Variable hmacBase64 : string -> string -> string.

(** The signed message has no separators: moving the end of the body to the
    front of the nonce gives the same signature. *)
Theorem signature_ignores_body_nonce_boundary
    (credentials : option UserCredentials) (body x nonce timestamp : string) :
  createSignature hmacBase64 credentials (body ++ x) nonce timestamp
  = createSignature hmacBase64 credentials body (x ++ nonce) timestamp.
Proof.
  unfold createSignature, signedMessage.
  rewrite !append_assoc. reflexivity.
Qed.

(** With nonces of one length and timestamps of one length (a UUID, an ISO
    instant), the signed message determines the body, the nonce and the
    timestamp. *)
Theorem signed_message_unambiguous (b1 n1 t1 b2 n2 t2 : string) :
  String.length n1 = String.length n2 ->
  String.length t1 = String.length t2 ->
  signedMessage b1 n1 t1 = signedMessage b2 n2 t2 ->
  b1 = b2 /\ n1 = n2 /\ t1 = t2.
Proof.
  unfold signedMessage. intros Hn Ht H.
  assert (Hb : String.length b1 = String.length b2).
  { apply (f_equal String.length) in H. rewrite !length_append in H. lia. }
  destruct (append_inj_length _ _ _ _ Hb H) as [-> H'].
  destruct (append_inj_length _ _ _ _ Hn H') as [-> ->]. auto.
Qed.

Lemma signed_message_unambiguous_witness :
  "{}" = "{}" /\ "n-1" = "n-1" /\ "t-1" = "t-1".
Proof.
  apply (signed_message_unambiguous "{}" "n-1" "t-1" "{}" "n-1" "t-1");
    reflexivity.
Defined.

End McpServerExtras.

(** ** Matching Service: what [processClassifiedOrder] publishes *)

Section MatchingFlowExtras.

Import Classifier Matching MatchingEvents.

Variable DB : Type.
Variable storeMatchReservations : list Fill -> DB -> Result MatchError DB.

Local Abbreviation flow :=
  (processClassifiedOrder DB storeMatchReservations).

(** The exact sum of the fill amounts. *)
Local Abbreviation exactSum :=
  (fun fills : list Fill => fold_right Z.add 0%Z (map fillAmount fills)).

Lemma roundToDouble_small (z : Z) :
  (Z.abs z < 2 ^ 53)%Z -> JSNumber.roundToDouble z = z.
Proof.
  intros H.
  assert (He : (Z.log2 (Z.abs z) - 52 <=? 0)%Z = true).
  { apply Z.leb_le. destruct (Z.eq_dec (Z.abs z) 0%Z) as [->|Hne];
      [simpl; lia|].
    assert (Z.log2 (Z.abs z) < 53)%Z by (apply Z.log2_lt_pow2; lia). lia. }
  unfold JSNumber.roundToDouble. cbv zeta. rewrite He. reflexivity.
Qed.

Lemma add_exact (x y : Z) :
  (0 <= x)%Z -> (0 <= y)%Z -> (x + y < 2 ^ 53)%Z ->
  JSNumber.add x y = (x + y)%Z.
Proof.
  intros Hx Hy H. unfold JSNumber.add.
  destruct (Z.eqb_spec x 0) as [->|_]; [lia|].
  destruct (Z.eqb_spec y 0) as [->|_]; [lia|].
  apply roundToDouble_small. rewrite Z.abs_eq by lia. exact H.
Qed.

(** At 2^53 the sum of numbers is no longer the exact sum: one more than
    2^53 is not a double, and the sum rounds to the even neighbour. *)
Example add_rounds_at_2_53 :
  JSNumber.add (2 ^ 53) 1 = (2 ^ 53)%Z /\
  JSNumber.add (2 ^ 53) 3 = (2 ^ 53 + 4)%Z /\
  JSNumber.add (2 ^ 53 - 1) 1 = (2 ^ 53)%Z /\
  JSNumber.add (2 ^ 54) 3 = (2 ^ 54 + 4)%Z /\
  JSNumber.add (- 2 ^ 53) (-1) = (- 2 ^ 53)%Z.
Proof. repeat split. Qed.

Lemma exactSum_nonneg (fills : list Fill) :
  Forall (fun f => (0 <= fillAmount f)%Z) fills -> (0 <= exactSum fills)%Z.
Proof.
  induction 1 as [|f fills Hf _ IH]; simpl; lia.
Qed.

Lemma fold_left_add_exact (fills : list Fill) (a : Z) :
  (0 <= a)%Z -> Forall (fun f => (0 <= fillAmount f)%Z) fills ->
  (a + exactSum fills < 2 ^ 53)%Z ->
  fold_left (fun sum f => JSNumber.add sum (fillAmount f)) fills a
  = (a + exactSum fills)%Z.
Proof.
  intros Ha Hall. revert a Ha.
  induction Hall as [|f fills Hf Hall IH]; intros a Ha H; simpl in *;
    [lia|].
  pose proof (exactSum_nonneg fills Hall) as Hs.
  rewrite add_exact by lia. rewrite IH by lia. lia.
Qed.

(** Non-negative amounts whose exact sum is below 2^53 are added without
    rounding. *)
Lemma totalOf_sum (fills : list Fill) :
  Forall (fun f => (0 <= fillAmount f)%Z) fills ->
  (exactSum fills < 2 ^ 53)%Z ->
  totalOf fills = exactSum fills.
Proof.
  intros Hall H. unfold totalOf.
  rewrite fold_left_add_exact by (lia || assumption). lia.
Qed.

(** The payment requests of the loop: one per fill that requires a buyer
    proof, in the order of the fills, each carrying the order's event id
    and its fill's match id, buyer and amount; the request of the fill at
    position [i] has the two clock reads made for that position, counted
    from [k]. *)
Lemma paymentRequests_spec (evId : string) (times : nat -> Time * Time)
    (k : nat) (fills : list Fill) :
  exists requests,
    paymentRequests evId times k fills = map Requested requests /\
    Forall2 (fun r f => pr_eventId r = evId /\ pr_matchId r = matchId f /\
                        pr_buyerId r = buyerId f /\
                        pr_amount r = fillAmount f)
      requests (List.filter requiresBuyerProof fills) /\
    (forall i f, fills !! i = Some f -> requiresBuyerProof f = true ->
       exists r, In r requests /\ pr_matchId r = matchId f /\
         pr_buyerId r = buyerId f /\ pr_amount r = fillAmount f /\
         paymentDeadline r = (fst (times (k + i)%nat) + 600000)%Z /\
         pr_ts r = snd (times (k + i))).
Proof.
  revert k. induction fills as [|f fills IH]; intros k.
  - exists []. split; [reflexivity|]. split; [constructor|].
    intros i f H. discriminate.
  - destruct (IH (S k)) as (rs & Hrs & Hall & Ht). simpl. rewrite Hrs.
    destruct (requiresBuyerProof f) eqn:Hp.
    + eexists (_ :: rs). split; [reflexivity|].
      split; [constructor; [simpl; auto | exact Hall]|].
      intros [|i] g Hg Hgp; simpl in Hg.
      * injection Hg as <-. eexists. split; [left; reflexivity|]. simpl.
        rewrite Nat.add_0_r. auto 10.
      * destruct (Ht i g Hg Hgp) as (r & Hin & Hr).
        exists r. split; [right; exact Hin|].
        replace (k + S i) with (S k + i) by lia. exact Hr.
    + exists rs. split; [reflexivity|]. split; [exact Hall|].
      intros [|i] g Hg Hgp; simpl in Hg.
      * injection Hg as <-. congruence.
      * destruct (Ht i g Hg Hgp) as (r & Hin & Hr).
        exists r. split; [exact Hin|].
        replace (k + S i) with (S k + i) by lia. exact Hr.
Qed.

(** When [processClassifiedOrder] returns, the fills were created, there is
    at least one, and they were stored. It has published one
    ['order.matched'] event for the order, with these fills and their
    total as numbers add up (the exact sum when the amounts are not
    negative and the sum is below 2^53), followed by the
    ['payment.requested'] events and nothing else: exactly one per fill
    that requires a buyer proof, in the order of the fills, each with the
    order's event id and its own fill's match id, buyer and amount, a
    deadline ten minutes after the clock read made for that fill, and the
    time of its own emission. *)
Theorem matched_order_publication
    (mkFills : OrderClassified -> Result MatchError (list Fill))
    (t_matched : Time) (times : nat -> Time * Time)
    (ev : OrderClassified) (db db' : DB) (bus bus' : list Event) :
  flow mkFills t_matched times ev db bus = Ok (db', bus') ->
  exists fills m requests,
    mkFills ev = Ok fills /\ fills <> [] /\
    storeMatchReservations fills db = Ok db' /\
    bus' = (bus ++ Matched m :: map Requested requests)%list /\
    om_eventId m = eventId ev /\ om_intent m = Matching.intent ev /\
    om_fills m = fills /\ om_ts m = t_matched /\
    totalAmount m = totalOf fills /\
    (Forall (fun f => (0 <= fillAmount f)%Z) fills ->
     (exactSum fills < 2 ^ 53)%Z -> totalAmount m = exactSum fills) /\
    Forall2 (fun r f => pr_eventId r = eventId ev /\
                        pr_matchId r = matchId f /\
                        pr_buyerId r = buyerId f /\
                        pr_amount r = fillAmount f)
      requests (List.filter requiresBuyerProof fills) /\
    (forall i f, fills !! i = Some f -> requiresBuyerProof f = true ->
       exists r, In r requests /\ pr_matchId r = matchId f /\
         pr_buyerId r = buyerId f /\ pr_amount r = fillAmount f /\
         paymentDeadline r = (fst (times i) + 600000)%Z /\
         pr_ts r = snd (times i)).
Proof.
  unfold processClassifiedOrder.
  destruct (mkFills ev) as [fills|]; [|discriminate].
  destruct (Nat.eqb (length fills) 0) eqn:Hlen; [discriminate|].
  destruct (storeMatchReservations fills db) as [d|] eqn:Hs;
    [|discriminate].
  destruct (paymentRequests_spec (eventId ev) times 0 fills)
    as (requests & Hreq & Hall & Ht).
  rewrite Hreq. intros [= <- <-].
  eexists fills, _, requests. split; [reflexivity|].
  split; [intros ->; discriminate|]. split; [exact Hs|].
  split; [reflexivity|]. cbn [om_eventId om_intent om_fills om_ts totalAmount].
  split; [reflexivity|]. split; [reflexivity|]. split; [reflexivity|].
  split; [reflexivity|]. split; [reflexivity|].
  split; [apply totalOf_sum|]. split; [exact Hall | exact Ht].
Qed.

(** [processClassifiedOrder] throws in three cases only, each before
    anything is published: the fill builder throws, it returns no fill
    ("No fills created"), or storing the reservations throws. *)
Theorem matched_order_failures
    (mkFills : OrderClassified -> Result MatchError (list Fill))
    (t_matched : Time) (times : nat -> Time * Time)
    (ev : OrderClassified) (db : DB) (bus : list Event) (e : MatchError) :
  flow mkFills t_matched times ev db bus = Err e <->
  mkFills ev = Err e \/
  (mkFills ev = Ok [] /\ e = NoFillsCreated (eventId ev)) \/
  (exists fills, mkFills ev = Ok fills /\ fills <> [] /\
     storeMatchReservations fills db = Err e).
Proof.
  unfold processClassifiedOrder.
  destruct (mkFills ev) as [fills|e0].
  - destruct fills as [|f fills]; simpl.
    + split.
      * intros [= <-]. right. left. auto.
      * intros [H | [[_ ->] | (fills & H & Hne & _)]];
          [discriminate | reflexivity | congruence].
    + destruct (storeMatchReservations (f :: fills) db) as [d|e1] eqn:Hs.
      * split; [discriminate|].
        intros [H | [[H _] | (fills' & [= <-] & _ & H)]];
          [discriminate | discriminate | congruence].
      * split.
        -- intros [= <-]. right. right. exists (f :: fills).
           split; [reflexivity|]. split; [discriminate | exact Hs].
        -- intros [H | [[H _] | (fills' & [= <-] & _ & H)]];
             [discriminate | discriminate | congruence].
  - split.
    + intros [= <-]. left. reflexivity.
    + intros [[= <-] | [[H _] | (fills & H & _)]];
        [reflexivity | discriminate | discriminate].
Qed.

Variable registry : gmap string User.
Variables createMarketFills createListing createTransferFill :
  OrderClassified -> Result MatchError (list Fill).

(** A treasury order of a known requester, when the store accepts the
    reservation, publishes exactly one event: ['order.matched'] with one
    fill and the requested amount as total; no payment is requested. *)
Theorem treasury_order_publishes_one_event (env : Env)
    (t_matched : Time) (times : nat -> Time * Time)
    (ev : OrderClassified) (buyer : User) (db : DB) (bus : list Event) :
  Matching.intent ev = BUY_TREASURY ->
  registry !! from ev = Some buyer ->
  (forall fills, exists db', storeMatchReservations fills db = Ok db') ->
  exists db' m,
    flow (createFills registry createMarketFills createListing
            createTransferFill env) t_matched times ev db bus
      = Ok (db', (bus ++ [Matched m])%list) /\
    totalAmount m = amount ev /\ length (om_fills m) = 1 /\
    om_intent m = BUY_TREASURY /\ om_ts m = t_matched.
Proof.
  intros Hi Hu Hstore. unfold processClassifiedOrder.
  rewrite (createFills_treasury registry createMarketFills createListing
             createTransferFill env ev Hi).
  unfold createTreasuryFill, getUser. rewrite Hu. simpl.
  match goal with
  | |- context [storeMatchReservations ?l db] =>
      destruct (Hstore l) as [db' Hdb]; rewrite Hdb
  end.
  eexists db', _. split; [reflexivity|]. simpl.
  rewrite Hi. repeat split.
Qed.

End MatchingFlowExtras.

Section MatchingFlowSamples.

Import Classifier Matching MatchingEvents Samples.

Local Abbreviation keepAll :=
  (fun (fills : list Fill) (db : list Fill) =>
     @Ok MatchError (list Fill) (db ++ fills)%list).

Lemma matched_order_publication_witness :
  exists fills m requests,
    marketFills sampleMarketOrder = Ok fills /\ fills <> [] /\
    keepAll fills [] = Ok sampleMarketFills /\
    sampleMarketBus = ([] ++ Matched m :: map Requested requests)%list /\
    om_eventId m = "evt-19" /\ om_intent m = BUY_MARKET /\
    om_fills m = fills /\ om_ts m = 5%Z /\
    totalAmount m = totalOf fills /\
    (Forall (fun f => (0 <= fillAmount f)%Z) fills ->
     (fold_right Z.add 0%Z (map fillAmount fills) < 2 ^ 53)%Z ->
     totalAmount m = fold_right Z.add 0%Z (map fillAmount fills)) /\
    Forall2 (fun r f => pr_eventId r = "evt-19" /\
                        pr_matchId r = matchId f /\
                        pr_buyerId r = buyerId f /\
                        pr_amount r = fillAmount f)
      requests (List.filter requiresBuyerProof fills) /\
    (forall i f, fills !! i = Some f -> requiresBuyerProof f = true ->
       exists r, In r requests /\ pr_matchId r = matchId f /\
         pr_buyerId r = buyerId f /\ pr_amount r = fillAmount f /\
         paymentDeadline r = (fst (sampleTimes i) + 600000)%Z /\
         pr_ts r = snd (sampleTimes i)).
Proof.
  apply (matched_order_publication (list Fill) keepAll marketFills 5%Z
           sampleTimes sampleMarketOrder [] sampleMarketFills []
           sampleMarketBus).
  reflexivity.
Defined.

Lemma treasury_order_publishes_one_event_witness :
  exists db' m,
    processClassifiedOrder (list Fill) keepAll
      (createFills sampleRegistry noFills noFills noFills sampleMatchEnv)
      5%Z (fun _ => (6%Z, 7%Z)) sampleTreasuryOrder [] []
      = Ok (db', ([] ++ [Matched m])%list) /\
    totalAmount m = 1000%Z /\ length (om_fills m) = 1 /\
    om_intent m = BUY_TREASURY /\ om_ts m = 5%Z.
Proof.
  apply (treasury_order_publishes_one_event (list Fill) keepAll
           sampleRegistry noFills noFills noFills sampleMatchEnv 5%Z
           (fun _ => (6%Z, 7%Z)) sampleTreasuryOrder
           {| onliId := "alice"; vaultId := Some "vault-alice" |} [] []).
  - reflexivity.
  - reflexivity.
  - intros fills. eexists. reflexivity.
Defined.

End MatchingFlowSamples.

(** ** Asset Manager: one event per delivery *)

Section AssetManagerExtras.

Import AssetManager.

Variable Error : Type.
Variable message : Error -> string.
Variable mapErrorReason : Error -> Reason.
Variable execute :
  (unit -> Result Error ExecResult) -> Result Error ExecResult.
Variable issue : IssueRequest -> string -> Result Error IssueResponse.
Variables executeMarketTransfer executeP2PTransfer :
  PaymentConfirmed -> string -> Result Error ExecResult.

Local Abbreviation run :=
  (processPaymentConfirmed Error message mapErrorReason execute issue
     executeMarketTransfer executeP2PTransfer).
Local Abbreviation rerun :=
  (deliver Error message mapErrorReason execute issue
     executeMarketTransfer executeP2PTransfer).
Local Abbreviation outcome :=
  (dispatch Error execute issue executeMarketTransfer executeP2PTransfer).

Lemma run_appends_one (now : Time) (ev : PaymentConfirmed)
    (bus : list Event) :
  exists e, run now ev bus = (bus ++ [e])%list /\
    run now ev [] = [e] /\
    (isChanged e = true <-> exists r, outcome ev = Ok r).
Proof.
  unfold processPaymentConfirmed.
  destruct (outcome ev) as [r|err]; eexists;
    (split; [reflexivity|]); (split; [reflexivity|]); simpl; split;
    try discriminate; eauto.
  intros [r Hr]. discriminate.
Qed.

(** The Asset Manager keeps no record of what it processed: every delivery
    of a message publishes one more event, ['ownership.changed'] when the
    executor returns and ['transfer.failed'] when it throws; [n] deliveries
    publish [n] events of that kind. *)
Theorem every_delivery_publishes (nows : list Time) (ev : PaymentConfirmed)
    (bus : list Event) :
  exists events,
    rerun nows ev bus = (bus ++ events)%list /\
    length events = length nows /\
    Forall (fun e => isChanged e = true <-> exists r, outcome ev = Ok r)
           events.
Proof.
  revert bus. induction nows as [|now nows IH]; intros bus; simpl.
  - exists []. rewrite app_nil_r. auto.
  - destruct (run_appends_one now ev bus) as (e & He & _ & Hk).
    rewrite He. destruct (IH (bus ++ [e])%list) as (events & Hev & Hlen & Hall).
    exists (e :: events). rewrite Hev, <- app_assoc. simpl.
    split; [reflexivity|]. split; [lia|]. constructor; assumption.
Qed.

(** For a treasury issuance, under a retry policy that returns what the
    attempt returns (all attempts agree, the custodian's answer being a
    function of the request and the key): the custodian is asked to issue the event's amount
    (as a decimal string) of SPECIES to the event's [to], under the key
    [eventId:matchId]; its answer becomes an ['ownership.changed'] event of
    operation [Issue] carrying the custodian's issue id, and its error a
    ['transfer.failed'] event carrying the mapped reason and the message. *)
Theorem treasury_issue_events (now : Time) (ev : PaymentConfirmed)
    (bus : list Event) :
  (forall f, execute f = f tt) ->
  intent ev = BUY_TREASURY ->
  match issue {| ir_to := to ev; app_symbol := "SPECIES";
                 ir_amount := pretty (amount ev);
                 which_device := "cloud" |}
              (eventId ev ++ ":" ++ matchId ev) with
  | Ok response =>
      run now ev bus =
      (bus ++ [ Changed {| oc_eventId := eventId ev;
                           oc_matchId := matchId ev;
                           assetReceiptId := issue_id response;
                           operation := Issue;
                           oc_from := from ev;
                           oc_to := to ev;
                           oc_amount := amount ev;
                           onliCloudResponse :=
                             {| issueId := Some (issue_id response);
                                evolveId := None;
                                deliveredAt := delivered_at response;
                                pkgTag := pkg_tag response |};
                           oc_ts := now |} ])%list
  | Err error =>
      run now ev bus =
      (bus ++ [ Failed {| tf_eventId := eventId ev;
                          tf_matchId := matchId ev;
                          reason := mapErrorReason error;
                          details := message error;
                          tf_ts := now |} ])%list
  end.
Proof.
  intros Hretry Hi.
  unfold processPaymentConfirmed, dispatch, executeTreasuryIssue.
  rewrite Hi.
  rewrite Hretry. unfold issueAttempt, issueRequestOf, keyOf.
  destruct (issue _ _) as [response|error]; reflexivity.
Qed.

End AssetManagerExtras.

Section AssetManagerSamples.

Import AssetManager.

Lemma treasury_issue_events_witness :
  processPaymentConfirmed string (fun e => e) (fun _ => provider_unavailable)
    (fun f => f tt)
    (fun req key => Ok {| issue_id := "iss-1";
                          delivered_at := "2025-01-01T00:00:00.000Z";
                          pkg_tag := None |})
    (fun _ _ => Err "no market") (fun _ _ => Err "no p2p") 9%Z
    {| eventId := "evt-12"; matchId := "m-3"; intent := BUY_TREASURY;
       from := "treasury"; to := "alice"; amount := 1000;
       buyerVault := Some "vault-alice"; sellerVault := None; ts := 0%Z |}
    []
  = [ Changed {| oc_eventId := "evt-12"; oc_matchId := "m-3";
                 assetReceiptId := "iss-1"; operation := Issue;
                 oc_from := "treasury"; oc_to := "alice";
                 oc_amount := 1000;
                 onliCloudResponse :=
                   {| issueId := Some "iss-1"; evolveId := None;
                      deliveredAt := "2025-01-01T00:00:00.000Z";
                      pkgTag := None |};
                 oc_ts := 9%Z |} ].
Proof.
  apply (treasury_issue_events string (fun e => e)
           (fun _ => provider_unavailable) (fun f => f tt)
           (fun req key => Ok {| issue_id := "iss-1";
                                 delivered_at := "2025-01-01T00:00:00.000Z";
                                 pkg_tag := None |})
           (fun _ _ => Err "no market") (fun _ _ => Err "no p2p") 9%Z
           {| eventId := "evt-12"; matchId := "m-3"; intent := BUY_TREASURY;
              from := "treasury"; to := "alice"; amount := 1000;
              buyerVault := Some "vault-alice"; sellerVault := None;
              ts := 0%Z |} []).
  - intros f. reflexivity.
  - reflexivity.
Defined.

End AssetManagerSamples.

(** ** Floor Manager: when a receipt is completed *)

Section FloorManagerExtras.

Import FloorManager.

Variable EventReceipt : Type.
Variable finalizeLedgers : OwnershipChanged -> bool.
Variable composeEventReceipt : string -> option EventReceipt.
Variable storeReceipt : EventReceipt -> bool.
Variable cleanup : string -> bool.

Local Abbreviation reconcileWith :=
  (fun revealGenomes =>
     processOwnershipChanged EventReceipt revealGenomes finalizeLedgers
       composeEventReceipt storeReceipt cleanup).

Lemma existsb_owner (owner : string) (helices : list OracleHelix) :
  existsb (fun helix => String.eqb (current_owner_id helix) owner) helices
  = existsb (fun o => String.eqb o owner) (map current_owner_id helices).
Proof.
  induction helices as [|h helices IH]; simpl; [reflexivity|].
  rewrite IH. reflexivity.
Qed.

(** ['order.completed'] is published exactly when every step succeeded: the
    oracle answers with at least one record whose owner is the event's
    [to], the ledgers are finalized, the receipt is composed and stored,
    and the cleanup ran; the event then carries that receipt. *)
Theorem completed_iff_every_step
    (revealGenomes : OracleVerifyRequest -> option (list OracleHelix))
    (now : Time) (ev : OwnershipChanged) :
  isCompleted (reconcileWith revealGenomes now ev) = true <->
  (exists helices h receipt,
     revealGenomes (oracleRequest (to ev)) = Some helices /\
     In h helices /\ current_owner_id h = to ev /\
     finalizeLedgers ev = true /\
     composeEventReceipt (eventId ev) = Some receipt /\
     storeReceipt receipt = true /\
     cleanup (eventId ev) = true /\
     reconcileWith revealGenomes now ev = Completed (eventId ev) receipt now).
Proof.
  unfold processOwnershipChanged, verifyWithOracle.
  destruct (revealGenomes (oracleRequest (to ev))) as [helices|].
  - simpl.
    destruct (existsb _ helices) eqn:Hex; simpl.
    + apply existsb_exists in Hex as (h & Hin & Heq).
      apply String.eqb_eq in Heq.
      destruct (finalizeLedgers ev); simpl.
      * destruct (composeEventReceipt (eventId ev)) as [receipt|]; simpl.
        -- destruct (storeReceipt receipt) eqn:Hs; simpl.
           ++ destruct (cleanup (eventId ev)); simpl.
              ** split; [|reflexivity]. intros _.
                 exists helices, h, receipt. rewrite Hs. auto 10.
              ** split; [discriminate|].
                 intros (? & ? & ? & _ & _ & _ & _ & _ & _ & H & _).
                 discriminate.
           ++ split; [discriminate|].
              intros (? & ? & r & _ & _ & _ & _ & [= <-] & H & _).
              congruence.
        -- split; [discriminate|].
           intros (? & ? & ? & _ & _ & _ & _ & H & _). discriminate.
      * split; [discriminate|].
        intros (? & ? & ? & _ & _ & _ & H & _). discriminate.
    + split; [discriminate|].
      intros (hs & h & ? & [= <-] & Hin & Heq & _).
      assert (existsb (fun helix => String.eqb (current_owner_id helix)
                                      (to ev)) helices = true).
      { apply existsb_exists. exists h. split; [exact Hin|].
        apply String.eqb_eq, Heq. }
      congruence.
  - simpl. split; [discriminate|].
    intros (? & ? & ? & H & _). discriminate.
Qed.

(** The verification reads the owner ids of the oracle records and nothing
    else: two oracle answers with the same owner ids, whatever their
    records say otherwise (kind, face, blacklist flag), give the same
    outcome. *)
Theorem outcome_reads_owner_ids_only
    (oracle1 oracle2 : OracleVerifyRequest -> option (list OracleHelix))
    (now : Time) (ev : OwnershipChanged) :
  option_map (map current_owner_id) (oracle1 (oracleRequest (to ev)))
  = option_map (map current_owner_id) (oracle2 (oracleRequest (to ev))) ->
  reconcileWith oracle1 now ev = reconcileWith oracle2 now ev.
Proof.
  intros H. unfold processOwnershipChanged, verifyWithOracle.
  destruct (oracle1 (oracleRequest (to ev))) as [h1|],
           (oracle2 (oracleRequest (to ev))) as [h2|];
    simpl in H; try discriminate; [|reflexivity].
  injection H as H. simpl. rewrite !existsb_owner, H. reflexivity.
Qed.

End FloorManagerExtras.

Section FloorManagerExtraSamples.

Import FloorManager Samples.

Lemma owner_not_found_never_completed_witness :
  processOwnershipChanged string sampleOracle alwaysOk receiptOf alwaysOk
    alwaysOk 50%Z
    {| eventId := "evt-13"; matchId := "m-4"; assetReceiptId := "issue-78";
       operation := Issue; from := None; to := "bob"; amount := 10;
       ts := 0%Z |}
  = ReconciliationFailure
      {| eventId := "evt-13"; matchId := "m-4"; assetReceiptId := "issue-78";
         operation := Issue; from := None; to := "bob"; amount := 10;
         ts := 0%Z |}
      (OracleVerificationFailed (Some "Owner not found in oracle")).
Proof.
  apply (owner_not_found_never_completed string sampleOracle alwaysOk
           receiptOf alwaysOk alwaysOk 50%Z _ [sampleHelix]).
  - reflexivity.
  - intros h [<- | []]. discriminate.
Defined.

Lemma outcome_reads_owner_ids_only_witness :
  processOwnershipChanged string sampleOracle alwaysOk receiptOf alwaysOk
    alwaysOk 50%Z sampleOwnership
  = processOwnershipChanged string
      (fun _ => Some [ {| which_onli := "genome-2"; what_kind := "asset";
                          what_type := "SPECIES"; what_face := "9";
                          current_owner_id := "alice";
                          current_owner_name := "Someone";
                          last_updated := "2024-06-01T00:00:00.000Z";
                          blacklisted := true |} ])
      alwaysOk receiptOf alwaysOk alwaysOk 50%Z sampleOwnership.
Proof.
  apply outcome_reads_owner_ids_only. reflexivity.
Defined.

End FloorManagerExtraSamples.

(** ** Validator: proof formats, failure reasons, validated orders *)

Section ValidatorFormats.

Import Validator.

(** No proof is both a NOWPayments identifier and a TRON transaction hash,
    so the order of the two format tests does not matter. *)
Theorem proof_formats_disjoint (p : string) :
  isNOWPaymentId p = true -> isTronTxHash p = false.
Proof.
  unfold isNOWPaymentId, isTronTxHash. intros H.
  apply andb_true_iff in H as [H _]. apply andb_true_iff in H as [H _].
  apply prefix_cons in H as [p' ->]. simpl. apply andb_false_r.
Qed.

Lemma proof_formats_disjoint_witness : isTronTxHash "npmt_abc123" = false.
Proof. apply proof_formats_disjoint. reflexivity. Defined.

Lemma isHex_lowerAscii (c : ascii) : isHex (JS.lowerAscii c) = isHex c.
Proof. destruct c as [[] [] [] [] [] [] [] []]; reflexivity. Qed.

Lemma allChars_isHex_toLowerCase (s : string) :
  allChars isHex (JS.toLowerCase s) = allChars isHex s.
Proof.
  induction s as [|c s IH]; simpl; [reflexivity|].
  rewrite isHex_lowerAscii, IH. reflexivity.
Qed.

(** A transaction hash is recognized whatever the case of its letters. *)
Theorem tron_hash_case_insensitive (p : string) :
  isTronTxHash (JS.toLowerCase p) = isTronTxHash p.
Proof.
  unfold isTronTxHash.
  rewrite toLowerCase_length, allChars_isHex_toLowerCase. reflexivity.
Qed.

End ValidatorFormats.

Section ValidatorExtras.

Import Validator.
Import PrimFloat.

Variable isWithinTimeWindow : Time -> bool.
Variable fromHex : string -> string.
Variable getUSDTPrice : float.
Variables extractFromAddress getPaymentDestination determineMode :
  EventRequest -> string.
Variable fetchPayment : string -> option NOWPayment.
Variable fetchTransaction : string -> option TronTx.
Variable getCurrentBlockNumber : option Z.

Local Abbreviation verifyNow := (verifyPayment isWithinTimeWindow fetchPayment).
Local Abbreviation verifyTron :=
  (verifyTransaction isWithinTimeWindow fromHex fetchTransaction
     getCurrentBlockNumber).
Local Abbreviation validate :=
  (validatePaymentProof isWithinTimeWindow fromHex getUSDTPrice
     extractFromAddress getPaymentDestination determineMode fetchPayment
     fetchTransaction getCurrentBlockNumber).
Local Abbreviation expectedOf :=
  (fun req : EventRequest => (amount req * getUSDTPrice)%float).

(** A request without a payment proof, or with an empty one, fails with
    ['proof.missing'], and a proof of neither format with
    ['proof.invalid_format'], whatever the backends would answer. *)
Theorem unusable_proof_fails_before_lookup (now : Time)
    (req : EventRequest) :
  ((payWith req = None \/
    exists pw, payWith req = Some pw /\
      (proof pw = None \/ proof pw = Some "")) ->
   validate now req
     = inr (createPaymentFailed now (eventId req) proof_missing)) /\
  (forall pw p,
     payWith req = Some pw -> proof pw = Some p -> p <> "" ->
     isNOWPaymentId p = false -> isTronTxHash p = false ->
     validate now req
       = inr (createPaymentFailed now (eventId req) proof_invalid_format)).
Proof.
  unfold validatePaymentProof. split.
  - intros [H | (pw & H & [Hp | Hp])]; rewrite H; [reflexivity| |];
      rewrite Hp; reflexivity.
  - intros pw p Hpw Hp Hne Hn Ht. rewrite Hpw, Hp. simpl.
    destruct (String.eqb_spec p "") as [->|_]; [congruence|]. simpl.
    rewrite Hn, Ht. reflexivity.
Qed.

(** An ['order.validated'] event is produced only from a valid verification
    result of the backend that the proof format selects; it is marked
    prepaid and its evidence is the proof with the network, confirmation
    count and actual amount of that result. *)
Theorem validated_only_from_valid_result (now : Time) (req : EventRequest)
    (ov : OrderValidated) :
  validate now req = inl ov ->
  exists pw p r,
    payWith req = Some pw /\ proof pw = Some p /\ p <> "" /\
    ((isNOWPaymentId p = true /\ verifyNow p (expectedOf req) = Some r) \/
     (isNOWPaymentId p = false /\ isTronTxHash p = true /\
      verifyTron p (extractFromAddress req) (getPaymentDestination req)
        (expectedOf req) = Some r)) /\
    valid r = true /\
    ov_eventId ov = eventId req /\ prepaid ov = true /\
    e_proof (evidence ov) = p /\
    e_network (evidence ov) = network r /\
    e_confirmations (evidence ov) = vr_confirmations r /\
    amount_usdt (evidence ov) = actual_amount r.
Proof.
  unfold validatePaymentProof.
  destruct (payWith req) as [pw|]; [|discriminate].
  destruct (proof pw) as [p|] eqn:Hp; simpl; [|discriminate].
  destruct (String.eqb_spec p "") as [->|Hne]; simpl; [discriminate|].
  destruct (isNOWPaymentId p) eqn:Hn.
  - destruct (verifyPayment _ _ p _) as [r|] eqn:Hr; [|discriminate].
    destruct (valid r) eqn:Hv; simpl; [|discriminate].
    intros [= <-]. exists pw, p, r. simpl. auto 15.
  - destruct (isTronTxHash p) eqn:Ht; [|discriminate].
    destruct (verifyTransaction _ _ _ _ p _ _ _) as [r|] eqn:Hr;
      [|discriminate].
    destruct (valid r) eqn:Hv; simpl; [|discriminate].
    intros [= <-]. exists pw, p, r. simpl. auto 15.
Qed.

(** On the check object of the payment-processor path,
    [determineFailureReason] never answers ['validation.failed']: the
    object has no [contract_check], so whenever the confirmation, amount
    and status checks pass the reason is ['invalid.token'], in particular
    when only the currency or the freshness check failed. *)
Theorem processor_failure_reason (payment : NOWPayment)
    (expectedAmount : float) :
  let cs := nowChecks isWithinTimeWindow payment expectedAmount in
  determineFailureReason cs <> validation_failed /\
  (determineFailureReason cs = invalid_token <->
   (12 <= getConfirmations payment)%Z /\
   nowAmountCheck (price_amount payment) expectedAmount = true /\
   payment_status payment = "finished").
Proof.
  unfold determineFailureReason, nowChecks, failed. simpl.
  rewrite <- Z.leb_le, <- String.eqb_eq.
  destruct (12 <=? getConfirmations payment)%Z; simpl.
  - destruct (nowAmountCheck _ _); simpl.
    + destruct (String.eqb _ "finished"); simpl.
      * split; [discriminate|]. split; auto.
      * split; [discriminate|]. split; [discriminate|].
        intros (_ & _ & H). discriminate.
    + split; [discriminate|]. split; [discriminate|].
      intros (_ & H & _). discriminate.
  - split; [discriminate|]. split; [discriminate|].
    intros (H & _). discriminate.
Qed.

(** A well-formed processor proof whose payment has fewer than 12
    confirmations is refused with ['insufficient.confirmations'], whatever
    its other checks say. *)
Theorem too_few_confirmations_refused (now : Time) (req : EventRequest)
    (pw : PayWith) (p : string) (payment : NOWPayment) :
  payWith req = Some pw -> proof pw = Some p ->
  isNOWPaymentId p = true ->
  fetchPayment p = Some payment ->
  (getConfirmations payment < 12)%Z ->
  validate now req =
    inr (createPaymentFailed now (eventId req) insufficient_confirmations).
Proof.
  intros Hpw Hp Hn Hf Hc. unfold validatePaymentProof. rewrite Hpw, Hp.
  assert (Hne : String.eqb p "" = false).
  { destruct (String.eqb_spec p "") as [->|]; [discriminate | reflexivity]. }
  simpl. rewrite Hne. simpl. rewrite Hn. unfold verifyPayment. rewrite Hf.
  assert (Hleb : (12 <=? getConfirmations payment)%Z = false)
    by (apply Z.leb_gt; exact Hc).
  unfold nowChecks, allChecks, determineFailureReason, failed. simpl.
  rewrite Hleb, !andb_false_r. reflexivity.
Qed.

End ValidatorExtras.

Section ValidatorExtraSamples.

Import Validator Samples.
Import PrimFloat.

Local Abbreviation validateSample :=
  (validatePaymentProof sampleWindow id 1%float sampleSender
     sampleDestination sampleMode).

Lemma unusable_proof_fails_before_lookup_witness :
  validateSample sampleFetchPayment sampleFetchTx (Some 100%Z) 60%Z
    {| eventId := "evt-14"; from := "alice"; to := "treasury";
       amount := 1000%float; payWith := None |}
  = inr {| pf_eventId := "evt-14"; pf_reason := proof_missing;
           pf_ts := 60%Z |} /\
  validateSample sampleFetchPayment sampleFetchTx (Some 100%Z) 60%Z
    {| eventId := "evt-15"; from := "alice"; to := "treasury";
       amount := 1000%float;
       payWith := Some {| pw_currency := "USDT"; pw_chain := TRON;
                          proof := Some "npmt_ab-1"; feeProof := None |} |}
  = inr {| pf_eventId := "evt-15"; pf_reason := proof_invalid_format;
           pf_ts := 60%Z |}.
Proof.
  split.
  - apply (unusable_proof_fails_before_lookup sampleWindow id 1%float
             sampleSender sampleDestination sampleMode sampleFetchPayment
             sampleFetchTx (Some 100%Z) 60%Z
             {| eventId := "evt-14"; from := "alice"; to := "treasury";
                amount := 1000%float; payWith := None |}).
    left. reflexivity.
  - apply (proj2 (unusable_proof_fails_before_lookup sampleWindow id 1%float
             sampleSender sampleDestination sampleMode sampleFetchPayment
             sampleFetchTx (Some 100%Z) 60%Z
             {| eventId := "evt-15"; from := "alice"; to := "treasury";
                amount := 1000%float;
                payWith := Some {| pw_currency := "USDT"; pw_chain := TRON;
                                   proof := Some "npmt_ab-1";
                                   feeProof := None |} |})
             {| pw_currency := "USDT"; pw_chain := TRON;
                proof := Some "npmt_ab-1"; feeProof := None |}
             "npmt_ab-1");
      (reflexivity || discriminate).
Defined.

Lemma validated_only_from_valid_result_witness :
  exists pw p r,
    payWith sampleRequest = Some pw /\ proof pw = Some p /\ p <> "" /\
    ((isNOWPaymentId p = true /\
      verifyPayment sampleWindow sampleFetchPayment p
        (amount sampleRequest * 1)%float = Some r) \/
     (isNOWPaymentId p = false /\ isTronTxHash p = true /\
      verifyTransaction sampleWindow id sampleFetchTx (Some 100%Z) p
        (sampleSender sampleRequest) (sampleDestination sampleRequest)
        (amount sampleRequest * 1)%float = Some r)) /\
    valid r = true.
Proof.
  destruct (validated_only_from_valid_result sampleWindow id 1%float
              sampleSender sampleDestination sampleMode sampleFetchPayment
              sampleFetchTx (Some 100%Z) 60%Z sampleRequest
              {| ov_eventId := "evt-7"; mode := "BUY"; prepaid := true;
                 evidence := {| e_proof := "npmt_abc123"; e_network := TRON;
                                e_confirmations := 15;
                                amount_usdt := 1000%float |};
                 ov_ts := 60%Z |} eq_refl)
    as (pw & p & r & H1 & H2 & H3 & H4 & H5 & _).
  exists pw, p, r. auto.
Defined.

Lemma too_few_confirmations_refused_witness :
  validateSample
    (fun _ => Some {| payment_status := "finished";
                      price_amount := 1000%float;
                      price_currency := "USDT";
                      actually_paid := 1000%float;
                      pay_currency := "usdttrc20";
                      confirmations := Some 3%Z;
                      created_at := 1000%Z |})
    sampleFetchTx (Some 100%Z) 60%Z sampleRequest
  = inr {| pf_eventId := "evt-7"; pf_reason := insufficient_confirmations;
           pf_ts := 60%Z |}.
Proof.
  apply (too_few_confirmations_refused sampleWindow id 1%float sampleSender
           sampleDestination sampleMode _ sampleFetchTx (Some 100%Z) 60%Z
           sampleRequest
           {| pw_currency := "USDT"; pw_chain := TRON;
              proof := Some "npmt_abc123"; feeProof := None |}
           "npmt_abc123"
           {| payment_status := "finished"; price_amount := 1000%float;
              price_currency := "USDT"; actually_paid := 1000%float;
              pay_currency := "usdttrc20"; confirmations := Some 3%Z;
              created_at := 1000%Z |});
    try reflexivity.
Defined.

Lemma primary_error_is_verification_error_witness :
  validateSample sampleFetchPayment (fun _ => None) (Some 100%Z) 60%Z
    {| eventId := "evt-16"; from := "alice"; to := "treasury";
       amount := 1%float;
       payWith := Some {| pw_currency := "USDT"; pw_chain := TRON;
                          proof := Some sampleTxHash; feeProof := None |} |}
  = inr {| pf_eventId := "evt-16"; pf_reason := verification_error;
           pf_ts := 60%Z |}.
Proof.
  apply (primary_error_is_verification_error sampleWindow id 1%float
           sampleSender sampleDestination sampleMode sampleFetchPayment
           (fun _ => None) (Some 100%Z) 60%Z
           {| eventId := "evt-16"; from := "alice"; to := "treasury";
              amount := 1%float;
              payWith := Some {| pw_currency := "USDT"; pw_chain := TRON;
                                 proof := Some sampleTxHash;
                                 feeProof := None |} |}
           {| pw_currency := "USDT"; pw_chain := TRON;
              proof := Some sampleTxHash; feeProof := None |}
           sampleTxHash).
  - reflexivity.
  - reflexivity.
  - discriminate.
  - right. repeat split.
Defined.

End ValidatorExtraSamples.

(** ** The NOWPayments webhook *)

Section WebhookExtras.

Import Webhook.

Variable verifyWebhookSignature : Payment -> option string -> bool.
Variable findOrderByPaymentId : string -> option Order.

Local Abbreviation hook :=
  (handleWebhook verifyWebhookSignature findOrderByPaymentId).

(** The webhook answers 401 exactly when the signature is rejected, and
    then emits nothing; otherwise it answers 200, and it emits one
    ['payment.confirmed'] event exactly when the payment is [finished] and
    an order is found for it. The event carries the amount actually paid
    and the confirmation count as received: neither is compared with a
    minimum or with the order. *)
Theorem webhook_emission (now : Time) (signature : option string)
    (payment : Payment) :
  let '(response, emitted) := hook now signature payment in
  (statusCode response = 401 <->
   verifyWebhookSignature payment signature = false) /\
  (statusCode response = 200 <->
   verifyWebhookSignature payment signature = true) /\
  (emitted = [] \/
   exists order,
     verifyWebhookSignature payment signature = true /\
     payment_status payment = "finished" /\
     findOrderByPaymentId (payment_id payment) = Some order /\
     emitted = [ {| eventId := o_eventId order;
                    paymentId := payment_id payment;
                    amount := actually_paid payment;
                    currency := "USDT";
                    pc_confirmations := confirmations payment;
                    ts := now |} ]) /\
  (verifyWebhookSignature payment signature = true ->
   payment_status payment = "finished" ->
   forall order, findOrderByPaymentId (payment_id payment) = Some order ->
   length emitted = 1).
Proof.
  unfold handleWebhook.
  destruct (verifyWebhookSignature payment signature); simpl.
  - split; [split; discriminate|]. split; [split; reflexivity|].
    destruct (String.eqb_spec (payment_status payment) "finished")
      as [Hf|Hf].
    + destruct (findOrderByPaymentId (payment_id payment)) as [order|].
      * split; [right; exists order; auto|]. reflexivity.
      * split; [left; reflexivity|]. intros _ _ order H. discriminate.
    + split; [left; reflexivity|]. intros _ H. contradiction.
  - split; [split; reflexivity|]. split; [split; discriminate|].
    split; [left; reflexivity|]. discriminate.
Qed.

End WebhookExtras.

(** ** Cashier: the treasury journal *)

Section CashierExtras.

Import Classifier Cashier.

(** The journal of a treasury issuance has four lines; its debits and its
    credits are the event's amount in SPECIES and the event's USDT amount
    in USDT. The fee and the seller of the event appear in no line: the
    accounts are the buyer's, the treasury's and the assurance fund's. *)
Theorem treasury_journal_totals (uuid : nat) (now : Time)
    (ev : PaymentConfirmed) :
  pc_intent ev = BUY_TREASURY ->
  let ls := lines (createJournalEntries uuid now ev) in
  length ls = 4 /\
  sumSide Dr SPECIES ls = amount ev /\ sumSide Cr SPECIES ls = amount ev /\
  sumSide Dr USDT ls = usdtAmount ev /\ sumSide Cr USDT ls = usdtAmount ev /\
  Forall (fun l => onliId (account l) = buyerId ev \/
                   onliId (account l) = "treasury" \/
                   onliId (account l) = "assurance") ls.
Proof.
  intros Hi. simpl. unfold journalLines. rewrite Hi. simpl.
  repeat split; try lia.
  repeat (constructor; [simpl; auto|]). constructor.
Qed.

Lemma treasury_journal_totals_witness :
  sumSide Dr SPECIES (lines (createJournalEntries 0 20%Z Samples.samplePayment))
    = 1000%Z /\
  sumSide Cr USDT (lines (createJournalEntries 0 20%Z Samples.samplePayment))
    = 1000000000%Z.
Proof.
  destruct (treasury_journal_totals 0 20%Z Samples.samplePayment eq_refl)
    as (_ & Hd & _ & _ & Hc & _).
  split; [exact Hd | exact Hc].
Defined.

End CashierExtras.

Section ValidatorReasons.

Import Validator.
Import PrimFloat.

Variable isWithinTimeWindow : Time -> bool.
Variable fromHex : string -> string.

(** On the check object of the direct TRON path, the reason is
    ['validation.failed'] exactly when the confirmation, amount, status and
    contract checks pass: a wrong sender, a wrong recipient or a stale
    transaction has no reason of its own. *)
Theorem tron_failure_reason (tx : TronTx) (confs : Z)
    (fromAddress toAddress : string) (expectedAmount : float) :
  determineFailureReason
    (tronChecks isWithinTimeWindow fromHex tx confs fromAddress toAddress
       expectedAmount) = validation_failed <->
  (12 <= confs)%Z /\
  tronAmountCheck (value tx) expectedAmount = true /\
  contractRet tx = "SUCCESS" /\
  contract_address tx = USDT_CONTRACT.
Proof.
  unfold determineFailureReason, tronChecks, failed. simpl.
  rewrite <- Z.leb_le, <- !String.eqb_eq.
  destruct (12 <=? confs)%Z; simpl;
    [|split; [discriminate | intros (H & _); discriminate]].
  destruct (tronAmountCheck _ _); simpl;
    [|split; [discriminate | intros (_ & H & _); discriminate]].
  destruct (String.eqb (contractRet tx) "SUCCESS"); simpl;
    [|split; [discriminate | intros (_ & _ & H & _); discriminate]].
  destruct (String.eqb (contract_address tx) USDT_CONTRACT); simpl;
    [|split; [discriminate | intros (_ & _ & _ & H); discriminate]].
  split; auto.
Qed.

End ValidatorReasons.

Section WebhookSamples.

Import Webhook.

Lemma webhook_emission_witness :
  length
    (snd (handleWebhook (fun _ sig => JS.truthyStr sig)
            (fun pid => Some {| o_eventId := "evt-17" |}) 70%Z (Some "sig")
            {| payment_status := "finished"; payment_id := "npmt_abc123";
               actually_paid := 1 # 2; confirmations := Some 0%Z |})) = 1.
Proof.
  pose proof (webhook_emission (fun _ sig => JS.truthyStr sig)
                (fun pid => Some {| o_eventId := "evt-17" |}) 70%Z
                (Some "sig")
                {| payment_status := "finished"; payment_id := "npmt_abc123";
                   actually_paid := 1 # 2; confirmations := Some 0%Z |})
    as H.
  destruct (handleWebhook _ _ _ _ _) as [response emitted] eqn:E.
  destruct H as (_ & _ & _ & H). simpl.
  apply (H eq_refl eq_refl {| o_eventId := "evt-17" |} eq_refl).
Defined.

End WebhookSamples.
